(** * YaDisk: a shallow embedding of the Yandex.Disk client

    The client of [Basic_Python_Diploma/YaDisk.py] talks to a remote
    HTTP service, keeps an in-memory catalogue ([all_files],
    [all_folders]) and prints to the terminal.  The embedding threads a
    [world] (remote service state, requests sent, terminal output,
    keyboard input, catalogue) through a small state-and-exception
    monad.  Loops whose termination depends on the remote service (the
    recursive walk, the existence poll) take fuel. *)

From Stdlib Require Import String Ascii List ZArith Lia Bool Arith.
From Stdlib Require Import DecimalString Sorted Permutation.
From Stdlib Require Import Nnat DecimalNat DecimalN DecimalPos.
Import ListNotations.

Local Open Scope string_scope.
Local Open Scope Z_scope.

Set Warnings "-register-all".

(** ** Python strings *)

Module PyStr.

(** [sub in s] *)
Fixpoint contains (sub s : string) : bool :=
  if String.prefix sub s then true
  else match s with
       | EmptyString => false
       | String _ s' => contains sub s'
       end.

(** [s.split(sep)] for a non-empty [sep]: the scan cuts at every
    occurrence of [sep], leftmost first, and skips the separator.
    [skip] counts the characters of a separator still to be dropped,
    [cur] is the piece being read. *)
Fixpoint split_from (sep : string) (skip : nat) (cur s : string) : list string :=
  match s with
  | EmptyString => [cur]
  | String c s' =>
      match skip with
      | S k => split_from sep k cur s'
      | O =>
          if String.prefix sep s
          then cur :: split_from sep (Nat.pred (String.length sep)) EmptyString s'
          else split_from sep O (cur ++ String c EmptyString) s'
      end
  end.

Definition split (s sep : string) : list string :=
  split_from sep O EmptyString s.

(** [sep.join(parts)] *)
Definition join (sep : string) (parts : list string) : string :=
  String.concat sep parts.

(** [s.replace(old, new)] for a non-empty [old] *)
Definition replace (s old new : string) : string := join new (split s old).

(** The characters of a string: a UTF-8 continuation byte belongs to
    the character before it. *)
Definition is_continuation (c : ascii) : bool :=
  let n := nat_of_ascii c in ((128 <=? n) && (n <? 192))%nat.

Fixpoint chars (s : string) : list string :=
  match s with
  | EmptyString => []
  | String c s' =>
      match s' with
      | EmptyString => [String c EmptyString]
      | String c' _ =>
          if is_continuation c' then
            match chars s' with
            | h :: t => String c h :: t
            | [] => [String c EmptyString]
            end
          else String c EmptyString :: chars s'
      end
  end.

(** [len(s)] *)
Definition len (s : string) : nat := List.length (chars s).

(** [str(n)] for a natural number *)
Definition of_nat (n : nat) : string :=
  NilZero.string_of_uint (Nat.to_uint n).

End PyStr.

(** ** JSON values, dicts and exceptions *)

Inductive json : Type :=
| JNull
| JBool (b : bool)
| JNum (n : Z)
| JStr (s : string)
| JList (l : list json)
| JObj (d : list (string * json)).

(** A Python dict with string keys, in insertion order. *)
Definition dict := list (string * json).

Inductive exn : Type :=
| KeyError (k : string)
| TypeError
| ValueError
| IndexError
| OSError
| OverflowError.

Fixpoint dict_get (k : string) (d : dict) : option json :=
  match d with
  | [] => None
  | (k', v) :: d' => if String.eqb k k' then Some v else dict_get k d'
  end.

(** [d[k] = v]: an existing key keeps its place, a new key goes last. *)
Fixpoint dict_set (k : string) (v : json) (d : dict) : dict :=
  match d with
  | [] => [(k, v)]
  | (k', v') :: d' =>
      if String.eqb k k' then (k', v) :: d' else (k', v') :: dict_set k v d'
  end.

(** [d.update(other)] *)
Definition dict_update (d other : dict) : dict :=
  fold_left (fun acc kv => dict_set (fst kv) (snd kv) acc) other d.

(** [d[k]]: KeyError on a missing key. *)
Definition subscript (d : dict) (k : string) : exn + json :=
  match dict_get k d with
  | Some v => inr v
  | None => inl (KeyError k)
  end.

(** [j[k]] on a parsed body: only a JSON object can be subscripted by
    a string. *)
Definition jsubscript (j : json) (k : string) : exn + json :=
  match j with
  | JObj d => subscript d k
  | _ => inl TypeError
  end.

Definition json_is_str (j : json) (s : string) : bool :=
  match j with
  | JStr s' => String.eqb s' s
  | _ => false
  end.

Definition as_int (j : json) : exn + Z :=
  match j with JNum n => inr n | _ => inl TypeError end.

Definition as_str (j : json) : exn + string :=
  match j with JStr s => inr s | _ => inl TypeError end.

Definition as_list (j : json) : exn + list json :=
  match j with JList l => inr l | _ => inl TypeError end.

Definition as_dict (j : json) : exn + dict :=
  match j with JObj d => inr d | _ => inl TypeError end.

(** ** The remote catalogue model: [YaFile] and [YaFolder] *)

Record YaFile : Type := mkYaFile {
  f_antivirus_status : json;
  f_size : Z;
  f_comment_ids : json;
  f_name : string;
  f_exif : json;
  f_created : json;
  f_resource_id : json;
  f_modified : json;
  f_mime_type : json;
  f_link : json;
  f_path : string;
  f_media_type : json;
  f_sha256 : json;
  f_md5 : json;
  f_type : json;
  f_revision : json }.

Record YaFolder : Type := mkYaFolder {
  d_name : string;
  d_exif : json;
  d_created : json;
  d_resource_id : json;
  d_modified : json;
  d_comment_ids : json;
  d_path : string;
  d_type : json;
  d_revision : json;
  d_size : Z }.

(** Sequencing of the fallible reads of a constructor. *)
Definition ebind {A B : Type} (x : exn + A) (f : A -> exn + B) : exn + B :=
  match x with
  | inl e => inl e
  | inr a => f a
  end.

Notation "'let?' x ':=' c 'in' k" := (ebind c (fun x => k))
  (at level 10, x name, c at level 100, k at level 200).

(** [YaFile.__init__]: the sixteen reads, in source order.  The fields
    the program computes with ([size], [name], [path]) are typed here;
    a response with another JSON type in them is a [TypeError]. *)
Definition YaFile_init (item : dict) : exn + YaFile :=
  let? antivirus_status := subscript item "antivirus_status" in
  let? size := ebind (subscript item "size") as_int in
  let? comment_ids := subscript item "comment_ids" in
  let? name := ebind (subscript item "name") as_str in
  let? exif := subscript item "exif" in
  let? created := subscript item "created" in
  let? resource_id := subscript item "resource_id" in
  let? modified := subscript item "modified" in
  let? mime_type := subscript item "mime_type" in
  let? link := subscript item "file" in
  let? path := ebind (subscript item "path") as_str in
  let? media_type := subscript item "media_type" in
  let? sha256 := subscript item "sha256" in
  let? md5 := subscript item "md5" in
  let? type := subscript item "type" in
  let? revision := subscript item "revision" in
  inr (mkYaFile antivirus_status size comment_ids name exif created
         resource_id modified mime_type link path media_type sha256 md5
         type revision).

(** [YaFolder.__init__] *)
Definition YaFolder_init (item : dict) : exn + YaFolder :=
  let? name := ebind (subscript item "name") as_str in
  let? exif := subscript item "exif" in
  let? created := subscript item "created" in
  let? resource_id := subscript item "resource_id" in
  let? modified := subscript item "modified" in
  let? comment_ids := subscript item "comment_ids" in
  let? path := ebind (subscript item "path") as_str in
  let? type := subscript item "type" in
  let? revision := subscript item "revision" in
  let? size := ebind (subscript item "size") as_int in
  inr (mkYaFolder name exif created resource_id modified comment_ids
         path type revision size).

(** ** HTTP *)

Inductive http_method : Type := GET | PUT | DELETE | POST.


(** The body of an upload: the open file as it is
    ([requests.put(url, data=_file)]) or wrapped by a
    [MultipartEncoder] with one field. *)
Inductive payload : Type :=
| RawFile (content : string)
| Multipart (field filename content_type content : string).

Record request : Type := mkRequest {
  req_method : http_method;
  req_url : string;
  req_headers : list (string * string);
  req_params : dict;
  req_data : option payload }.

Record response : Type := mkResponse {
  status_code : Z;
  body : json }.

(** ** The local file system

    The working directory is a tree; names are looked up in listing
    order.  Paths use the Windows separator [\] (the program splits
    local paths on [.\]) and, like Windows, also accept [/]. *)

Inductive fsnode : Type :=
| FsFile (content : string)
| FsDir (entries : list (string * fsnode)).

Module LocalFs.

Definition bslash : string := String (ascii_of_nat 92) EmptyString.

(** [os.path.join(a, b)] of [ntpath] for a relative [b]. *)
Definition join (a b : string) : string :=
  match a with
  | EmptyString => b
  | _ =>
      let last := String.substring (Nat.pred (String.length a)) 1 a in
      if (String.eqb last bslash || String.eqb last "/" || String.eqb last ":")%bool
      then a ++ b
      else a ++ bslash ++ b
  end.

(** The components of a relative path: both separators cut, empty
    components and [.] are dropped. *)
Definition components (p : string) : list string :=
  filter (fun c => negb (String.eqb c EmptyString || String.eqb c ".")%bool)
         (PyStr.split (PyStr.replace p bslash "/") "/").

Fixpoint find_entry (name : string) (es : list (string * fsnode)) : option fsnode :=
  match es with
  | [] => None
  | (n, x) :: es' => if String.eqb name n then Some x else find_entry name es'
  end.

Fixpoint resolve (n : fsnode) (cs : list string) : option fsnode :=
  match cs with
  | [] => Some n
  | c :: cs' =>
      match n with
      | FsFile _ => None
      | FsDir es =>
          match find_entry c es with
          | Some n' => resolve n' cs'
          | None => None
          end
      end
  end.

Definition lookup (cwd : fsnode) (p : string) : option fsnode :=
  resolve cwd (components p).

(** [os.path.exists(os.path.abspath(p))] *)
Definition exists_ (cwd : fsnode) (p : string) : bool :=
  match lookup cwd p with Some _ => true | None => false end.

(** [os.path.isdir(p)] *)
Definition isdir (cwd : fsnode) (p : string) : bool :=
  match lookup cwd p with Some (FsDir _) => true | _ => false end.

(** [os.listdir(p)] *)
Definition listdir (cwd : fsnode) (p : string) : exn + list string :=
  match lookup cwd p with
  | Some (FsDir es) => inr (map fst es)
  | _ => inl OSError
  end.

(** [open(p, "rb")], read to the end: a directory cannot be opened. *)
Definition open_rb (cwd : fsnode) (p : string) : exn + string :=
  match lookup cwd p with
  | Some (FsFile c) => inr c
  | _ => inl OSError
  end.

(** [os.path.getsize(p)] of a file *)
Definition getsize (cwd : fsnode) (p : string) : exn + Z :=
  match lookup cwd p with
  | Some (FsFile c) => inr (Z.of_nat (String.length c))
  | Some (FsDir _) => inr 0
  | None => inl OSError
  end.

Definition is_dir_node (n : fsnode) : bool :=
  match n with FsDir _ => true | FsFile _ => false end.

Definition dirnames (es : list (string * fsnode)) : list string :=
  map fst (filter (fun e => is_dir_node (snd e)) es).

Definition filenames (es : list (string * fsnode)) : list string :=
  map fst (filter (fun e => negb (is_dir_node (snd e))) es).

(** [os.walk(root)], top-down: a directory's triple, then the walks of
    its sub-directories in listing order. *)
Fixpoint walk (root : string) (n : fsnode) : list (string * list string * list string) :=
  match n with
  | FsFile _ => []
  | FsDir es =>
      (root, dirnames es, filenames es) ::
      (fix subdirs (l : list (string * fsnode)) :=
         match l with
         | [] => []
         | (name, child) :: l' => (walk (join root name) child ++ subdirs l')%list
         end) es
  end.

End LocalFs.

(** ** Terminal *)

(** What [print] is given.  An entry prints as its [name]
    ([__repr__]). *)
Inductive pyobj : Type :=
| ONone
| OStr (s : string)
| OInt (n : Z)
| OJson (j : json)
| ODict (d : dict)
| OResponse (r : response)
| OFile (f : YaFile)
| OFolder (d : YaFolder)
| OList (l : list pyobj)
| OTuple (l : list pyobj).

Inductive term_event : Type :=
| TPrint (args : list pyobj) (sep end_ : string)
| TWrite (s : string)
| TInput (prompt : string).

Definition nl : string := String (ascii_of_nat 10) EmptyString.
Definition dq : string := String (ascii_of_nat 34) EmptyString.

(** An entry of either collection, as [delete] receives them. *)
Inductive entry : Type :=
| EFile (f : YaFile)
| EFolder (d : YaFolder).

Definition entry_name (e : entry) : string :=
  match e with EFile f => f_name f | EFolder d => d_name d end.

Definition entry_path (e : entry) : string :=
  match e with EFile f => f_path f | EFolder d => d_path d end.

Definition entry_size (e : entry) : Z :=
  match e with EFile f => f_size f | EFolder d => d_size d end.

Definition entry_obj (e : entry) : pyobj :=
  match e with EFile f => OFile f | EFolder d => OFolder d end.

(** Either collection of the catalogue. *)
Inductive collection : Type :=
| Files (l : list YaFile)
| Folders (l : list YaFolder).

Definition entries (c : collection) : list entry :=
  match c with
  | Files l => map EFile l
  | Folders l => map EFolder l
  end.

(** ** A model of the remote service

    A small disk service used to run the client on concrete inputs: a
    flat list of nodes addressed by path, folder creation that needs
    the parent, and a deletion that stays visible for [lag] more
    metadata queries. *)

Module Model.

Record node : Type := mkNode {
  n_parent : string;
  n_name : string;
  n_dir : bool;
  n_size : Z }.

Record state : Type := mkState {
  nodes : list node;
  fading : list (string * nat);
  lag : nat }.

Definition root : string := "disk:/".

Definition URL : string := "https://cloud-api.yandex.net/v1/disk/resources".

Definition uploader : string := "https://uploader.disk.yandex.net/".

Definition child_path (parent name : string) : string :=
  if String.eqb parent root then parent ++ name else parent ++ "/" ++ name.

Definition n_path (n : node) : string := child_path (n_parent n) (n_name n).

Definition normalize (p : string) : string :=
  if String.prefix root p then p
  else if String.prefix "/" p then "disk:" ++ p
  else root ++ p.

(** The parent of a normalized path. *)
Definition parent_of (p : string) : string :=
  let cs := PyStr.split p "/" in
  match removelast cs with
  | [] | [_] => root
  | front => PyStr.join "/" front
  end.

Definition name_of (p : string) : string :=
  last (PyStr.split p "/") EmptyString.

Definition find_node (p : string) (s : state) : option node :=
  find (fun n => String.eqb (n_path n) p) (nodes s).

Definition is_folder (p : string) (s : state) : bool :=
  String.eqb p root ||
  match find_node p s with
  | Some n => n_dir n
  | None => false
  end.

Definition file_item (n : node) : dict :=
  [("antivirus_status", JStr "clean"); ("size", JNum (n_size n));
   ("comment_ids", JObj []); ("name", JStr (n_name n)); ("exif", JObj []);
   ("created", JStr "2020-05-01T10:00:00+00:00"); ("resource_id", JStr (n_path n));
   ("modified", JStr "2020-05-01T10:00:00+00:00"); ("mime_type", JStr "text/plain");
   ("file", JStr ("https://downloader.disk.yandex.net/" ++ n_path n));
   ("path", JStr (n_path n)); ("media_type", JStr "document");
   ("sha256", JStr "0"); ("md5", JStr "0"); ("type", JStr "file");
   ("revision", JNum 1)].

Definition dir_item (n : node) : dict :=
  [("name", JStr (n_name n)); ("exif", JObj []);
   ("created", JStr "2020-05-01T10:00:00+00:00"); ("resource_id", JStr (n_path n));
   ("modified", JStr "2020-05-01T10:00:00+00:00"); ("comment_ids", JObj []);
   ("path", JStr (n_path n)); ("type", JStr "dir"); ("revision", JNum 1)].

Definition item (n : node) : dict :=
  if n_dir n then dir_item n else file_item n.

Definition children (p : string) (s : state) : list node :=
  filter (fun n => String.eqb (n_parent n) p) (nodes s).

Definition message (m : string) : json := JObj [("message", JStr m)].

Definition not_found : response := mkResponse 404 (message "Resource not found.").

Definition listing (p : string) (s : state) : json :=
  JObj [("_embedded", JObj [("items", JList (map (fun n => JObj (item n)) (children p s)));
                            ("path", JStr p)]);
        ("path", JStr p); ("type", JStr "dir")].

Fixpoint tick (p : string) (l : list (string * nat)) : option (list (string * nat)) :=
  match l with
  | [] => None
  | (q, n) :: l' =>
      if String.eqb p q then
        match n with
        | O => None
        | S k => Some ((q, k) :: l')
        end
      else option_map (cons (q, n)) (tick p l')
  end.

Definition metadata (p : string) (s : state) : response * state :=
  let p := normalize p in
  if String.eqb p root then (mkResponse 200 (listing p s), s)
  else match find_node p s with
       | Some n =>
           if n_dir n then (mkResponse 200 (listing p s), s)
           else (mkResponse 200 (JObj (file_item n)), s)
       | None =>
           match tick p (fading s) with
           | Some l => (mkResponse 200 (JObj [("path", JStr p)]),
                        mkState (nodes s) l (lag s))
           | None => (not_found, s)
           end
       end.

Definition mkdir (p : string) (s : state) : response * state :=
  let p := normalize p in
  match find_node p s with
  | Some _ => (mkResponse 409 (message "Resource already exists."), s)
  | None =>
      if is_folder (parent_of p) s then
        (mkResponse 201 (JObj [("href", JStr (URL ++ "?path=" ++ p)); ("method", JStr "GET")]),
         mkState (nodes s ++ [mkNode (parent_of p) (name_of p) true 0]) (fading s) (lag s))
      else (mkResponse 409 (message "Parent folder does not exist."), s)
  end.

Definition remove (p : string) (s : state) : response * state :=
  let p := normalize p in
  match find_node p s with
  | None => (not_found, s)
  | Some _ =>
      let keep := filter (fun n => negb (String.eqb (n_path n) p
                                         || String.prefix (p ++ "/") (n_path n))) (nodes s) in
      match lag s with
      | O => (mkResponse 204 JNull, mkState keep (fading s) (lag s))
      | S k => (mkResponse 202 (JObj [("href", JStr (URL ++ "/operations/1"))]),
                mkState keep ((p, k) :: fading s) (lag s))
      end
  end.

Definition upload_link (p : string) (s : state) : response * state :=
  let p := normalize p in
  match find_node p s with
  | Some _ => (mkResponse 409 (message "Resource already exists."), s)
  | None =>
      if is_folder (parent_of p) s then
        (mkResponse 200 (JObj [("href", JStr (uploader ++ p)); ("method", JStr "PUT")]), s)
      else (mkResponse 409 (message "Parent folder does not exist."), s)
  end.

Definition payload_size (d : payload) : Z :=
  match d with
  | RawFile c => Z.of_nat (String.length c)
  | Multipart _ _ _ c => Z.of_nat (String.length c)
  end.

Definition store (url : string) (d : payload) (s : state) : response * state :=
  if String.prefix uploader url then
    let p := String.substring (String.length uploader)
                              (String.length url - String.length uploader) url in
    (mkResponse 201 JNull,
     mkState (nodes s ++ [mkNode (parent_of p) (name_of p) false (payload_size d)])
             (fading s) (lag s))
  else (mkResponse 400 (message "Bad upload address."), s).

Definition bad_request : response := mkResponse 400 (message "Bad request.").

(** One request. *)
Definition handle (q : request) (s : state) : response * state :=
  match req_data q with
  | Some d =>
      match req_method q with
      | PUT => store (req_url q) d s
      | _ => (bad_request, s)
      end
  | None =>
      match dict_get "path" (req_params q) with
      | Some (JStr p) =>
          if String.eqb (req_url q) URL then
            match req_method q with
            | GET => metadata p s
            | PUT => mkdir p s
            | DELETE => remove p s
            | POST => (bad_request, s)
            end
          else if String.eqb (req_url q) (URL ++ "/upload") then
            match req_method q with
            | GET => upload_link p s
            | POST => (mkResponse 202 (JObj [("href", JStr (URL ++ "/operations/2"))]), s)
            | _ => (bad_request, s)
            end
          else (bad_request, s)
      | _ => (bad_request, s)
      end
  end.

End Model.

(** ** Transfer progress *)

(** A [tqdm] bar as far as the program uses it: [update(n)] moves the
    position by [n]. *)
Record pbar : Type := mkPbar {
  pbar_total : Z;
  pbar_n : Z }.

Definition pbar_update (diff : Z) (p : pbar) : pbar :=
  mkPbar (pbar_total p) (pbar_n p + diff).

(** The closure [track_upload_progress] returns: its [prev_value] and
    the bar it updates. *)
Record tracker : Type := mkTracker {
  prev_value : Z;
  tracked : pbar }.

(** [track_upload_progress(pbar)] *)
Definition track_upload_progress (p : pbar) : tracker := mkTracker 0 p.

(** [callback(monitor)], by [monitor.bytes_read] *)
Definition callback (bytes_read : Z) (t : tracker) : tracker :=
  let diff := bytes_read - prev_value t in
  mkTracker bytes_read (pbar_update diff (tracked t)).

(** The closure after the monitor has called it with these readings,
    in order *)
Definition callbacks (readings : list Z) (t : tracker) : tracker :=
  fold_left (fun t bytes_read => callback bytes_read t) readings t.

(** [str(n)] for an integer *)
Definition str_of_Z (n : Z) : string :=
  NilZero.string_of_int (Z.to_int n).

(** [int(s)] for the digits a user types: an optional sign and decimal
    digits. *)
Definition int_of_string (s : string) : exn + Z :=
  match NilZero.int_of_string s with
  | Some d => inr (Z.of_int d)
  | None => inl ValueError
  end.

(** [l[i]] with Python's negative indices *)
Definition list_index {A : Type} (l : list A) (i : Z) : exn + A :=
  let n := Z.of_nat (List.length l) in
  let j := if i <? 0 then n + i else i in
  if (j <? 0) || (n <=? j) then inl IndexError
  else match nth_error l (Z.to_nat j) with
       | Some x => inr x
       | None => inl IndexError
       end.

(** ** The client *)

(** The remote service is a state machine answering one request at a
    time; nothing is assumed about it here.  With it come Python's
    rendering of a float rounded to two places,
    [str(round(num / den, 2))], and of a timestamp's local date,
    [str(datetime.fromtimestamp(t).date())], which the platform
    refuses for a timestamp it cannot represent ([OverflowError],
    [OSError] or [ValueError]). *)
Class Service : Type := {
  Srv : Type;
  handle : request -> Srv -> response * Srv;
  round2_repr : Z -> Z -> string;
  date_repr : Z -> exn + string }.

Section World.

Context {svc : Service}.

Record world : Type := mkWorld {
  remote : Srv;
  sent : list request;
  terminal : list term_event;
  stdin : list string;
  cwd : fsnode;
  written : list (string * json);
  token : string;
  all_files : list YaFile;
  all_folders : list YaFolder }.

Definition set_remote (s : Srv) (q : request) (w : world) : world :=
  mkWorld s (sent w ++ [q]) (terminal w) (stdin w) (cwd w) (written w)
          (token w) (all_files w) (all_folders w).

Definition set_terminal (t : list term_event) (i : list string) (w : world) : world :=
  mkWorld (remote w) (sent w) t i (cwd w) (written w)
          (token w) (all_files w) (all_folders w).

Definition set_written (l : list (string * json)) (w : world) : world :=
  mkWorld (remote w) (sent w) (terminal w) (stdin w) (cwd w) l
          (token w) (all_files w) (all_folders w).

Definition set_catalogue (fs : list YaFile) (ds : list YaFolder) (w : world) : world :=
  mkWorld (remote w) (sent w) (terminal w) (stdin w) (cwd w) (written w)
          (token w) fs ds.

(** *** The monad *)

Inductive outcome (A : Type) : Type :=
| Ret (a : A) (w : world)
| Raise (e : exn) (w : world)
| OutOfFuel.

Arguments Ret {A} a w.
Arguments Raise {A} e w.
Arguments OutOfFuel {A}.

Definition M (A : Type) : Type := world -> outcome A.

Definition ret {A : Type} (a : A) : M A := fun w => Ret a w.

Definition bind {A B : Type} (m : M A) (f : A -> M B) : M B :=
  fun w =>
    match m w with
    | Ret a w' => f a w'
    | Raise e w' => Raise e w'
    | OutOfFuel => OutOfFuel
    end.

Definition raise {A : Type} (e : exn) : M A := fun w => Raise e w.

Definition out_of_fuel {A : Type} : M A := fun _ => OutOfFuel.

Definition lift {A : Type} (x : exn + A) : M A :=
  match x with
  | inl e => raise e
  | inr a => ret a
  end.

(** [try: m except KeyError: h] *)
Definition try_KeyError {A : Type} (m : M A) (h : M A) : M A :=
  fun w =>
    match m w with
    | Raise (KeyError _) w' => h w'
    | r => r
    end.

Definition gets {A : Type} (f : world -> A) : M A := fun w => Ret (f w) w.

Definition modify (f : world -> world) : M unit := fun w => Ret tt (f w).

End World.

Arguments Ret {svc A} a w.
Arguments Raise {svc A} e w.
Arguments OutOfFuel {svc A}.

Notation "x <- c1 ;; c2" := (bind c1 (fun x => c2))
  (at level 61, c1 at next level, right associativity).
Notation "c1 ;; c2" := (bind c1 (fun _ => c2))
  (at level 61, right associativity).

Section Client.

Context {svc : Service}.

(** *** Terminal and requests *)

Definition print_with (args : list pyobj) (sep end_ : string) : M unit :=
  modify (fun w => set_terminal (terminal w ++ [TPrint args sep end_]) (stdin w) w).

Definition print (args : list pyobj) : M unit := print_with args " " nl.

Definition print_str (s : string) : M unit := print [OStr s].

(** [input(prompt)]: with nothing left to read, [EOFError] (an
    [OSError] subclass-like failure of the terminal). *)
Definition input (prompt : string) : M string :=
  fun w =>
    match stdin w with
    | [] => Raise OSError (set_terminal (terminal w ++ [TInput prompt]) [] w)
    | line :: rest => Ret line (set_terminal (terminal w ++ [TInput prompt]) rest w)
    end.

Definition URL : string := "https://cloud-api.yandex.net/v1/disk/resources".

Definition headers : M (list (string * string)) :=
  gets (fun w => [("port", "443"); ("Authorization", "OAuth " ++ token w)]).

Definition send (q : request) : M response :=
  fun w => let (r, s) := handle q (remote w) in Ret r (set_remote s q w).

Definition requests_get (url : string) (params : dict) : M response :=
  h <- headers ;; send (mkRequest GET url h params None).

Definition requests_put (url : string) (params : dict) : M response :=
  h <- headers ;; send (mkRequest PUT url h params None).

Definition requests_delete (url : string) (params : dict) : M response :=
  h <- headers ;; send (mkRequest DELETE url h params None).

Definition requests_post (url : string) (params : dict) : M response :=
  h <- headers ;; send (mkRequest POST url h params None).

(** [requests.put(upload_url, data=..., headers=...)]: no token. *)
Definition requests_put_data (url : string) (hs : list (string * string))
    (data : payload) : M response :=
  send (mkRequest PUT url hs [] (Some data)).

(** *** Catalogue walker *)

(** [_point] *)
Definition _point : M unit :=
  modify (fun w => set_terminal (terminal w ++ [TWrite "."]) (stdin w) w).

Definition append_folder (d : YaFolder) : M unit :=
  modify (fun w => set_catalogue (all_files w) (all_folders w ++ [d]) w).

Definition append_file (f : YaFile) : M unit :=
  modify (fun w => set_catalogue (all_files w ++ [f]) (all_folders w) w).

(** The [for item in ...] loop of [_parse_catalogues]; [rec] is the
    recursive call. *)
Fixpoint walk_items (rec : json -> M Z) (items : list json) (yadisk_size : Z) : M Z :=
  match items with
  | [] => ret yadisk_size
  | item :: rest =>
      item <- lift (as_dict item) ;;
      type <- lift (subscript item "type") ;;
      if json_is_str type "dir" then
        path <- lift (subscript item "path") ;;
        folder_size <- rec path ;;
        let yadisk_size := yadisk_size + folder_size in
        let fsize := [("size", JNum folder_size)] in
        let item := dict_update item fsize in
        folder <- lift (YaFolder_init item) ;;
        append_folder folder ;;
        walk_items rec rest yadisk_size
      else
        size <- lift (ebind (subscript item "size") as_int) ;;
        let yadisk_size := yadisk_size + size in
        file <- lift (YaFile_init item) ;;
        append_file file ;;
        walk_items rec rest yadisk_size
  end.

(** [_parse_catalogues(path)] *)
Fixpoint _parse_catalogues (fuel : nat) (path : json) : M Z :=
  match fuel with
  | O => out_of_fuel
  | S fuel' =>
      _point ;;
      let param := [("path", path)] in
      response <- requests_get URL param ;;
      embedded <- lift (jsubscript (body response) "_embedded") ;;
      items <- lift (ebind (jsubscript embedded "items") as_list) ;;
      walk_items (_parse_catalogues fuel') items 0
  end.

(** [reload] *)
Definition reload (fuel : nat) : M unit :=
  modify (set_catalogue [] []) ;;
  print_str "Обновление содержимого Я.Диска:" ;;
  _parse_catalogues fuel (JStr "/") ;;
  ret tt.

(** [__init__] *)
Definition YaDisk_init (fuel : nat) : M unit :=
  modify (set_catalogue [] []) ;;
  print_str "Загрузка содержимого Я.Диска:" ;;
  _parse_catalogues fuel (JStr "/") ;;
  ret tt.

(** *** Loops *)

(** [for x in l: body(x)] *)
Fixpoint for_each {A : Type} (l : list A) (body : A -> M unit) : M unit :=
  match l with
  | [] => ret tt
  | x :: l' => body x ;; for_each l' body
  end.

(** A [for] loop whose body may [return]: [Some r] is the value
    returned from inside the loop, [None] means the loop ran out. *)
Fixpoint for_return {A R : Type} (l : list A) (body : A -> M (option R)) : M (option R) :=
  match l with
  | [] => ret None
  | x :: l' =>
      r <- body x ;;
      match r with
      | Some v => ret (Some v)
      | None => for_return l' body
      end
  end.

(** [enumerate(l, start)] *)
Definition enumerate {A : Type} (start : nat) (l : list A) : list (nat * A) :=
  combine (seq start (List.length l)) l.

(** *** Reports *)

(** The integer nearest to [x / d] for a positive [d], a half going
    to the even side. *)
Definition round_half_even (x d : Z) : Z :=
  let q := x / d in
  let r := x mod d in
  if 2 * r <? d then q
  else if d <? 2 * r then q + 1
  else if Z.even q then q else q + 1.

(** The double nearest to the integer [x], as an integer: [x] itself
    up to 53 bits, and beyond that [x] rounded to 53 significant bits,
    a half going to the even side. *)
Definition float_of_int (x : Z) : Z :=
  let bits := Z.log2 (Z.abs x) + 1 in
  if bits <=? 53 then x
  else
    let ulp := 2 ^ (bits - 53) in
    ulp * round_half_even x ulp.

(** [int(round(x / 1024, 0))].  The true division of two integers is
    the double nearest to the quotient; 1024 being a power of two,
    that is the double nearest to [x], divided exactly.  [round] then
    takes a half to the even side.  (A size beyond the range of a
    double, some 2^1034 bytes, is an [OverflowError] in Python and is
    not covered here.) *)
Definition round_kb (x : Z) : Z :=
  round_half_even (float_of_int x) 1024.

(** [_size] *)
Definition _size (item : entry) : string :=
  let size := round_kb (entry_size item) in
  if size >? 100000 then round2_repr size (1024 ^ 2) ++ " GB"
  else if (100000 >? size) && (size >? 1000) then round2_repr size 1024 ++ " MB"
  else str_of_Z size ++ " KB".

Definition find_biggest_doc : string :=
  "Метод выводит на экран папку или файл с самым большим размером." ++ nl ++
  "        Для этого необходимо передать аргумент 'obj_type': либо 'file', либо 'folder'.".

Definition print_all_doc : string :=
  "Метод выводит на экран все папки или файлы, имеющиеся на Яндекс.Диске." ++ nl ++
  "        Для этого необходимо передать аргумент 'obj_type': либо 'file', либо 'folder'.".

Definition top10_doc : string :=
  "Метод выводит на экран топ-10 самых больших папок или файлов." ++ nl ++
  "        Для этого необходимо передать аргумент 'obj_type': либо 'file', либо 'folder'.".

(** [(obj_type is None) or (obj_type != 'file' and obj_type != 'folder')] *)
Definition bad_obj_type (obj_type : option string) : bool :=
  match obj_type with
  | None => true
  | Some t => negb (String.eqb t "file") && negb (String.eqb t "folder")
  end.

(** [self.all_files] or [self.all_folders], for a checked [obj_type] *)
Definition pick_collection (t : string) : M collection :=
  if String.eqb t "file" then gets (fun w => Files (all_files w))
  else gets (fun w => Folders (all_folders w)).

(** [max(lst, key=...)]: the first of the largest; [ValueError] on an
    empty list. *)
Definition py_max {A : Type} (key : A -> Z) (l : list A) : exn + A :=
  match l with
  | [] => inl ValueError
  | x :: l' =>
      inr (fold_left (fun best y => if key best <? key y then y else best) l' x)
  end.

(** [find_biggest] *)
Definition find_biggest (obj_type : option string) : M pyobj :=
  if bad_obj_type obj_type then
    print_str find_biggest_doc ;; ret ONone
  else
    let t := match obj_type with Some t => t | None => EmptyString end in
    lst <- pick_collection t ;;
    let filename :=
      if String.eqb t "file" then "biggest_file_info.json"
      else "biggest_folder_info.json" in
    let call := if String.eqb t "file" then "файлом" else "каталогом" in
    max_size_object <- lift (py_max entry_size (entries lst)) ;;
    modify (fun w => set_written
      (written w ++ [(filename, JObj [(entry_name max_size_object,
                                       JNum (entry_size max_size_object))])]) w) ;;
    print_str ("Самым большим " ++ call ++ " является " ++ dq
               ++ entry_name max_size_object ++ dq ++ " - "
               ++ _size max_size_object ++ ".") ;;
    ret (entry_obj max_size_object).

(** [print_all]; the usage text printed for a bad argument is the one
    of [top10], as in the source. *)
Definition print_all (obj_type : option string) : M pyobj :=
  if bad_obj_type obj_type then
    print_str top10_doc ;; ret ONone
  else
    let t := match obj_type with Some t => t | None => EmptyString end in
    coll <- pick_collection t ;;
    for_each (enumerate 0 (entries coll))
      (fun '(num, file) =>
         print [OStr (t ++ " " ++ PyStr.of_nat num ++ ".");
                entry_obj file; OInt (entry_size file)]) ;;
    ret (OList (map entry_obj (entries coll))).

(** A stable ascending sort by an integer key. *)
Fixpoint insert_by {A : Type} (key : A -> Z) (x : A) (l : list A) : list A :=
  match l with
  | [] => [x]
  | y :: l' => if key x <=? key y then x :: l else y :: insert_by key x l'
  end.

Fixpoint stable_sort {A : Type} (key : A -> Z) (l : list A) : list A :=
  match l with
  | [] => []
  | x :: l' => insert_by key x (stable_sort key l')
  end.

(** [sorted(l, key=..., reverse=...)]: with [reverse] the list is
    reversed, sorted and reversed again, which keeps the sort stable. *)
Definition sorted {A : Type} (l : list A) (key : A -> Z) (reverse : bool) : list A :=
  if reverse then rev (stable_sort key (rev l)) else stable_sort key l.

(** The lines [top10] prints. *)
Definition top10_lines (coll : collection) : list string :=
  let top10 := firstn 10 (sorted (entries coll) entry_size true) in
  map (fun '(num, i) =>
         PyStr.of_nat num ++ ". " ++ entry_name i ++ ", " ++ _size i)
      (enumerate 1 top10).

(** [top10] *)
Definition top10 (obj_type : option string) : M pyobj :=
  if bad_obj_type obj_type then
    print_str top10_doc ;; ret ONone
  else
    let t := match obj_type with Some t => t | None => EmptyString end in
    coll <- pick_collection t ;;
    print_with (map OStr (top10_lines coll)) nl (nl ++ nl) ;;
    ret ONone.

(** *** Lifecycle: create and delete *)

(** [_create] of [create_folder] *)
Definition _create (_param : dict) : M (Z * json) :=
  put <- requests_put URL _param ;;
  try_KeyError
    (href <- lift (jsubscript (body put) "href") ;;
     ret (status_code put, href))
    (message <- lift (jsubscript (body put) "message") ;;
     ret (status_code put, message)).

(** [create_folder(folder_name, path)] *)
Definition create_folder (fuel : nat) (folder_name : string) (path : option json) : M unit :=
  param <-
    match path with
    | None =>
        print_str "Текущий список папок:" ;;
        dirs <- gets all_folders ;;
        for_each (enumerate 0 dirs)
          (fun '(num, dir) =>
             print [OStr ("dir <index>" ++ PyStr.of_nat num ++ "."); OFolder dir]) ;;
        print_str (nl ++ "Если вы хотите создать папку в корне диска - нажмите Enter." ++ nl
                   ++ "Если вы хотите создать папку внутри другой папки - введите индекс соответствующей папки." ++ nl) ;;
        tree <- input "Введите ответ?" ;;
        if String.eqb tree EmptyString then
          ret [("path", JStr folder_name)]
        else
          i <- lift (int_of_string tree) ;;
          dir <- lift (list_index dirs i) ;;
          ret [("path", JStr (d_path dir ++ "/" ++ folder_name))]
    | Some p => ret [("path", p)]
    end ;;
  test <- requests_get URL param ;;
  (if status_code test =? 404 then
     creator <- _create param ;;
     if fst creator =? 201 then
       print_str ("Папка " ++ dq ++ folder_name ++ dq ++ " успешно создана на Яндекс.Диске") ;;
       print []
     else
       print [OTuple [OInt (fst creator); OJson (snd creator)]] ;;
       print []
   else if status_code test =? 200 then
     print_str ("Папка " ++ dq ++ folder_name ++ dq ++ " уже существует на Яндекс.Диске") ;;
     print []
   else
     print [OResponse test]) ;;
  reload fuel ;;
  print_str "Текущий список папок:" ;;
  print_all (Some "folder") ;;
  ret tt.

(** The [while] loop of [_check_existance]: one more query per round
    until the status is 404. *)
Fixpoint poll_until_404 (fuel : nat) (param : dict) (test : response) : M string :=
  if status_code test =? 404 then ret "OK"
  else match fuel with
       | O => out_of_fuel
       | S fuel' =>
           test <- requests_get URL param ;;
           poll_until_404 fuel' param test
       end.

(** [_check_existance] of [delete] *)
Definition _check_existance (fuel : nat) (param : dict) : M string :=
  test <- requests_get URL param ;;
  poll_until_404 fuel param test.

(** What [delete] is given: a list of entries or one entry. *)
Inductive delete_arg : Type :=
| DList (objects : list entry)
| DOne (object : entry).

(** The request for one object and the wait that follows it; [Some]
    is the early [return] of a failed request. *)
Definition delete_one (fuel : nat) (perm_del : dict) (obj : entry) : M (option (Z * json)) :=
  let param := [("path", JStr (entry_path obj))] in
  let param := match perm_del with [] => param | _ => dict_update param perm_del end in
  put <- requests_delete URL param ;;
  if status_code put >=? 300 then ret (Some (status_code put, body put))
  else _check_existance fuel param ;; ret None.

(** [delete(objects)]: the failure pair or the final message. *)
Definition delete (fuel : nat) (objects : delete_arg) : M ((Z * json) + string) :=
  print [OStr "Удаляем";
         match objects with
         | DList l => OList (map entry_obj l)
         | DOne o => entry_obj o
         end] ;;
  print_str (nl ++ "Для удаления объекта(-ов) в Корзину просто нажмите Enter." ++ nl
             ++ "Для полного удаления объекта(-ов) без возможности восстановления введите 1.") ;;
  permanent <- input "Введите ответ: " ;;
  let perm_del : dict :=
    if String.eqb permanent "1" then [("permanently", JStr "true")] else [] in
  failed <-
    match objects with
    | DList l => for_return l (delete_one fuel perm_del)
    | DOne o => delete_one fuel perm_del o
    end ;;
  match failed with
  | Some r => ret (inl r)
  | None =>
      let string :=
        match objects with
        | DList l => PyStr.join ", " (map entry_name l)
        | DOne o => entry_name o
        end in
      reload fuel ;;
      dirs <- gets all_folders ;;
      for_each (enumerate 0 dirs)
        (fun '(num, dir) => print [OStr ("dir" ++ PyStr.of_nat num ++ "."); OFolder dir]) ;;
      print [] ;;
      match perm_del with
      | [] => ret (inr (nl ++ "Объекты " ++ string ++ " успешно удалены в Корзину." ++ nl))
      | _ => ret (inr (nl ++ "Объекты " ++ string ++ " успешно удалены с Яндекс.Диска." ++ nl))
      end
  end.

(** *** Transfer engine: upload *)

(** What [upload] is given: the pair (photos, album name) or the name
    of a local object. *)
Inductive upload_arg : Type :=
| UPhotos (photos : list (string * Z * Z)) (album : string)
| UPath (object : string).

(** [_check_folder_exist] of [upload] *)
Definition _check_folder_exist (fuel : nat) (folder_name target_folderpath : string) : M unit :=
  let param := [("path", JStr target_folderpath)] in
  test <- requests_get URL param ;;
  if PyStr.contains "/" target_folderpath then
    if status_code test =? 404 then
      let folder := PyStr.split target_folderpath "/" in
      print [OList (map OStr folder)] ;;
      folder0 <- lift (list_index folder 0) ;;
      let param := [("path", JStr folder0)] in
      test <- requests_get URL param ;;
      if status_code test =? 404 then
        let folder_name := folder0 in
        create_folder fuel folder_name (Some (JList (map JStr folder))) ;;
        folder_last <- lift (list_index folder (-1)) ;;
        let folder_name := folder_last in
        create_folder fuel folder_name (Some (JStr target_folderpath))
      else
        create_folder fuel folder_name (Some (JStr target_folderpath))
    else ret tt
  else
    create_folder fuel folder_name (Some (JStr target_folderpath)).

(** [requests.get(self.URL + "/upload", ...).json()["href"]]:
    [KeyError] when the answer has no [href]. *)
Definition get_upload_url (param : dict) : M json :=
  r <- requests_get (URL ++ "/upload") param ;;
  lift (jsubscript (body r) "href").

(** [requests.put(upload_url, data=...)]: the address has to be a
    string. *)
Definition put_upload (upload_url : json) (hs : list (string * string))
    (data : payload) : M response :=
  url <- lift (as_str upload_url) ;;
  requests_put_data url hs data.

(** The body of the loop of [_upload_folder] for one listed name; the
    result is the new [message]. *)
Definition upload_folder_step (folder_name folder_path file : string) : M string :=
  try_KeyError
    (let param := [("path", JStr (folder_path ++ "/" ++ file))] in
     let full_path := LocalFs.join folder_path file in
     upload_url <- get_upload_url param ;;
     d <- gets cwd ;;
     _file <- lift (LocalFs.open_rb d full_path) ;;
     put_upload upload_url [] (RawFile _file) ;;
     ret (nl ++ "======" ++ nl ++ nl ++ "Все файлы из папки " ++ folder_name
          ++ " успешно загружены на Яндекс.Диск" ++ nl))
    (print_str ("Файл " ++ dq ++ file ++ dq ++ " был ранее загружен на Яндекс.Диск" ++ nl) ;;
     ret (nl ++ "======" ++ nl ++ nl ++ "Все файлы из папки " ++ folder_name
          ++ " загружены на Яндекс.Диск" ++ nl)).

Fixpoint upload_folder_loop (folder_name folder_path : string) (file_list : list string)
    (message : option string) : M (option string) :=
  match file_list with
  | [] => ret message
  | file :: rest =>
      m <- upload_folder_step folder_name folder_path file ;;
      upload_folder_loop folder_name folder_path rest (Some m)
  end.

(** [_upload_folder] of [upload]; [None] is the initial [message]. *)
Definition _upload_folder (folder_name folder_path : string) : M (option string) :=
  d <- gets cwd ;;
  file_list <- lift (LocalFs.listdir d folder_path) ;;
  upload_folder_loop folder_name folder_path file_list None.

(** [_upload_file] of [upload] *)
Definition _upload_file (file targetpath fullpath : string) : M unit :=
  try_KeyError
    (let param := [("path", JStr (targetpath ++ "/" ++ file))] in
     print [ODict param] ;;
     r <- requests_get (URL ++ "/upload") param ;;
     print [OJson (body r)] ;;
     upload_url <- get_upload_url param ;;
     d <- gets cwd ;;
     file_size <- lift (LocalFs.getsize d fullpath) ;;
     content <- lift (LocalFs.open_rb d fullpath) ;;
     put_upload upload_url [("Content-Type", "multipart/form-data")]
       (Multipart "file" "filename" "text/plain" content) ;;
     print_str ("Файл " ++ dq ++ file ++ dq ++ " успешно загружен на Яндекс.Диск" ++ nl))
    (print_str ("Файл " ++ dq ++ file ++ dq ++ " был ранее загружен на Яндекс.Диск" ++ nl)).

(** [_upload_url] of [upload] *)
Definition _upload_url (target_folderpath url : string) (likes date : Z) : M response :=
  date <- lift (date_repr date) ;;
  let param := [("path", JStr (target_folderpath ++ "/" ++ str_of_Z likes ++ "_" ++ date ++ ".jpg"));
                ("url", JStr url)] in
  requests_post (URL ++ "/upload") param.

(** The search of [upload] for a local object that is not found at
    the working directory: the last match of the walk wins, a
    directory name before a file name of the same triple. *)
Definition find_local (object : string)
    (folder_scan : list (string * list string * list string)) : option string :=
  fold_left
    (fun found '(root, dirs, files) =>
       let found :=
         fold_left (fun acc dir => if String.eqb object dir
                                   then Some (LocalFs.join root dir) else acc)
                   dirs found in
       fold_left (fun acc file => if String.eqb object file
                                  then Some (LocalFs.join root file) else acc)
                 files found)
    folder_scan None.

(** [name.split(".")[0]]: the name of an entry up to its first dot
    (a split is never empty) *)
Definition stem (name : string) : string :=
  hd EmptyString (PyStr.split name ".").

(** The folder an entry lies in: its path up to [/name] *)
Definition folder_of_path (path name : string) : string :=
  hd EmptyString (PyStr.split path ("/" ++ name)).

(** The tail of [upload]: the catalogue is rebuilt and printed. *)
Definition upload_finish (fuel : nat) : M unit :=
  reload fuel ;;
  print_all (Some "file") ;;
  print_all (Some "folder") ;;
  ret tt.

(** [upload(object)] *)
Definition upload (fuel : nat) (object : upload_arg) : M unit :=
  match object with
  | UPhotos photos album =>
      let folder := "photos" in
      let folder_name := album in
      let target_folderpath := folder ++ "/" ++ folder_name in
      _check_folder_exist fuel folder_name target_folderpath ;;
      for_each photos
        (fun '(url, likes, date) =>
           _upload_url target_folderpath url likes date ;; ret tt) ;;
      upload_finish fuel
  | UPath object =>
      if (PyStr.len object =? 2)%nat then
        (* a two-character name takes the branch of the pair: its
           second character is the album, and unpacking its first
           character into three names fails *)
        let folder := "photos" in
        folder_name <- lift (list_index (PyStr.chars object) 1) ;;
        let target_folderpath := folder ++ "/" ++ folder_name in
        _check_folder_exist fuel folder_name target_folderpath ;;
        raise ValueError
      else
        d <- gets cwd ;;
        let object_full_path :=
          if LocalFs.exists_ d object then Some (LocalFs.join "." object)
          else find_local object (LocalFs.walk "." d) in
        let parts :=
          match object_full_path with
          | Some p => PyStr.split p ("." ++ LocalFs.bslash)
          | None => ["." ++ LocalFs.bslash]
          end in
        part1 <- lift (list_index parts 1) ;;
        let object_realpath := PyStr.replace part1 LocalFs.bslash "/" in
        let object_full_path :=
          match object_full_path with Some p => p | None => EmptyString end in
        if LocalFs.isdir d object_full_path then
          let folder_name := object in
          let target_folderpath := object_realpath in
          _check_folder_exist fuel folder_name target_folderpath ;;
          _upload_folder folder_name target_folderpath ;;
          upload_finish fuel
        else if PyStr.contains ".zip" object then
          let name := hd EmptyString (PyStr.split object ".zip") in
          files <- gets all_files ;;
          returned <- for_return files
            (fun file =>
               if String.eqb (stem (f_name file)) name then
                 let target_folderpath := folder_of_path (f_path file) (f_name file) in
                 _upload_file object target_folderpath object_full_path ;;
                 ret (Some tt)
               else ret None) ;;
          match returned with
          | Some _ => ret tt
          | None =>
              folders <- gets all_folders ;;
              returned <- for_return folders
                (fun folder =>
                   if String.eqb (stem (d_name folder)) name then
                     let target_folderpath := folder_of_path (d_path folder) (d_name folder) in
                     _upload_file object target_folderpath object_full_path ;;
                     ret (Some tt)
                   else ret None) ;;
              match returned with
              | Some _ => ret tt
              | None => upload_finish fuel
              end
          end
        else
          let folder_name := hd EmptyString (PyStr.split object_realpath ("/" ++ object)) in
          let target_folderpath := hd EmptyString (PyStr.split object_realpath ("/" ++ object)) in
          _check_folder_exist fuel folder_name target_folderpath ;;
          _upload_file object target_folderpath object_full_path ;;
          upload_finish fuel
  end.

(** ** Vocabulary of the properties *)

Definition zsum (l : list Z) : Z := fold_right Z.add 0 l.

Definition all_true (l : list Prop) : Prop := fold_right and True l.

(** The remote tree as the walk sees it: every node carries the item
    the service sends for it and the entry the catalogue holds. *)
Inductive rnode : Type :=
| RFile (item : dict) (f : YaFile)
| RDir (item : dict) (d : YaFolder) (children : list rnode).

Definition node_item (t : rnode) : dict :=
  match t with
  | RFile item _ => item
  | RDir item _ _ => item
  end.

Definition node_name (t : rnode) : string :=
  match t with
  | RFile _ f => f_name f
  | RDir _ d _ => d_name d
  end.

Definition with_size (d : YaFolder) (size : Z) : YaFolder :=
  mkYaFolder (d_name d) (d_exif d) (d_created d) (d_resource_id d)
             (d_modified d) (d_comment_ids d) (d_path d) (d_type d)
             (d_revision d) size.

(** The bytes below a node: a file's size, a directory's files. *)
Fixpoint tree_size (t : rnode) : Z :=
  match t with
  | RFile _ f => f_size f
  | RDir _ _ cs => zsum (map tree_size cs)
  end.

Definition forest_size (ts : list rnode) : Z := zsum (map tree_size ts).

(** The files of a tree in the order of the walk. *)
Fixpoint tree_files (t : rnode) : list YaFile :=
  match t with
  | RFile _ f => [f]
  | RDir _ _ cs => concat (map tree_files cs)
  end.

Definition forest_files (ts : list rnode) : list YaFile :=
  concat (map tree_files ts).

(** The folders of a tree in the order of the walk: a directory comes
    after everything below it, with the size of its subtree. *)
Fixpoint tree_folders (t : rnode) : list YaFolder :=
  match t with
  | RFile _ _ => []
  | RDir _ d cs => concat (map tree_folders cs) ++ [with_size d (zsum (map tree_size cs))]
  end.

Definition forest_folders (ts : list rnode) : list YaFolder :=
  concat (map tree_folders ts).

Fixpoint tree_depth (t : rnode) : nat :=
  match t with
  | RFile _ _ => O
  | RDir _ _ cs => S (fold_right Nat.max O (map tree_depth cs))
  end.

Definition forest_depth (ts : list rnode) : nat :=
  fold_right Nat.max O (map tree_depth ts).

(** A file item: the constructor accepts it and its type is not
    [dir]. *)
Definition file_ok (item : dict) (f : YaFile) : Prop :=
  YaFile_init item = inr f /\
  exists type, subscript item "type" = inr type /\ json_is_str type "dir" = false.

(** A directory item: its type is [dir], it names the folder's path,
    and with a size attached the constructor accepts it. *)
Definition dir_ok (item : dict) (d : YaFolder) : Prop :=
  subscript item "type" = inr (JStr "dir") /\
  subscript item "path" = inr (JStr (d_path d)) /\
  forall size, YaFolder_init (dict_update item [("size", JNum size)])
               = inr (with_size d size).

Fixpoint no_slash (s : string) : Prop :=
  match s with
  | EmptyString => True
  | String c s' => c <> "/"%char /\ no_slash s'
  end.

(** Paths are laid out as on a disk: below the prefix [pre] a node has
    the path [pre ++ name], its children lie below [path ++ "/"],
    names hold no slash and the children of one directory have
    different names. *)
Fixpoint wf_node (pre : string) (t : rnode) : Prop :=
  match t with
  | RFile item f =>
      file_ok item f /\ f_path f = pre ++ f_name f /\ no_slash (f_name f)
  | RDir item d cs =>
      dir_ok item d /\ d_path d = pre ++ d_name d /\ no_slash (d_name d) /\
      NoDup (map node_name cs) /\
      all_true (map (wf_node (d_path d ++ "/")) cs)
  end.

Definition wf_forest (pre : string) (ts : list rnode) : Prop :=
  NoDup (map node_name ts) /\ all_true (map (wf_node pre) ts).

(** [q] lies strictly below the folder [p]. *)
Definition descendant (p q : string) : bool := String.prefix (p ++ "/") q.


Definition is_get (q : request) : bool :=
  match req_method q with GET => true | _ => false end.

Definition is_put (q : request) : bool :=
  match req_method q with PUT => true | _ => false end.

Definition session_headers (tok : string) : list (string * string) :=
  [("port", "443"); ("Authorization", "OAuth " ++ tok)].

(** The requests of a session: the metadata query, the creation of a
    folder, the deletion and the request for an upload address. *)
Definition metadata_request (tok : string) (params : dict) : request :=
  mkRequest GET URL (session_headers tok) params None.

Definition create_request (tok : string) (params : dict) : request :=
  mkRequest PUT URL (session_headers tok) params None.

Definition delete_request (tok : string) (params : dict) : request :=
  mkRequest DELETE URL (session_headers tok) params None.

Definition upload_request (tok : string) (params : dict) : request :=
  mkRequest GET (URL ++ "/upload") (session_headers tok) params None.

(** The world after the service has answered [q] *)
Definition answered (q : request) (w : world) : world :=
  set_remote (snd (handle q (remote w))) q w.

(** The answer of the service to [q] *)
Definition answer (q : request) (w : world) : response :=
  fst (handle q (remote w)).


(** The answer lists exactly [items]. *)
Definition lists (r : response) (items : list dict) : Prop :=
  exists embedded,
    jsubscript (body r) "_embedded" = inr embedded /\
    jsubscript embedded "items" = inr (JList (map JObj items)).

(** In every state of [I] the service lists [items] at [path] and
    stays in [I]. *)
Definition answers (I : Srv -> Prop) (tok : string) (path : json) (items : list dict) : Prop :=
  forall s, I s ->
    lists (fst (handle (metadata_request tok [("path", path)]) s)) items /\
    I (snd (handle (metadata_request tok [("path", path)]) s)).

Fixpoint serves_node (I : Srv -> Prop) (tok : string) (t : rnode) : Prop :=
  match t with
  | RFile _ _ => True
  | RDir _ d cs =>
      answers I tok (JStr (d_path d)) (map node_item cs) /\
      all_true (map (serves_node I tok) cs)
  end.

(** While it stays in [I] the service shows the forest [ts] below
    [path]. *)
Definition serves (I : Srv -> Prop) (tok : string) (path : json) (ts : list rnode) : Prop :=
  answers I tok path (map node_item ts) /\
  all_true (map (serves_node I tok) ts).


(** The world after one more [print] *)
Definition printed (args : list pyobj) (sep end_ : string) (w : world) : world :=
  set_terminal (terminal w ++ [TPrint args sep end_]) (stdin w) w.

(** The world after [input] has read a line *)
Definition prompted (prompt : string) (w : world) : world :=
  set_terminal (terminal w ++ [TInput prompt]) (tl (stdin w)) w.

(** [perm_del] of [delete], by the line the user typed *)
Definition perm_del_of (line : string) : dict :=
  if String.eqb line "1" then [("permanently", JStr "true")] else [].

(** The parameters [delete] sends for one object *)
Definition delete_params (perm_del : dict) (obj : entry) : dict :=
  match perm_del with
  | [] => [("path", JStr (entry_path obj))]
  | _ => dict_update [("path", JStr (entry_path obj))] perm_del
  end.

Definition delete_arg_obj (objects : delete_arg) : pyobj :=
  match objects with
  | DList l => OList (map entry_obj l)
  | DOne o => entry_obj o
  end.

(** The world in which [delete] starts on its objects: two prints and
    the answer about permanence. *)
Definition delete_asked (objects : delete_arg) (w : world) : world :=
  prompted "Введите ответ: "
    (printed [OStr (nl ++ "Для удаления объекта(-ов) в Корзину просто нажмите Enter." ++ nl
                    ++ "Для полного удаления объекта(-ов) без возможности восстановления введите 1.")]
             " " nl
       (printed [OStr "Удаляем"; delete_arg_obj objects] " " nl w)).

(** Partial correctness: when [m] returns from a world of [P], the
    value and the world satisfy [Q]. *)
Definition hoare {A : Type} (P : world -> Prop) (m : M A) (Q : A -> world -> Prop) : Prop :=
  forall w, P w ->
    match m w with
    | Ret a w' => Q a w'
    | Raise _ _ => True
    | OutOfFuel => True
    end.

(** [m] keeps [P]. *)
Definition inv {A : Type} (P : world -> Prop) (m : M A) : Prop :=
  hoare P m (fun _ => P).

(** A property of the world that no print, no input, no file written
    and no change of the catalogue disturbs, and that survives every
    request whose method is [allowed]. *)
Definition keeps (allowed : http_method -> bool) (P : world -> Prop) : Prop :=
  (forall t i w, P w -> P (set_terminal t i w)) /\
  (forall l w, P w -> P (set_written l w)) /\
  (forall fs ds w, P w -> P (set_catalogue fs ds w)) /\
  (forall q w, allowed (req_method q) = true -> P w -> P (answered q w)).

Definition only_get (m : http_method) : bool :=
  match m with GET => true | _ => false end.

Definition get_or_delete (m : http_method) : bool :=
  match m with GET | DELETE => true | _ => false end.

Definition objects_of (objects : delete_arg) : list entry :=
  match objects with
  | DList l => l
  | DOne o => [o]
  end.

(** Every object of [l] is gone from the remote service, for a notion
    [Gone] of a path being gone in a state of the service. *)
Definition all_gone_by (Gone : string -> Srv -> Prop) (l : list entry) (w : world) : Prop :=
  forall o, In o l -> Gone (entry_path o) (remote w).

(** The end of [create_folder], common to all its branches: the
    catalogue is rebuilt and the folders are printed. *)
Definition create_folder_finish (fuel : nat) : M unit :=
  reload fuel ;;
  print_str "Текущий список папок:" ;;
  print_all (Some "folder") ;;
  ret tt.

Definition folder_created (folder_name : string) : string :=
  "Папка " ++ dq ++ folder_name ++ dq ++ " успешно создана на Яндекс.Диске".

Definition folder_exists (folder_name : string) : string :=
  "Папка " ++ dq ++ folder_name ++ dq ++ " уже существует на Яндекс.Диске".

(** Two worlds the rebuilding of the catalogue cannot tell apart. *)
Definition sim (w1 w2 : world) : Prop :=
  remote w1 = remote w2 /\ token w1 = token w2 /\
  all_files w1 = all_files w2 /\ all_folders w1 = all_folders w2.

Definition sim_outcome {A : Type} (o1 o2 : outcome A) : Prop :=
  match o1, o2 with
  | Ret a w1, Ret b w2 => a = b /\ sim w1 w2
  | Raise e1 _, Raise e2 _ => e1 = e2
  | OutOfFuel, OutOfFuel => True
  | _, _ => False
  end.

(** [m] does the same in worlds that are alike. *)
Definition respects {A : Type} (m : M A) : Prop :=
  forall w1 w2, sim w1 w2 -> sim_outcome (m w1) (m w2).

(** The requests of [l] are all metadata or upload-address reads. *)
Definition all_get (l : list request) : bool := forallb is_get l.

(** Since the world [w0], only [GET] requests were sent. *)
Definition only_gets_since (w0 w : world) : Prop :=
  exists l, sent w = (sent w0 ++ l)%list /\ all_get l = true.



(** What the walk of a forest comes to, from a world [w]: its files
    and folders are appended in the order of the walk and the service
    is still in [I]. *)
Definition walked (I : Srv -> Prop) (tok : string) (ts : list rnode) (w w' : world) : Prop :=
  all_files w' = (all_files w ++ forest_files ts)%list /\
  all_folders w' = (all_folders w ++ forest_folders ts)%list /\
  I (remote w') /\ token w' = tok.

(** The walk of a directory the service shows returns: with fuel for
    its depth it comes to [walked]. *)
Definition dir_walks (I : Srv -> Prop) (tok : string) (t : rnode) : Prop :=
  match t with
  | RFile _ _ => True
  | RDir _ d cs =>
      forall pre fuel w,
        wf_node pre t -> serves_node I tok t ->
        (tree_depth t <= fuel)%nat ->
        I (remote w) -> token w = tok ->
        exists w', _parse_catalogues fuel (JStr (d_path d)) w = Ret (forest_size cs) w' /\
                   walked I tok cs w w'
  end.

(** The path [p] is [pre ++ name] or lies below it. *)
Definition below (pre name p : string) : Prop :=
  exists rest, p = pre ++ name ++ rest /\
               (rest = EmptyString \/ exists r, rest = "/" ++ r).

Definition sum_sizes (l : list YaFile) : Z := zsum (map f_size l).

(** The files of [l] whose path is a descendant of the folder's path *)
Definition under (F : YaFolder) (l : list YaFile) : list YaFile :=
  filter (fun f => descendant (d_path F) (f_path f)) l.


(** ** Vocabulary of the further properties *)

(** The world after the terminal has received [events] *)
Definition shown (events : list term_event) (w : world) : world :=
  set_terminal (terminal w ++ events) (stdin w) w.

(** The lines [print_all] prints for a collection *)
Definition print_all_lines (t : string) (l : list entry) : list term_event :=
  map (fun '(num, file) =>
         TPrint [OStr (t ++ " " ++ PyStr.of_nat num ++ ".");
                 entry_obj file; OInt (entry_size file)] " " nl)
      (enumerate 0 l).

(** The numbered folder list [create_folder] and [delete] print *)
Definition folder_lines (label : string) (dirs : list YaFolder) : list term_event :=
  map (fun '(num, dir) =>
         TPrint [OStr (label ++ PyStr.of_nat num ++ "."); OFolder dir] " " nl)
      (enumerate 0 dirs).

(** The collection a checked [obj_type] names *)
Definition collection_of (t : string) (w : world) : collection :=
  if String.eqb t "file" then Files (all_files w) else Folders (all_folders w).


(** The catalogue of [w'] is the one of [w] with entries added at the
    end. *)
Definition grown (w w' : world) : Prop :=
  exists fs ds,
    all_files w' = (all_files w ++ fs)%list /\
    all_folders w' = (all_folders w ++ ds)%list.

(** Every run of [m] that ends, normally or in an exception, takes a
    world to one related by [R]. *)
Definition steps {A : Type} (R : world -> world -> Prop) (m : M A) : Prop :=
  forall w,
    match m w with
    | Ret _ w' => R w w'
    | Raise _ w' => R w w'
    | OutOfFuel => True
    end.

(** The world in which the interactive [create_folder] has listed the
    folders and read the answer. *)
Definition folder_asked (w : world) : world :=
  prompted "Введите ответ?"
    (printed [OStr (nl ++ "Если вы хотите создать папку в корне диска - нажмите Enter." ++ nl
                    ++ "Если вы хотите создать папку внутри другой папки - введите индекс соответствующей папки." ++ nl)]
             " " nl
       (shown (folder_lines "dir <index>" (all_folders w))
          (printed [OStr "Текущий список папок:"] " " nl w))).

(** The photos of an album with their dates rendered, up to the first
    date that cannot be, and the exception met there *)
Fixpoint render_photos (photos : list (string * Z * Z))
    : list (string * Z * string) * option exn :=
  match photos with
  | [] => ([], None)
  | (url, likes, date) :: rest =>
      match date_repr date with
      | inl e => ([], Some e)
      | inr d => let (l, failure) := render_photos rest in ((url, likes, d) :: l, failure)
      end
  end.

(** The request [_upload_url] sends for one photo, given its rendered
    date *)
Definition photo_request (tok target_folderpath : string) (photo : string * Z * string)
    : request :=
  let '(url, likes, date) := photo in
  mkRequest POST (URL ++ "/upload") (session_headers tok)
    [("path", JStr (target_folderpath ++ "/" ++ str_of_Z likes ++ "_" ++ date ++ ".jpg"));
     ("url", JStr url)] None.



(** The loop of [upload] over the photos of an album *)
Definition upload_photos (target_folderpath : string) (photos : list (string * Z * Z)) : M unit :=
  for_each photos
    (fun '(url, likes, date) => _upload_url target_folderpath url likes date ;; ret tt).

End Client.

(** ** Concrete sessions

    The model service with stand-ins for the two renderings (a
    timestamp before 1970 cannot be rendered, as on Windows), and the
    worlds the properties below are run on. *)

Definition model_service : Service :=
  {| Srv := Model.state;
     handle := Model.handle;
     round2_repr := fun num den => str_of_Z (num / den);
     date_repr := fun t => if t <? 0 then inl OSError else inr "1970-01-01" |}.

Definition model_world (s : Model.state) (keys : list string) (local : fsnode)
    (files : list YaFile) (folders : list YaFolder) : @world model_service :=
  @mkWorld model_service s [] [] keys local [] "token" files folders.

Definition sample_file (name path : string) (size : Z) : YaFile :=
  mkYaFile (JStr "clean") size (JObj []) name (JObj [])
           (JStr "2020-05-01T10:00:00+00:00") (JStr path)
           (JStr "2020-05-01T10:00:00+00:00") (JStr "text/plain")
           (JStr ("https://downloader.disk.yandex.net/" ++ path)) path
           (JStr "document") (JStr "0") (JStr "0") (JStr "file") (JNum 1).

Definition sample_folder (name path : string) (size : Z) : YaFolder :=
  mkYaFolder name (JObj []) (JStr "2020-05-01T10:00:00+00:00") (JStr path)
             (JStr "2020-05-01T10:00:00+00:00") (JObj []) path (JStr "dir")
             (JNum 1) size.

Definition empty_disk : Model.state := Model.mkState [] [] 0.

(** Three files, two of one size. *)
Definition three_files : list YaFile :=
  [sample_file "a.txt" "disk:/a.txt" 5;
   sample_file "b.txt" "disk:/b.txt" 9;
   sample_file "c.txt" "disk:/c.txt" 5].

Definition w_three_files : @world model_service :=
  model_world empty_disk [] (FsDir []) three_files [].

(** The world an outcome ends in *)
Definition world_of {A : Type} (o : @outcome model_service A)
    (default : @world model_service) : @world model_service :=
  match o with
  | Ret _ w => w
  | Raise _ w => w
  | OutOfFuel => default
  end.

(** A disk with the folder [docs] and one file in it, and the same
    tree on the local side. *)
Definition disk_docs : Model.state :=
  Model.mkState [Model.mkNode "disk:/" "docs" true 0;
                 Model.mkNode "disk:/docs" "f.txt" false 5] [] 0.

Definition local_docs : fsnode :=
  FsDir [("docs", FsDir [("f.txt", FsFile "hello")])].

Definition w_docs : @world model_service :=
  model_world disk_docs [] local_docs [] [].

(** An empty disk; the user presses Enter when asked. *)
Definition w_empty : @world model_service :=
  model_world empty_disk [EmptyString] (FsDir []) [] [].

(** Three files at the root; deletions stay visible for two queries. *)
Definition disk_three : Model.state :=
  Model.mkState [Model.mkNode "disk:/" "a.txt" false 5;
                 Model.mkNode "disk:/" "b.txt" false 9;
                 Model.mkNode "disk:/" "c.txt" false 5] [] 2.

Definition file_a : entry := EFile (sample_file "a.txt" "disk:/a.txt" 5).
Definition file_b : entry := EFile (sample_file "b.txt" "disk:/b.txt" 9).
Definition file_c : entry := EFile (sample_file "c.txt" "disk:/c.txt" 5).
Definition file_lost : entry := EFile (sample_file "lost.txt" "disk:/lost.txt" 1).

Definition w_three : @world model_service :=
  model_world disk_three [EmptyString] (FsDir []) three_files [].

(** The world in which [delete] turns to the second of
    [file_a; file_lost; file_c]. *)
Definition w_three_a_deleted : @world model_service :=
  world_of (for_return [file_a] (delete_one 5 (perm_del_of EmptyString))
              (delete_asked (DList [file_a; file_lost; file_c]) w_three))
           w_three.

(** The world after a first [create_folder] of [a] on the empty disk *)
Definition w_a_created : @world model_service :=
  world_of (create_folder 5 "a" (Some (JStr "a")) w_empty) w_empty.

(** Two archives in the working directory; the catalogue knows a file
    [a.txt] in [docs] and a folder [a]. *)
Definition local_archives : fsnode :=
  FsDir [("a.zip", FsFile "PK"); ("a.zip.zip", FsFile "PK")].

Definition w_archives : @world model_service :=
  model_world disk_docs [] local_archives
    [sample_file "a.txt" "disk:/docs/a.txt" 5]
    [sample_folder "a" "disk:/a" 0].

(** A path is gone from the model disk: no node has it and its
    deletion is no longer visible. *)
Definition model_gone (p : string) (s : Model.state) : Prop :=
  Model.normalize p <> Model.root /\
  Model.find_node (Model.normalize p) s = None /\
  Model.tick (Model.normalize p) (Model.fading s) = None.

(** The states of the model disk in which no deletion is pending and
    none will be. *)
Definition model_settled (s : Model.state) : Prop :=
  Model.fading s = [] /\ Model.lag s = O.

(** The world after [delete] of [b.txt] from the disk of three files *)
Definition w_three_b_deleted : @world model_service :=
  world_of (delete 5 (DOne file_b) w_three) w_three.

Definition deleted_to_trash (names : string) : string :=
  nl ++ "Объекты " ++ names ++ " успешно удалены в Корзину." ++ nl.

(** The tree of a model disk as the walk sees it. *)
Definition model_file (n : Model.node) : rnode :=
  RFile (Model.file_item n)
        (sample_file (Model.n_name n) (Model.n_path n) (Model.n_size n)).

Definition model_dir (n : Model.node) (children : list rnode) : rnode :=
  RDir (Model.dir_item n)
       (sample_folder (Model.n_name n) (Model.n_path n) 0) children.

(** A disk four levels deep: [a/b/c/f1.txt], [a/b/f2.txt],
    [a/f3.txt] and [f4.txt]. *)
Definition node_a : Model.node := Model.mkNode "disk:/" "a" true 0.
Definition node_b : Model.node := Model.mkNode "disk:/a" "b" true 0.
Definition node_c : Model.node := Model.mkNode "disk:/a/b" "c" true 0.
Definition node_f1 : Model.node := Model.mkNode "disk:/a/b/c" "f1.txt" false 10.
Definition node_f2 : Model.node := Model.mkNode "disk:/a/b" "f2.txt" false 20.
Definition node_f3 : Model.node := Model.mkNode "disk:/a" "f3.txt" false 30.
Definition node_f4 : Model.node := Model.mkNode "disk:/" "f4.txt" false 40.

Definition disk_deep : Model.state :=
  Model.mkState [node_a; node_b; node_c; node_f1; node_f2; node_f3; node_f4] [] 0.

Definition forest_deep : list rnode :=
  [model_dir node_a
     [model_dir node_b
        [model_dir node_c [model_file node_f1];
         model_file node_f2];
      model_file node_f3];
   model_file node_f4].

Definition w_deep : @world model_service :=
  model_world disk_deep [] (FsDir []) [] [].

(** A local folder [docs] whose listing starts with a sub-directory. *)
Definition local_docs_sub : fsnode :=
  FsDir [("docs", FsDir [("sub", FsDir [("g.txt", FsFile "deep")]);
                         ("f.txt", FsFile "hello")])].

Definition w_docs_sub : @world model_service :=
  model_world empty_disk [] local_docs_sub [] [].

(** What a run has sent, by method and parameters *)
Definition sent_summary (w : @world model_service) : list (http_method * string * dict) :=
  map (fun q => (req_method q, req_url q, req_params q)) (sent w).

(** A service that lists the root, with one folder in it, and refuses
    every other query. *)
Definition locked_item : dict :=
  [("name", JStr "private"); ("path", JStr "disk:/private"); ("type", JStr "dir")].

Definition locked_handle (q : request) (s : unit) : response * unit :=
  match dict_get "path" (req_params q) with
  | Some (JStr "/") =>
      (mkResponse 200
         (JObj [("_embedded", JObj [("items", JList [JObj locked_item])])]), s)
  | _ => (mkResponse 403 (JObj [("message", JStr "Forbidden")]), s)
  end.

Definition locked_service : Service :=
  {| Srv := unit;
     handle := locked_handle;
     round2_repr := fun num den => str_of_Z (num / den);
     date_repr := fun t => if t <? 0 then inl OSError else inr "1970-01-01" |}.

Definition w_locked : @world locked_service :=
  @mkWorld locked_service tt [] [] [] (FsDir []) [] "token"
    [sample_file "old.txt" "disk:/old.txt" 1] [].

(** The deep disk seen through a catalogue that is out of date *)
Definition w_deep_stale : @world model_service :=
  model_world disk_deep [] (FsDir []) three_files [sample_folder "gone" "disk:/gone" 7].


(** The user answers the question of [create_folder] with an index. *)
Definition w_ask (line : string) : @world model_service :=
  model_world disk_docs [line] local_docs [] [sample_folder "docs" "disk:/docs" 5].

(** The folder [docs] holds [f.txt] on both sides and [g.txt] on the
    local side only. *)
Definition local_docs_two : fsnode :=
  FsDir [("docs", FsDir [("f.txt", FsFile "hello"); ("g.txt", FsFile "world")])].

Definition w_docs_two : @world model_service :=
  model_world disk_docs [] local_docs_two [] [].

(** Three photos, the second with a timestamp that cannot be
    rendered *)
Definition three_photos : list (string * Z * Z) :=
  [("http://photos/1.jpg", 10, 1588320000);
   ("http://photos/2.jpg", 20, -1);
   ("http://photos/3.jpg", 30, 1588406400)].

(** Two photos whose dates can be rendered *)
Definition two_photos : list (string * Z * Z) :=
  [("http://photos/1.jpg", 10, 1588320000);
   ("http://photos/3.jpg", 30, 1588406400)].

(** A file of one and a half kilobytes *)
Definition file_half : entry := EFile (sample_file "h.bin" "disk:/h.bin" 1536).

(** * Properties *)

Section Properties.

Context {svc : Service}.

(** ** The monad *)

Lemma bind_ret_l {A B : Type} (a : A) (f : A -> M B) (w : world) :
  bind (ret a) f w = f a w.
Proof. reflexivity. Qed.

Lemma bind_assoc {A B C : Type} (m : M A) (f : A -> M B) (g : B -> M C) (w : world) :
  bind (bind m f) g w = bind m (fun a => bind (f a) g) w.
Proof. unfold bind. destruct (m w); reflexivity. Qed.

Lemma bind_Ret {A B : Type} (m : M A) (f : A -> M B) (w w' : world) (a : A) :
  m w = Ret a w' -> bind m f w = f a w'.
Proof. intros H. unfold bind. rewrite H. reflexivity. Qed.

Lemma bind_Raise {A B : Type} (m : M A) (f : A -> M B) (w w' : world) (e : exn) :
  m w = Raise e w' -> bind m f w = Raise e w'.
Proof. intros H. unfold bind. rewrite H. reflexivity. Qed.

(** ** Reports *)

Lemma bad_obj_type_true (obj_type : option string) :
  obj_type <> Some "file" -> obj_type <> Some "folder" ->
  bad_obj_type obj_type = true.
Proof.
  intros Hfile Hfolder. destruct obj_type as [t|]; [|reflexivity].
  simpl. destruct (String.eqb_spec t "file") as [->|_]; [congruence|].
  destruct (String.eqb_spec t "folder") as [->|_]; [congruence|reflexivity].
Qed.

(** C10. For an [obj_type] that is neither ['file'] nor ['folder']
    ([None] included) each of [find_biggest], [print_all] and [top10]
    returns [None] after printing one usage text and nothing else, and
    both collections of the catalogue are as before. *)
Theorem reports_reject_other_types (obj_type : option string) (w : world) :
  obj_type <> Some "file" -> obj_type <> Some "folder" ->
  find_biggest obj_type w = Ret ONone (printed [OStr find_biggest_doc] " " nl w) /\
  print_all obj_type w = Ret ONone (printed [OStr top10_doc] " " nl w) /\
  top10 obj_type w = Ret ONone (printed [OStr top10_doc] " " nl w) /\
  forall doc,
    all_files (printed [OStr doc] " " nl w) = all_files w /\
    all_folders (printed [OStr doc] " " nl w) = all_folders w.
Proof.
  intros Hfile Hfolder.
  pose proof (bad_obj_type_true obj_type Hfile Hfolder) as Hbad.
  unfold find_biggest, print_all, top10. rewrite Hbad.
  repeat split.
Qed.

(** ** Sorting *)

Section Sorting.

Variable A : Type.
Variable key : A -> Z.














End Sorting.





(** ** Requests *)

Lemma send_run (q : request) (w : world) :
  send q w = Ret (answer q w) (answered q w).
Proof.
  unfold send, answer, answered. destruct (handle q (remote w)); reflexivity.
Qed.

Lemma requests_get_run (url : string) (params : dict) (w : world) :
  requests_get url params w =
  Ret (answer (mkRequest GET url (session_headers (token w)) params None) w)
      (answered (mkRequest GET url (session_headers (token w)) params None) w).
Proof. unfold requests_get, headers, gets, bind. apply send_run. Qed.

Lemma requests_put_run (url : string) (params : dict) (w : world) :
  requests_put url params w =
  Ret (answer (mkRequest PUT url (session_headers (token w)) params None) w)
      (answered (mkRequest PUT url (session_headers (token w)) params None) w).
Proof. unfold requests_put, headers, gets, bind. apply send_run. Qed.

Lemma requests_delete_run (url : string) (params : dict) (w : world) :
  requests_delete url params w =
  Ret (answer (mkRequest DELETE url (session_headers (token w)) params None) w)
      (answered (mkRequest DELETE url (session_headers (token w)) params None) w).
Proof. unfold requests_delete, headers, gets, bind. apply send_run. Qed.

(** ** Upload collisions *)



(** ** What a batch sends *)





(** ** Terminal *)

Lemma print_run (args : list pyobj) (w : world) :
  print args w = Ret tt (printed args " " nl w).
Proof. reflexivity. Qed.

Lemma input_run (prompt line : string) (keys : list string) (w : world) :
  stdin w = line :: keys -> input prompt w = Ret line (prompted prompt w).
Proof. intros H. unfold input, prompted. rewrite H. reflexivity. Qed.

(** ** Loops *)

Lemma for_return_app {A R : Type} (body : A -> M (option R)) (l1 l2 : list A)
    (w w' : world) :
  for_return l1 body w = Ret None w' ->
  for_return (l1 ++ l2) body w = for_return l2 body w'.
Proof.
  revert w. induction l1 as [|x l1 IH]; intros w H; simpl in *.
  - unfold ret in H. now inversion H.
  - unfold bind in *. destruct (body x w) as [[r|] w1| |]; try discriminate.
    apply IH, H.
Qed.

(** ** Deletion *)

Lemma delete_one_failure (fuel : nat) (perm_del : dict) (obj : entry) (w : world) :
  let q := delete_request (token w) (delete_params perm_del obj) in
  status_code (answer q w) >= 300 ->
  delete_one fuel perm_del obj w =
    Ret (Some (status_code (answer q w), body (answer q w))) (answered q w).
Proof.
  intros q H. unfold delete_one.
  rewrite (bind_Ret _ _ _ _ _ (requests_delete_run _ _ _)).
  match goal with |- context [answer ?r w] => change r with q end.
  destruct (Z.geb_spec (status_code (answer q w)) 300); [reflexivity|lia].
Qed.

Lemma delete_asks (fuel : nat) (objects : delete_arg) (line : string)
    (keys : list string) (w : world) :
  stdin w = line :: keys ->
  delete fuel objects w =
    (failed <-
       match objects with
       | DList l => for_return l (delete_one fuel (perm_del_of line))
       | DOne o => delete_one fuel (perm_del_of line) o
       end ;;
     match failed with
     | Some r => ret (inl r)
     | None =>
         let string :=
           match objects with
           | DList l => PyStr.join ", " (map entry_name l)
           | DOne o => entry_name o
           end in
         reload fuel ;;
         dirs <- gets all_folders ;;
         for_each (enumerate 0 dirs)
           (fun '(num, dir) => print [OStr ("dir" ++ PyStr.of_nat num ++ "."); OFolder dir]) ;;
         print [] ;;
         match perm_del_of line with
         | [] => ret (inr (nl ++ "Объекты " ++ string ++ " успешно удалены в Корзину." ++ nl))
         | _ => ret (inr (nl ++ "Объекты " ++ string ++ " успешно удалены с Яндекс.Диска." ++ nl))
         end
     end) (delete_asked objects w).
Proof.
  intros Hin. unfold delete.
  unfold bind at 1. rewrite print_run.
  unfold bind at 1. unfold print_str. rewrite print_run.
  refine (bind_Ret _ _ _ _ _ _).
  apply (input_run _ line keys). exact Hin.
Qed.

(** C4. A list is deleted object by object in list order.  When the
    objects of [done] have been deleted and waited for and the request
    for the next object is answered with a status of 300 or more,
    [delete] returns that status and body at once: the failing request
    is the last one sent, nothing is asked for the objects of [todo],
    the catalogue is not reloaded, and nothing is sent to undo the
    deletions of [done]. *)
Theorem delete_list_stops_at_first_failure
    (fuel : nat) (done : list entry) (obj : entry) (todo : list entry)
    (line : string) (keys : list string) (w w2 : world) :
  let objects := DList (done ++ obj :: todo) in
  let q := delete_request (token w2) (delete_params (perm_del_of line) obj) in
  stdin w = line :: keys ->
  for_return done (delete_one fuel (perm_del_of line)) (delete_asked objects w)
    = Ret None w2 ->
  status_code (answer q w2) >= 300 ->
  delete fuel objects w
    = Ret (inl (status_code (answer q w2), body (answer q w2))) (answered q w2) /\
  sent (answered q w2) = (sent w2 ++ [q])%list /\
  all_files (answered q w2) = all_files w2 /\
  all_folders (answered q w2) = all_folders w2.
Proof.
  intros objects q Hin Hdone Hfail. split; [|repeat split].
  unfold objects in *. rewrite (delete_asks fuel _ line keys w Hin).
  rewrite (bind_Ret _ _ (delete_asked (DList (done ++ obj :: todo)) w) (answered q w2)
             (Some (status_code (answer q w2), body (answer q w2)))).
  - reflexivity.
  - rewrite (for_return_app _ done (obj :: todo) _ w2 Hdone).
    simpl for_return.
    rewrite (bind_Ret _ _ _ _ _ (delete_one_failure fuel _ obj w2 Hfail)).
    reflexivity.
Qed.

(** ** Partial correctness *)

Lemma hoare_conseq {A : Type} (P P' : world -> Prop) (Q Q' : A -> world -> Prop) (m : M A) :
  hoare P' m Q' -> (forall w, P w -> P' w) -> (forall a w, Q' a w -> Q a w) ->
  hoare P m Q.
Proof.
  intros H HP HQ w Hw. specialize (H w (HP w Hw)).
  destruct (m w); auto.
Qed.

Lemma hoare_ret {A : Type} (P : world -> Prop) (Q : A -> world -> Prop) (a : A) :
  (forall w, P w -> Q a w) -> hoare P (ret a) Q.
Proof. intros H w Hw. apply H, Hw. Qed.

Lemma hoare_bind {A B : Type} (P : world -> Prop) (R : A -> world -> Prop)
    (Q : B -> world -> Prop) (m : M A) (f : A -> M B) :
  hoare P m R -> (forall a, hoare (R a) (f a) Q) -> hoare P (bind m f) Q.
Proof.
  intros Hm Hf w Hw. unfold bind. specialize (Hm w Hw).
  destruct (m w) as [a w'| |]; auto. apply Hf, Hm.
Qed.

Lemma hoare_lift {A : Type} (P : world -> Prop) (Q : A -> world -> Prop) (x : exn + A) :
  (forall a w, x = inr a -> P w -> Q a w) -> hoare P (lift x) Q.
Proof. intros H w Hw. destruct x; simpl; auto. Qed.

Lemma hoare_raise {A : Type} (P : world -> Prop) (Q : A -> world -> Prop) (e : exn) :
  hoare P (raise e) Q.
Proof. intros w Hw. exact I. Qed.

Lemma hoare_gets {A : Type} (P : world -> Prop) (Q : A -> world -> Prop) (f : world -> A) :
  (forall w, P w -> Q (f w) w) -> hoare P (gets f) Q.
Proof. intros H w Hw. apply H, Hw. Qed.

Lemma hoare_try {A : Type} (P : world -> Prop) (Q : A -> world -> Prop) (m h : M A) :
  hoare P m Q -> (forall k w w', P w -> m w = Raise (KeyError k) w' ->
                    match h w' with Ret a w'' => Q a w'' | _ => True end) ->
  hoare P (try_KeyError m h) Q.
Proof.
  intros Hm Hh w Hw. unfold try_KeyError. specialize (Hm w Hw).
  destruct (m w) as [a w'|e w'|] eqn:E; auto.
  destruct e; auto. apply (Hh k w w' Hw E).
Qed.

Section Keeps.

Variable allowed : http_method -> bool.
Variable P : world -> Prop.
Hypothesis HP : keeps allowed P.

Lemma inv_ret {A : Type} (a : A) : inv P (ret a).
Proof. apply hoare_ret. auto. Qed.

Lemma inv_lift {A : Type} (x : exn + A) : inv P (lift x).
Proof. apply hoare_lift. auto. Qed.

Lemma inv_gets {A : Type} (f : world -> A) : inv P (gets f).
Proof. apply hoare_gets. auto. Qed.

Lemma inv_bind {A B : Type} (m : M A) (f : A -> M B) :
  inv P m -> (forall a, inv P (f a)) -> inv P (bind m f).
Proof. intros Hm Hf. eapply hoare_bind; [exact Hm|]. exact Hf. Qed.

Lemma inv_print_with (args : list pyobj) (sep end_ : string) :
  inv P (print_with args sep end_).
Proof. intros w Hw. simpl. apply HP, Hw. Qed.

Lemma inv_print (args : list pyobj) : inv P (print args).
Proof. apply inv_print_with. Qed.

Lemma inv_print_str (s : string) : inv P (print_str s).
Proof. apply inv_print. Qed.

Lemma inv_point : inv P _point.
Proof. intros w Hw. simpl. apply HP, Hw. Qed.

Lemma inv_input (prompt : string) : inv P (input prompt).
Proof.
  intros w Hw. unfold input. destruct (stdin w); [exact I|]. apply HP, Hw.
Qed.

Lemma inv_set_catalogue (fs : list YaFile) (ds : list YaFolder) :
  inv P (modify (set_catalogue fs ds)).
Proof. intros w Hw. simpl. apply HP, Hw. Qed.

Lemma inv_append_file (f : YaFile) : inv P (append_file f).
Proof. intros w Hw. simpl. apply HP, Hw. Qed.

Lemma inv_append_folder (d : YaFolder) : inv P (append_folder d).
Proof. intros w Hw. simpl. apply HP, Hw. Qed.

Lemma inv_send (q : request) :
  allowed (req_method q) = true -> inv P (send q).
Proof.
  intros Hq w Hw. rewrite send_run. apply HP; assumption.
Qed.

Lemma inv_requests_get (url : string) (params : dict) :
  allowed GET = true -> inv P (requests_get url params).
Proof.
  intros Hget. unfold requests_get. apply inv_bind; [apply inv_gets|].
  intros h. apply inv_send. exact Hget.
Qed.

Lemma inv_requests_delete (url : string) (params : dict) :
  allowed DELETE = true -> inv P (requests_delete url params).
Proof.
  intros Hdel. unfold requests_delete. apply inv_bind; [apply inv_gets|].
  intros h. apply inv_send. exact Hdel.
Qed.

Lemma inv_for_each {A : Type} (l : list A) (body : A -> M unit) :
  (forall x, inv P (body x)) -> inv P (for_each l body).
Proof.
  intros Hb. induction l as [|x l IH]; simpl.
  - apply inv_ret.
  - apply inv_bind; [apply Hb|]. intros _. exact IH.
Qed.

Lemma inv_for_return {A R : Type} (l : list A) (body : A -> M (option R)) :
  (forall x, inv P (body x)) -> inv P (for_return l body).
Proof.
  intros Hb. induction l as [|x l IH]; simpl.
  - apply inv_ret.
  - apply inv_bind; [apply Hb|]. intros [r|]; [apply inv_ret|exact IH].
Qed.

Lemma inv_walk_items (rec : json -> M Z) (items : list json) (yadisk_size : Z) :
  (forall path, inv P (rec path)) -> inv P (walk_items rec items yadisk_size).
Proof.
  intros Hrec. revert yadisk_size.
  induction items as [|item items IH]; intros yadisk_size; simpl.
  - apply inv_ret.
  - apply inv_bind; [apply inv_lift|]. intros d.
    apply inv_bind; [apply inv_lift|]. intros type.
    destruct (json_is_str type "dir").
    + apply inv_bind; [apply inv_lift|]. intros path.
      apply inv_bind; [apply Hrec|]. intros folder_size.
      apply inv_bind; [apply inv_lift|]. intros folder.
      apply inv_bind; [apply inv_append_folder|]. intros _. apply IH.
    + apply inv_bind; [apply inv_lift|]. intros size.
      apply inv_bind; [apply inv_lift|]. intros file.
      apply inv_bind; [apply inv_append_file|]. intros _. apply IH.
Qed.

Lemma inv_parse_catalogues (fuel : nat) (path : json) :
  allowed GET = true -> inv P (_parse_catalogues fuel path).
Proof.
  intros Hget. revert path. induction fuel as [|fuel IH]; intros path; simpl.
  - intros w Hw. exact I.
  - apply inv_bind; [apply inv_point|]. intros _.
    apply inv_bind; [apply inv_requests_get, Hget|]. intros response.
    apply inv_bind; [apply inv_lift|]. intros embedded.
    apply inv_bind; [apply inv_lift|]. intros items.
    apply inv_walk_items. exact IH.
Qed.

Lemma inv_reload (fuel : nat) : allowed GET = true -> inv P (reload fuel).
Proof.
  intros Hget. unfold reload.
  apply inv_bind; [apply inv_set_catalogue|]. intros _.
  apply inv_bind; [apply inv_print_str|]. intros _.
  apply inv_bind; [apply inv_parse_catalogues, Hget|]. intros _.
  apply inv_ret.
Qed.

Lemma inv_print_all (obj_type : option string) : inv P (print_all obj_type).
Proof.
  unfold print_all. destruct (bad_obj_type obj_type).
  - apply inv_bind; [apply inv_print_str|]. intros _. apply inv_ret.
  - apply inv_bind.
    + unfold pick_collection. destruct (String.eqb _ _); apply inv_gets.
    + intros coll. apply inv_bind; [|intros _; apply inv_ret].
      apply inv_for_each. intros [num file]. apply inv_print.
Qed.

Lemma inv_poll_until_404 (fuel : nat) (param : dict) (test : response) :
  allowed GET = true -> inv P (poll_until_404 fuel param test).
Proof.
  intros Hget. revert test. induction fuel as [|fuel IH]; intros test; simpl;
    destruct (status_code test =? 404); try apply inv_ret.
  - intros w Hw. exact I.
  - apply inv_bind; [apply inv_requests_get, Hget|]. exact IH.
Qed.

Lemma inv_check_existance (fuel : nat) (param : dict) :
  allowed GET = true -> inv P (_check_existance fuel param).
Proof.
  intros Hget. unfold _check_existance.
  apply inv_bind; [apply inv_requests_get, Hget|].
  intros test. apply inv_poll_until_404, Hget.
Qed.

Lemma inv_delete_one (fuel : nat) (perm_del : dict) (obj : entry) :
  allowed GET = true -> allowed DELETE = true ->
  inv P (delete_one fuel perm_del obj).
Proof.
  intros Hget Hdel. unfold delete_one.
  apply inv_bind; [apply inv_requests_delete, Hdel|]. intros put.
  destruct (status_code put >=? 300); [apply inv_ret|].
  apply inv_bind; [apply inv_check_existance, Hget|]. intros _. apply inv_ret.
Qed.

End Keeps.

Lemma hoare_and {A : Type} (P P' : world -> Prop) (Q Q' : A -> world -> Prop) (m : M A) :
  hoare P m Q -> hoare P' m Q' ->
  hoare (fun w => P w /\ P' w) m (fun a w => Q a w /\ Q' a w).
Proof.
  intros H H' w [Hw Hw']. specialize (H w Hw). specialize (H' w Hw').
  destruct (m w); auto.
Qed.

Lemma hoare_run {A : Type} (P : world -> Prop) (Q : A -> world -> Prop) (m : M A)
    (w w' : world) (a : A) :
  hoare P m Q -> P w -> m w = Ret a w' -> Q a w'.
Proof. intros H Hw E. specialize (H w Hw). now rewrite E in H. Qed.

Lemma hoare_true {A : Type} (P : world -> Prop) (m : M A) :
  hoare P m (fun _ _ => True).
Proof. intros w _. destruct (m w); exact I. Qed.

(** ** The wait after a deletion *)

(** [poll_until_404] returns only on a 404: either the answer it was
    given is one, or the last query it sent was answered so. *)
Lemma poll_until_404_returns (fuel : nat) (param : dict) (test : response)
    (w w' : world) (r : string) :
  poll_until_404 fuel param test w = Ret r w' ->
  (status_code test = 404 /\ w' = w) \/
  exists w1, w' = answered (metadata_request (token w1) param) w1 /\
             status_code (answer (metadata_request (token w1) param) w1) = 404.
Proof.
  revert test w. induction fuel as [|fuel IH]; intros test w H; simpl in H;
    destruct (Z.eqb_spec (status_code test) 404) as [E|E];
    try (inversion H; subst; now left); try discriminate.
  rewrite (bind_Ret _ _ _ _ _ (requests_get_run _ _ _)) in H.
  apply IH in H. destruct H as [[E' ->]|H]; [|right; exact H].
  right. exists w. split; [reflexivity|exact E'].
Qed.

Lemma check_existance_returns (fuel : nat) (param : dict) (w w' : world) (r : string) :
  _check_existance fuel param w = Ret r w' ->
  exists w1, w' = answered (metadata_request (token w1) param) w1 /\
             status_code (answer (metadata_request (token w1) param) w1) = 404.
Proof.
  unfold _check_existance. intros H.
  rewrite (bind_Ret _ _ _ _ _ (requests_get_run _ _ _)) in H.
  apply poll_until_404_returns in H. destruct H as [[E ->]|H]; [|exact H].
  exists w. split; [reflexivity|exact E].
Qed.

Lemma delete_params_path (line : string) (obj : entry) :
  dict_get "path" (delete_params (perm_del_of line) obj) = Some (JStr (entry_path obj)).
Proof.
  unfold perm_del_of. destruct (String.eqb line "1"); reflexivity.
Qed.

Section Gone.

(** What is assumed of the service: a path an existence query has
    found missing is [Gone]; no metadata query and no deletion brings
    a [Gone] path back; a [Gone] path is answered with 404. *)
Variable Gone : string -> Srv -> Prop.

Hypothesis Hseen : forall tok params p s,
  dict_get "path" params = Some (JStr p) ->
  status_code (fst (handle (metadata_request tok params) s)) = 404 ->
  Gone p (snd (handle (metadata_request tok params) s)).

Hypothesis Hstays : forall p q s,
  get_or_delete (req_method q) = true -> Gone p s -> Gone p (snd (handle q s)).

Hypothesis Hgone : forall tok p s,
  Gone p s ->
  status_code (fst (handle (metadata_request tok [("path", JStr p)]) s)) = 404.

Lemma keeps_all_gone (l : list entry) : keeps get_or_delete (all_gone_by Gone l).
Proof.
  unfold keeps, all_gone_by. repeat split; intros; auto.
  simpl. apply Hstays; auto.
Qed.

Lemma check_existance_gone (fuel : nat) (param : dict) (p : string) :
  dict_get "path" param = Some (JStr p) ->
  hoare (fun _ => True) (_check_existance fuel param)
        (fun _ w => Gone p (remote w)).
Proof.
  intros Hp w _. destruct (_check_existance fuel param w) as [r w'| |] eqn:E; auto.
  apply check_existance_returns in E. destruct E as [w1 [-> E]].
  simpl. apply Hseen; assumption.
Qed.

Lemma delete_one_gone (fuel : nat) (line : string) (obj : entry) (l : list entry) :
  hoare (all_gone_by Gone l) (delete_one fuel (perm_del_of line) obj)
        (fun r w => r = None -> all_gone_by Gone (obj :: l) w).
Proof.
  intros w Hw.
  destruct (delete_one fuel (perm_del_of line) obj w) as [r w'| |] eqn:E; auto.
  intros ->. intros o [<-|Ho].
  - unfold delete_one in E.
    rewrite (bind_Ret _ _ _ _ _ (requests_delete_run _ _ _)) in E.
    destruct (status_code _ >=? 300); [discriminate|].
    unfold bind in E.
    match type of E with
    | context [_check_existance ?f ?p ?x] =>
        pose proof (check_existance_gone f p (entry_path obj)
                      (delete_params_path line obj) x I) as Hc;
        destruct (_check_existance f p x); try discriminate
    end.
    inversion E; subst. exact Hc.
  - assert (Hk : inv (all_gone_by Gone l) (delete_one fuel (perm_del_of line) obj))
      by (eapply inv_delete_one; [apply keeps_all_gone|reflexivity|reflexivity]).
    specialize (Hk w Hw).
    rewrite E in Hk. apply Hk, Ho.
Qed.

Lemma for_return_gone (fuel : nat) (line : string) (todo l : list entry) :
  hoare (all_gone_by Gone l) (for_return todo (delete_one fuel (perm_del_of line)))
        (fun r w => r = None -> forall o, In o todo \/ In o l -> Gone (entry_path o) (remote w)).
Proof.
  revert l. induction todo as [|obj todo IH]; intros l; simpl.
  - apply hoare_ret. intros w Hw _ o [[]|Ho]. apply Hw, Ho.
  - eapply hoare_bind; [apply delete_one_gone|].
    intros [r|].
    + apply hoare_ret. intros w _ H. discriminate H.
    + eapply hoare_conseq; [apply (IH (obj :: l))| |].
      * intros w Hw. apply Hw. reflexivity.
      * simpl. intros a w Ha Hn o Ho. apply Ha; [exact Hn|].
        destruct Ho as [[<-|Ho]|Ho]; auto.
Qed.

Lemma delete_gone (fuel : nat) (objects : delete_arg) :
  hoare (fun _ => True) (delete fuel objects)
        (fun r w => match r with
                    | inl _ => True
                    | inr _ => all_gone_by Gone (objects_of objects) w
                    end).
Proof.
  unfold delete.
  eapply hoare_bind; [apply hoare_true|].
  intros ?. eapply hoare_bind; [apply hoare_true|].
  intros ?. eapply hoare_bind; [apply hoare_true|].
  intros permanent. cbv zeta.
  change (if String.eqb permanent "1" then [("permanently", JStr "true")] else [])
    with (perm_del_of permanent).
  eapply hoare_bind with (R := fun r w => r = None -> all_gone_by Gone (objects_of objects) w).
  - destruct objects as [l|o]; simpl.
    + eapply hoare_conseq; [apply (for_return_gone fuel permanent l [])| |].
      * intros w _ o [].
      * simpl. intros r w H Hn o Ho. apply H; auto.
    + eapply hoare_conseq; [apply (delete_one_gone fuel permanent o [])| |].
      * intros w _ o' [].
      * simpl. intros r w H Hn. apply H, Hn.
  - intros [r|].
    + apply hoare_ret. auto.
    + pose proof (keeps_all_gone (objects_of objects)) as Hk.
      eapply hoare_conseq with (P' := all_gone_by Gone (objects_of objects))
                               (Q' := fun _ => all_gone_by Gone (objects_of objects)).
      * eapply inv_bind; [eapply inv_reload; [exact Hk|reflexivity]|]. intros ?.
        eapply inv_bind; [eapply inv_gets|]. intros dirs.
        eapply inv_bind.
        { eapply inv_for_each. intros [num dir]. eapply inv_print, Hk. }
        intros ?. eapply inv_bind; [eapply inv_print, Hk|]. intros ?.
        match goal with
        | |- inv _ (match ?x with [] => _ | _ => _ end) => destruct x; eapply inv_ret
        end.
      * intros w H. apply H. reflexivity.
      * intros [r|r] w H; auto.
Qed.

(** C3. [_check_existance] returns only after an existence query has
    been answered 404, and it is the last thing it does.  So, on a
    service where a path once found missing is not brought back by
    metadata queries and deletions, when [delete] has returned its
    success message every object it was given is answered 404 by an
    existence query made next. *)
Theorem delete_returns_after_not_found
    (fuel : nat) (objects : delete_arg) (w w' : world) (msg : string) :
  delete fuel objects w = Ret (inr msg) w' ->
  (forall obj, In obj (objects_of objects) ->
     status_code (answer (metadata_request (token w') [("path", JStr (entry_path obj))]) w')
       = 404) /\
  (forall param w0 w1 r,
     _check_existance fuel param w0 = Ret r w1 ->
     exists w2, w1 = answered (metadata_request (token w2) param) w2 /\
                status_code (answer (metadata_request (token w2) param) w2) = 404).
Proof.
  intros H. split.
  - intros obj Hobj.
    pose proof (hoare_run _ _ _ _ _ _ (delete_gone fuel objects) I H) as Hg.
    simpl in Hg. apply Hgone, Hg, Hobj.
  - intros param w0 w1 r. apply check_existance_returns.
Qed.

End Gone.

(** ** Worlds that are alike *)

Lemma sim_refl (w : world) : sim w w.
Proof. repeat split. Qed.

Lemma respects_ret {A : Type} (a : A) : respects (ret a).
Proof. intros w1 w2 H. simpl. auto. Qed.

Lemma respects_bind {A B : Type} (m : M A) (f : A -> M B) :
  respects m -> (forall a, respects (f a)) -> respects (bind m f).
Proof.
  intros Hm Hf w1 w2 H. unfold bind. specialize (Hm w1 w2 H).
  unfold sim_outcome in Hm.
  destruct (m w1) as [a w1'|e1 w1'|], (m w2) as [b w2'|e2 w2'|]; try contradiction.
  - destruct Hm as [<- Hs]. apply Hf, Hs.
  - exact Hm.
  - exact I.
Qed.

Lemma respects_lift {A : Type} (x : exn + A) : respects (lift x).
Proof. intros w1 w2 H. destruct x; simpl; auto. Qed.

Lemma respects_print_with (args : list pyobj) (sep end_ : string) :
  respects (print_with args sep end_).
Proof. intros w1 w2 H. simpl. split; [reflexivity|exact H]. Qed.

Lemma respects_print (args : list pyobj) : respects (print args).
Proof. apply respects_print_with. Qed.

Lemma respects_point : respects _point.
Proof. intros w1 w2 H. simpl. split; [reflexivity|exact H]. Qed.

Lemma respects_requests_get (url : string) (params : dict) :
  respects (requests_get url params).
Proof.
  intros w1 w2 [Hr [Ht [Hf Hd]]]. rewrite !requests_get_run. simpl.
  unfold answer, answered. rewrite Hr, Ht. repeat split; assumption.
Qed.

Lemma respects_append_file (f : YaFile) : respects (append_file f).
Proof.
  intros w1 w2 [Hr [Ht [Hf Hd]]]. simpl. rewrite Hf. repeat split; assumption.
Qed.

Lemma respects_append_folder (d : YaFolder) : respects (append_folder d).
Proof.
  intros w1 w2 [Hr [Ht [Hf Hd]]]. simpl. rewrite Hd. repeat split; assumption.
Qed.

Lemma respects_walk_items (rec : json -> M Z) (items : list json) (yadisk_size : Z) :
  (forall path, respects (rec path)) -> respects (walk_items rec items yadisk_size).
Proof.
  intros Hrec. revert yadisk_size.
  induction items as [|item items IH]; intros yadisk_size; simpl.
  - apply respects_ret.
  - apply respects_bind; [apply respects_lift|]. intros d.
    apply respects_bind; [apply respects_lift|]. intros type.
    destruct (json_is_str type "dir").
    + apply respects_bind; [apply respects_lift|]. intros path.
      apply respects_bind; [apply Hrec|]. intros folder_size.
      apply respects_bind; [apply respects_lift|]. intros folder.
      apply respects_bind; [apply respects_append_folder|]. intros _. apply IH.
    + apply respects_bind; [apply respects_lift|]. intros size.
      apply respects_bind; [apply respects_lift|]. intros file.
      apply respects_bind; [apply respects_append_file|]. intros _. apply IH.
Qed.

Lemma respects_parse_catalogues (fuel : nat) (path : json) :
  respects (_parse_catalogues fuel path).
Proof.
  revert path. induction fuel as [|fuel IH]; intros path; simpl.
  - intros w1 w2 H. exact I.
  - apply respects_bind; [apply respects_point|]. intros _.
    apply respects_bind; [apply respects_requests_get|]. intros response.
    apply respects_bind; [apply respects_lift|]. intros embedded.
    apply respects_bind; [apply respects_lift|]. intros items.
    apply respects_walk_items. exact IH.
Qed.

Lemma respects_for_each {A : Type} (l : list A) (body : A -> M unit) :
  (forall x, respects (body x)) -> respects (for_each l body).
Proof.
  intros Hb. induction l as [|x l IH]; simpl.
  - apply respects_ret.
  - apply respects_bind; [apply Hb|]. intros _. exact IH.
Qed.

Lemma respects_gets {A : Type} (f : world -> A) :
  (forall w1 w2, sim w1 w2 -> f w1 = f w2) -> respects (gets f).
Proof. intros Hf w1 w2 H. simpl. split; [apply Hf, H|exact H]. Qed.

Lemma respects_pick_collection (t : string) : respects (pick_collection t).
Proof.
  unfold pick_collection. destruct (String.eqb t "file"); apply respects_gets;
    intros w1 w2 [Hr [Ht [Hf Hd]]]; congruence.
Qed.

Lemma respects_print_all (obj_type : option string) : respects (print_all obj_type).
Proof.
  unfold print_all. destruct (bad_obj_type obj_type).
  - apply respects_bind; [apply respects_print|]. intros _. apply respects_ret.
  - apply respects_bind; [apply respects_pick_collection|]. intros coll.
    apply respects_bind; [|intros _; apply respects_ret].
    apply respects_for_each. intros [num file]. apply respects_print.
Qed.

(** The rebuilding forgets the old catalogue: what it does depends on
    the service and the token only. *)
Lemma create_folder_finish_alike (fuel : nat) (w1 w2 : world) :
  remote w1 = remote w2 -> token w1 = token w2 ->
  sim_outcome (create_folder_finish fuel w1) (create_folder_finish fuel w2).
Proof.
  intros Hr Ht. unfold create_folder_finish, reload.
  assert (Hm : respects
    (print_str "Обновление содержимого Я.Диска:" ;;
     _parse_catalogues fuel (JStr "/") ;; ret tt)).
  { apply respects_bind; [apply respects_print|]. intros _.
    apply respects_bind; [apply respects_parse_catalogues|]. intros _.
    apply respects_ret. }
  assert (Hk : respects
    (print_str "Текущий список папок:" ;; print_all (Some "folder") ;; ret tt)).
  { apply respects_bind; [apply respects_print|]. intros _.
    apply respects_bind; [apply respects_print_all|]. intros _.
    apply respects_ret. }
  apply (respects_bind _ _ Hm (fun _ => Hk) (set_catalogue [] [] w1) (set_catalogue [] [] w2)).
  repeat split; assumption.
Qed.

(** ** Folder creation *)

Lemma bind_Ret_inv {A B : Type} (m : M A) (f : A -> M B) (w w' : world) (b : B) :
  bind m f w = Ret b w' -> exists a w0, m w = Ret a w0 /\ f a w0 = Ret b w'.
Proof.
  unfold bind. destruct (m w) as [a w0| |]; try discriminate.
  intros H. now exists a, w0.
Qed.

Lemma inv_requests_put (allowed : http_method -> bool) (P : world -> Prop)
    (url : string) (params : dict) :
  keeps allowed P -> allowed PUT = true -> inv P (requests_put url params).
Proof.
  intros HP Hput. unfold requests_put.
  eapply inv_bind; [eapply inv_gets|]. intros h.
  eapply inv_send; [exact HP|exact Hput].
Qed.

Lemma inv_create (allowed : http_method -> bool) (P : world -> Prop) (param : dict) :
  keeps allowed P -> allowed PUT = true -> inv P (_create param).
Proof.
  intros HP Hput. unfold _create.
  eapply inv_bind; [eapply inv_requests_put; eassumption|]. intros put.
  intros w Hw. unfold try_KeyError.
  destruct (jsubscript (body put) "href") as [e|href] eqn:E; simpl.
  - unfold bind at 1. simpl. destruct e; simpl; trivial.
    destruct (jsubscript (body put) "message"); simpl; trivial.
  - exact Hw.
Qed.

(** What [create_folder] does before it rebuilds the catalogue, by
    the answer to the existence query. *)
Lemma create_folder_split (fuel : nat) (folder_name : string) (p : json) (w : world) :
  create_folder fuel folder_name (Some p) w =
  ((test <- requests_get URL [("path", p)] ;;
    if status_code test =? 404 then
      creator <- _create [("path", p)] ;;
      if fst creator =? 201 then
        print_str (folder_created folder_name) ;; print []
      else
        print [OTuple [OInt (fst creator); OJson (snd creator)]] ;; print []
    else if status_code test =? 200 then
      print_str (folder_exists folder_name) ;; print []
    else print [OResponse test]) ;;
   create_folder_finish fuel) w.
Proof.
  unfold create_folder, create_folder_finish. rewrite !bind_assoc. reflexivity.
Qed.

Lemma create_folder_exists (fuel : nat) (folder_name : string) (p : json) (w : world) :
  let get := metadata_request (token w) [("path", p)] in
  status_code (answer get w) = 200 ->
  create_folder fuel folder_name (Some p) w =
  create_folder_finish fuel
    (printed [] " " nl (printed [OStr (folder_exists folder_name)] " " nl (answered get w))).
Proof.
  intros get H. rewrite create_folder_split. rewrite bind_assoc.
  rewrite (bind_Ret _ _ _ _ _ (requests_get_run _ _ _)).
  fold (metadata_request (token w) [("path", p)]). fold get. rewrite H. reflexivity.
Qed.

Lemma create_folder_refused (fuel : nat) (folder_name : string) (p : json) (w : world) :
  let get := metadata_request (token w) [("path", p)] in
  status_code (answer get w) <> 200 -> status_code (answer get w) <> 404 ->
  create_folder fuel folder_name (Some p) w =
  create_folder_finish fuel (printed [OResponse (answer get w)] " " nl (answered get w)).
Proof.
  intros get H200 H404. rewrite create_folder_split. rewrite bind_assoc.
  rewrite (bind_Ret _ _ _ _ _ (requests_get_run _ _ _)).
  fold (metadata_request (token w) [("path", p)]). fold get.
  destruct (Z.eqb_spec (status_code (answer get w)) 404); [contradiction|].
  destruct (Z.eqb_spec (status_code (answer get w)) 200); [contradiction|].
  reflexivity.
Qed.

Lemma create_folder_failed (fuel : nat) (folder_name : string) (p : json)
    (creator : Z * json) (w w' : world) :
  let get := metadata_request (token w) [("path", p)] in
  status_code (answer get w) = 404 ->
  _create [("path", p)] (answered get w) = Ret creator w' ->
  fst creator <> 201 ->
  create_folder fuel folder_name (Some p) w =
  create_folder_finish fuel
    (printed [] " " nl
       (printed [OTuple [OInt (fst creator); OJson (snd creator)]] " " nl w')).
Proof.
  intros get H404 Hc H201. rewrite create_folder_split. rewrite bind_assoc.
  rewrite (bind_Ret _ _ _ _ _ (requests_get_run _ _ _)).
  fold (metadata_request (token w) [("path", p)]). fold get. rewrite H404.
  change (404 =? 404) with true. cbv iota.
  rewrite bind_assoc. rewrite (bind_Ret _ _ _ _ _ Hc).
  destruct (Z.eqb_spec (fst creator) 201); [contradiction|]. reflexivity.
Qed.

Lemma inv_create_folder_finish (P : world -> Prop) (fuel : nat) :
  keeps only_get P -> inv P (create_folder_finish fuel).
Proof.
  intros HP. unfold create_folder_finish.
  eapply inv_bind; [eapply inv_reload; [exact HP|reflexivity]|]. intros ?.
  eapply inv_bind; [eapply inv_print_str, HP|]. intros ?.
  eapply inv_bind; [eapply inv_print_all, HP|]. intros ?.
  eapply inv_ret.
Qed.

Lemma keeps_only_gets_since (w0 : world) : keeps only_get (only_gets_since w0).
Proof.
  unfold keeps, only_gets_since. repeat split; intros; auto.
  destruct H0 as [l [Hl Hg]]. exists (l ++ [q])%list. simpl. split.
  - rewrite Hl. now rewrite app_assoc.
  - unfold all_get in *. rewrite forallb_app, Hg. simpl.
    unfold is_get. destruct (req_method q); try discriminate. reflexivity.
Qed.

Section GetSafe.

(** What is assumed of the service: in the states it can be in (the
    set [I], closed under requests) a [GET] changes nothing. *)
Variable I : Srv -> Prop.
Hypothesis Hclosed : forall q s, I s -> I (snd (handle q s)).
Hypothesis Hsafe : forall q s, I s -> req_method q = GET -> snd (handle q s) = s.

Lemma keeps_in_I (tok : string) :
  keeps (fun _ => true) (fun w => I (remote w) /\ token w = tok).
Proof.
  unfold keeps. repeat split; intros; simpl; try tauto.
  apply Hclosed. tauto.
Qed.

Lemma keeps_remote (r : Srv) : I r -> keeps only_get (fun w => remote w = r).
Proof.
  intros Hr. unfold keeps. repeat split; intros; simpl; auto.
  rewrite H0. apply Hsafe; [exact Hr|].
  destruct (req_method q); try discriminate. reflexivity.
Qed.

Lemma create_folder_reaches_finish (fuel : nat) (folder_name : string) (p : json)
    (w w1 : world) :
  I (remote w) ->
  create_folder fuel folder_name (Some p) w = Ret tt w1 ->
  exists w0, I (remote w0) /\ token w0 = token w /\
             create_folder_finish fuel w0 = Ret tt w1.
Proof.
  intros HI H. rewrite create_folder_split in H.
  apply bind_Ret_inv in H. destruct H as [u [w0 [Hpre Hfin]]].
  exists w0.
  assert (Hk : inv (fun w' => I (remote w') /\ token w' = token w)
    (test <- requests_get URL [("path", p)] ;;
     if status_code test =? 404 then
       creator <- _create [("path", p)] ;;
       if fst creator =? 201 then
         print_str (folder_created folder_name) ;; print []
       else
         print [OTuple [OInt (fst creator); OJson (snd creator)]] ;; print []
     else if status_code test =? 200 then
       print_str (folder_exists folder_name) ;; print []
     else print [OResponse test])).
  { pose proof (keeps_in_I (token w)) as HP.
    eapply inv_bind; [eapply inv_requests_get; [exact HP|reflexivity]|]. intros test.
    destruct (status_code test =? 404).
    - eapply inv_bind; [eapply inv_create; [exact HP|reflexivity]|]. intros creator.
      destruct (fst creator =? 201);
        (eapply inv_bind; [eapply inv_print, HP|intros ?; eapply inv_print, HP]).
    - destruct (status_code test =? 200).
      + eapply inv_bind; [eapply inv_print, HP|intros ?; eapply inv_print, HP].
      + eapply inv_print, HP. }
  specialize (Hk w (conj HI eq_refl)). rewrite Hpre in Hk.
  destruct Hk as [Hk1 Hk2]. auto.
Qed.

(** C2, as amended.  (a) When the existence query for the target is
    answered 200 [create_folder] sends no creation request: it prints
    that the folder exists and goes on to rebuild the catalogue.
    (b) On a service whose state no [GET] changes, a second call for a
    path that the service now shows (200) prints that the folder
    exists, sends [GET] requests only and ends with the catalogue the
    first call ended with, so nothing is listed twice.  (c) Any other
    answer is printed as received, the response itself for an
    existence query that is neither 200 nor 404 and the pair of status
    and [href] or [message] for a creation that is not 201, and the
    call then goes on exactly as after a success: it rebuilds the
    catalogue, prints the folders and returns. *)
Theorem create_folder_idempotent_failures_printed
    (fuel : nat) (folder_name : string) (p : json) (w w1 : world) :
  let get := metadata_request (token w) [("path", p)] in
  (status_code (answer get w) = 200 ->
   create_folder fuel folder_name (Some p) w =
   create_folder_finish fuel
     (printed [] " " nl (printed [OStr (folder_exists folder_name)] " " nl (answered get w)))) /\
  (I (remote w) ->
   create_folder fuel folder_name (Some p) w = Ret tt w1 ->
   status_code (answer (metadata_request (token w1) [("path", p)]) w1) = 200 ->
   exists w2,
     create_folder fuel folder_name (Some p) w1 = Ret tt w2 /\
     create_folder_finish fuel
       (printed [] " " nl
          (printed [OStr (folder_exists folder_name)] " " nl
             (answered (metadata_request (token w1) [("path", p)]) w1))) = Ret tt w2 /\
     only_gets_since w1 w2 /\
     all_files w2 = all_files w1 /\ all_folders w2 = all_folders w1) /\
  (status_code (answer get w) <> 200 -> status_code (answer get w) <> 404 ->
   create_folder fuel folder_name (Some p) w =
   create_folder_finish fuel (printed [OResponse (answer get w)] " " nl (answered get w))) /\
  (forall creator w',
     status_code (answer get w) = 404 ->
     _create [("path", p)] (answered get w) = Ret creator w' ->
     fst creator <> 201 ->
     create_folder fuel folder_name (Some p) w =
     create_folder_finish fuel
       (printed [] " " nl
          (printed [OTuple [OInt (fst creator); OJson (snd creator)]] " " nl w'))).
Proof.
  intros get. refine (conj _ (conj _ (conj _ _))).
  - apply create_folder_exists.
  - intros HI Hfirst H200.
    destruct (create_folder_reaches_finish _ _ _ _ _ HI Hfirst) as [w0 [HI0 [Ht0 Hfin]]].
    assert (Hr1 : remote w1 = remote w0).
    { pose proof (inv_create_folder_finish _ fuel (keeps_remote _ HI0) w0 eq_refl) as Hk.
      rewrite Hfin in Hk. exact Hk. }
    assert (Ht1 : token w1 = token w0).
    { assert (Hk : keeps only_get (fun w' => token w' = token w0))
        by (unfold keeps; repeat split; intros; simpl; auto).
      pose proof (inv_create_folder_finish _ fuel Hk w0 eq_refl) as Hk'.
      rewrite Hfin in Hk'. exact Hk'. }
    set (get1 := metadata_request (token w1) [("path", p)]) in *.
    set (wx := printed [] " " nl
                 (printed [OStr (folder_exists folder_name)] " " nl (answered get1 w1))).
    assert (Hrx : remote w0 = remote wx).
    { simpl. rewrite Hr1. symmetry. apply Hsafe; [exact HI0|reflexivity]. }
    assert (Htx : token w0 = token wx) by (simpl; auto).
    pose proof (create_folder_finish_alike fuel w0 wx Hrx Htx) as Hsim.
    rewrite Hfin in Hsim. unfold sim_outcome in Hsim.
    destruct (create_folder_finish fuel wx) as [[] w2| |] eqn:Efin; try contradiction.
    destruct Hsim as [_ [_ [_ [Hf Hd]]]].
    exists w2. refine (conj _ (conj _ (conj _ (conj _ _)))).
    + rewrite (create_folder_exists fuel folder_name p w1 H200). exact Efin.
    + reflexivity.
    + pose proof (inv_create_folder_finish _ fuel (keeps_only_gets_since w1) wx) as Hk.
      rewrite Efin in Hk. apply Hk.
      exists [get1]. split; reflexivity.
    + symmetry. exact Hf.
    + symmetry. exact Hd.
  - apply create_folder_refused.
  - intros creator w'. apply create_folder_failed.
Qed.

End GetSafe.

(** ** Strings *)





Lemma prefix_cons_inv (a b : ascii) (s1 s2 : string) :
  String.prefix (String a s1) (String b s2) = true ->
  a = b /\ String.prefix s1 s2 = true.
Proof.
  change (String.prefix (String a s1) (String b s2))
    with (if ascii_dec a b then String.prefix s1 s2 else false).
  destruct (ascii_dec a b); [auto|discriminate].
Qed.



Lemma list_index_1 {A : Type} (a b : A) (l : list A) :
  list_index (a :: b :: l) 1 = inr b.
Proof.
  unfold list_index. simpl List.length.
  change (1 <? 0) with false. cbv iota.
  destruct (Z.leb_spec (Z.of_nat (S (S (List.length l)))) 1) as [H|H]; [lia|].
  reflexivity.
Qed.

(** ** Upload of an archive *)

Lemma bind_ret_tt (m : M unit) (w : world) : bind m (fun _ => ret tt) w = m w.
Proof. unfold bind. destruct (m w) as [[] w'| |]; reflexivity. Qed.



(** ** The catalogue walk *)

Lemma rnode_ind' (P : rnode -> Prop) :
  (forall item f, P (RFile item f)) ->
  (forall item d cs, Forall P cs -> P (RDir item d cs)) ->
  forall t, P t.
Proof.
  intros Hfile Hdir. fix IH 1. intros [item f|item d cs].
  - apply Hfile.
  - apply Hdir. induction cs as [|c cs IHcs]; constructor; [apply IH|exact IHcs].
Qed.

Lemma all_true_Forall {A : Type} (P : A -> Prop) (l : list A) :
  all_true (map P l) <-> Forall P l.
Proof.
  induction l as [|x l IH]; simpl.
  - split; constructor.
  - split.
    + intros [Hx Hl]. constructor; [exact Hx|now apply IH].
    + intros H. inversion H; subst. split; [assumption|now apply IH].
Qed.

Lemma zsum_app (l1 l2 : list Z) : zsum (l1 ++ l2) = zsum l1 + zsum l2.
Proof. induction l1 as [|x l1 IH]; simpl; [reflexivity|]. rewrite IH. lia. Qed.

(** The constructor reads the size the walk has added up. *)
Lemma YaFile_init_size (item : dict) (f : YaFile) :
  YaFile_init item = inr f ->
  ebind (subscript item "size") as_int = inr (f_size f).
Proof.
  unfold YaFile_init. intros H.
  destruct (subscript item "antivirus_status"); [discriminate|]. simpl in H.
  destruct (ebind (subscript item "size") as_int) as [e|size]; [discriminate|]. simpl in H.
  repeat match type of H with
         | ebind ?x _ = _ => destruct x; [discriminate|]; simpl in H
         end.
  inversion H. reflexivity.
Qed.

Lemma walk_items_file (rec : json -> M Z) (item : dict) (f : YaFile)
    (rest : list json) (acc : Z) (w : world) :
  file_ok item f ->
  walk_items rec (JObj item :: rest) acc w =
  walk_items rec rest (acc + f_size f)
    (set_catalogue (all_files w ++ [f]) (all_folders w) w).
Proof.
  intros [Hinit [type [Htype Hnot]]]. simpl walk_items.
  rewrite (bind_Ret _ _ w w item eq_refl).
  rewrite Htype. rewrite (bind_Ret _ _ w w type eq_refl). rewrite Hnot.
  rewrite (YaFile_init_size item f Hinit).
  rewrite (bind_Ret _ _ w w (f_size f) eq_refl).
  rewrite Hinit. rewrite (bind_Ret _ _ w w f eq_refl).
  reflexivity.
Qed.

(** The step of the walk at a directory: the size the recursive call
    returns is put into the item, the folder is made from that item
    and appended, and the loop goes on with the size added. *)
Lemma walk_items_dir (rec : json -> M Z) (item : dict) (path : json)
    (rest : list json) (acc folder_size : Z) (w w1 : world) :
  subscript item "type" = inr (JStr "dir") ->
  subscript item "path" = inr path ->
  rec path w = Ret folder_size w1 ->
  walk_items rec (JObj item :: rest) acc w =
  (folder <- lift (YaFolder_init (dict_update item [("size", JNum folder_size)])) ;;
   append_folder folder ;;
   walk_items rec rest (acc + folder_size)) w1.
Proof.
  intros Htype Hpath Hrec. simpl walk_items.
  rewrite (bind_Ret _ _ w w item eq_refl).
  rewrite Htype. rewrite (bind_Ret _ _ w w (JStr "dir") eq_refl).
  change (json_is_str (JStr "dir") "dir") with true. cbv iota.
  rewrite Hpath. rewrite (bind_Ret _ _ w w path eq_refl).
  rewrite (bind_Ret _ _ w w1 folder_size Hrec).
  reflexivity.
Qed.

Section Walk.

Variable I : Srv -> Prop.
Variable tok : string.

Lemma forest_files_cons (t : rnode) (ts : list rnode) :
  forest_files (t :: ts) = (tree_files t ++ forest_files ts)%list.
Proof. reflexivity. Qed.

Lemma forest_folders_cons (t : rnode) (ts : list rnode) :
  forest_folders (t :: ts) = (tree_folders t ++ forest_folders ts)%list.
Proof. reflexivity. Qed.

Lemma walk_items_forest (ts : list rnode) :
  Forall (dir_walks I tok) ts ->
  forall pre fuel acc w,
    all_true (map (wf_node pre) ts) ->
    all_true (map (serves_node I tok) ts) ->
    (forest_depth ts <= fuel)%nat ->
    I (remote w) -> token w = tok ->
    exists w',
      walk_items (_parse_catalogues fuel) (map JObj (map node_item ts)) acc w
        = Ret (acc + forest_size ts) w' /\
      walked I tok ts w w'.
Proof.
  induction 1 as [|t ts Ht Hts IH]; intros pre fuel acc w Hwf Hserv Hdepth HI Htok.
  - exists w. split; [simpl; unfold ret, forest_size; simpl; f_equal; lia|].
    unfold walked. simpl. rewrite !app_nil_r. auto.
  - destruct Hwf as [Hwft Hwf]. destruct Hserv as [Hservt Hserv].
    unfold forest_depth in Hdepth. simpl in Hdepth.
    fold (forest_depth ts) in Hdepth.
    destruct t as [item f|item d cs].
    + destruct Hwft as [Hok _].
      simpl map. rewrite (walk_items_file _ item f _ acc w Hok).
      destruct (IH pre fuel (acc + f_size f)
                  (set_catalogue (all_files w ++ [f]) (all_folders w) w)
                  Hwf Hserv ltac:(lia) HI Htok) as [w' [Hrun [Hf [Hd [HI' Htok']]]]].
      exists w'. split.
      * rewrite Hrun. f_equal. unfold forest_size. simpl. lia.
      * unfold walked. rewrite forest_files_cons, forest_folders_cons.
        simpl in Hf, Hd |- *. rewrite Hf, Hd, <- app_assoc. auto.
    + pose proof Hwft as [[Htype [Hpath Hinit]] _].
      destruct (Ht pre fuel w Hwft Hservt ltac:(lia) HI Htok)
        as [w1 [Hrec [Hf1 [Hd1 [HI1 Htok1]]]]].
      simpl map.
      rewrite (walk_items_dir _ item (JStr (d_path d)) _ acc (forest_size cs) w w1
                 Htype Hpath Hrec).
      rewrite Hinit. rewrite (bind_Ret _ _ w1 w1 (with_size d (forest_size cs)) eq_refl).
      unfold bind at 1. unfold append_folder at 1, modify at 1.
      destruct (IH pre fuel (acc + forest_size cs)
                  (set_catalogue (all_files w1)
                     (all_folders w1 ++ [with_size d (forest_size cs)]) w1)
                  Hwf Hserv ltac:(lia) HI1 Htok1) as [w' [Hrun [Hf [Hd [HI' Htok']]]]].
      exists w'. split.
      * rewrite Hrun. f_equal. unfold forest_size. simpl. lia.
      * unfold walked. rewrite forest_files_cons, forest_folders_cons.
        simpl in Hf, Hd |- *. rewrite Hf, Hd, Hf1, Hd1.
        unfold forest_size, forest_files, forest_folders.
        rewrite <- !app_assoc. auto.
Qed.

(** One listing: from a world of [I] the walk of [path] reads the
    items of [ts] and walks them. *)
Lemma parse_listing (path : json) (ts : list rnode) (pre : string) (fuel : nat) (w : world) :
  Forall (dir_walks I tok) ts ->
  answers I tok path (map node_item ts) ->
  all_true (map (wf_node pre) ts) ->
  all_true (map (serves_node I tok) ts) ->
  (forest_depth ts < fuel)%nat ->
  I (remote w) -> token w = tok ->
  exists w', _parse_catalogues fuel path w = Ret (forest_size ts) w' /\
             walked I tok ts w w'.
Proof.
  intros Hall Hans Hwf Hserv Hdepth HI Htok.
  destruct fuel as [|fuel]; [lia|].
  simpl _parse_catalogues.
  unfold bind at 1. unfold _point at 1, modify at 1.
  set (w0 := set_terminal (terminal w ++ [TWrite "."]) (stdin w) w).
  rewrite (bind_Ret _ _ _ _ _ (requests_get_run _ _ w0)).
  change (mkRequest GET URL (session_headers (token w0)) [("path", path)] None)
    with (metadata_request (token w) [("path", path)]).
  rewrite Htok.
  destruct (Hans (remote w) HI) as [[embedded [Hemb Hitems]] HI1].
  change (answer (metadata_request tok [("path", path)]) w0)
    with (fst (handle (metadata_request tok [("path", path)]) (remote w))).
  rewrite Hemb.
  rewrite (bind_Ret (lift (inr embedded)) _ _ _ embedded eq_refl).
  rewrite Hitems.
  rewrite (bind_Ret (lift (ebind (inr (JList (map JObj (map node_item ts)))) as_list))
             _ _ _ (map JObj (map node_item ts)) eq_refl).
  destruct (walk_items_forest ts Hall pre fuel 0
              (answered (metadata_request tok [("path", path)]) w0)
              Hwf Hserv ltac:(lia) HI1 Htok) as [w' [Hrun Hw]].
  exists w'. split; [exact Hrun|exact Hw].
Qed.

Lemma dir_walks_all (t : rnode) : dir_walks I tok t.
Proof.
  induction t as [item f|item d cs IH] using rnode_ind'; [exact Logic.I|].
  intros pre fuel w Hwf Hserv Hdepth HI Htok.
  destruct Hwf as [_ [_ [_ [_ Hwf]]]]. destruct Hserv as [Hans Hserv].
  simpl in Hdepth. fold (forest_depth cs) in Hdepth.
  apply (parse_listing (JStr (d_path d)) cs (d_path d ++ "/") fuel w); auto.
Qed.

(** The walk of a forest the service shows, with fuel for its depth:
    it returns the bytes of the forest and appends its files and
    folders in the order of the walk. *)
Lemma parse_forest (root : json) (ts : list rnode) (pre : string) (fuel : nat) (w : world) :
  serves I tok root ts ->
  wf_forest pre ts ->
  (forest_depth ts < fuel)%nat ->
  I (remote w) -> token w = tok ->
  exists w', _parse_catalogues fuel root w = Ret (forest_size ts) w' /\
             walked I tok ts w w'.
Proof.
  intros [Hans Hserv] [_ Hwf] Hdepth HI Htok.
  apply (parse_listing root ts pre fuel w); auto.
  apply Forall_forall. intros t _. apply dir_walks_all.
Qed.

End Walk.

(** ** Paths *)

Lemma append_assoc_s (a b c : string) : (a ++ b) ++ c = a ++ (b ++ c).
Proof. induction a as [|x a IH]; simpl; [reflexivity|now rewrite IH]. Qed.

Lemma append_nil_r_s (a : string) : a ++ EmptyString = a.
Proof. induction a as [|x a IH]; simpl; [reflexivity|now rewrite IH]. Qed.

Lemma append_inj_l (a b c : string) : a ++ b = a ++ c -> b = c.
Proof. induction a as [|x a IH]; simpl; intros H; [exact H|]. inversion H. auto. Qed.

Lemma prefix_nil (s : string) : String.prefix EmptyString s = true.
Proof. destruct s; reflexivity. Qed.

Lemma prefix_append (a b : string) : String.prefix a (a ++ b) = true.
Proof.
  induction a as [|x a IH]; [apply prefix_nil|].
  change (String.prefix (String x a) (String x a ++ b))
    with (if ascii_dec x x then String.prefix a (a ++ b) else false).
  destruct (ascii_dec x x); [exact IH|contradiction].
Qed.

Lemma prefix_inv (a b : string) :
  String.prefix a b = true -> exists c, b = a ++ c.
Proof.
  revert b. induction a as [|x a IH]; intros b H.
  - now exists b.
  - destruct b as [|y b]; [discriminate|].
    apply prefix_cons_inv in H as [<- H].
    destruct (IH b H) as [c ->]. now exists c.
Qed.

(** Two names without a slash that are followed by a slash, or by
    nothing, at the same place of one string are one name. *)
Lemma no_slash_split (n n' x r : string) :
  no_slash n -> no_slash n' ->
  n ++ "/" ++ x = n' ++ r ->
  (r = EmptyString \/ exists y, r = "/" ++ y) ->
  n = n'.
Proof.
  revert n'. induction n as [|c n IH]; intros [|c' n'] Hn Hn' Heq Hr; simpl in *.
  - reflexivity.
  - inversion Heq; subst. destruct Hn' as [Hc _]. contradiction.
  - destruct Hr as [->|[y ->]]; [discriminate|].
    inversion Heq; subst. destruct Hn as [Hc _]. contradiction.
  - inversion Heq; subst. f_equal.
    apply (IH n'); tauto.
Qed.

Lemma below_apart (pre n n' p q : string) :
  no_slash n -> no_slash n' -> n <> n' ->
  below pre n p -> below pre n' q ->
  descendant p q = false.
Proof.
  intros Hn Hn' Hne [r1 [-> Hr1]] [r2 [-> Hr2]].
  unfold descendant. destruct (String.prefix _ _) eqn:E; [|reflexivity].
  exfalso. apply Hne.
  apply prefix_inv in E as [c E].
  rewrite !append_assoc_s in E. apply append_inj_l in E.
  destruct Hr1 as [->|[r ->]].
  - simpl in E. symmetry in E. eapply no_slash_split; [exact Hn|exact Hn'| |exact Hr2].
    exact E.
  - rewrite !append_assoc_s in E. symmetry in E.
    eapply no_slash_split; [exact Hn|exact Hn'| |exact Hr2]. exact E.
Qed.

Lemma wf_node_no_slash (pre : string) (t : rnode) :
  wf_node pre t -> no_slash (node_name t).
Proof. destruct t; simpl; tauto. Qed.

Lemma in_forest_files (f : YaFile) (ts : list rnode) :
  In f (forest_files ts) <-> exists t, In t ts /\ In f (tree_files t).
Proof.
  unfold forest_files. rewrite in_concat. split.
  - intros [l [Hl Hf]]. apply in_map_iff in Hl as [t [<- Ht]]. eauto.
  - intros [t [Ht Hf]]. exists (tree_files t). split; [now apply in_map|exact Hf].
Qed.

Lemma in_forest_folders (F : YaFolder) (ts : list rnode) :
  In F (forest_folders ts) <-> exists t, In t ts /\ In F (tree_folders t).
Proof.
  unfold forest_folders. rewrite in_concat. split.
  - intros [l [Hl Hf]]. apply in_map_iff in Hl as [t [<- Ht]]. eauto.
  - intros [t [Ht Hf]]. exists (tree_folders t). split; [now apply in_map|exact Hf].
Qed.

Lemma below_deeper (pre name child p : string) :
  below ((pre ++ name) ++ "/") child p -> below pre name p.
Proof.
  intros [rest [-> _]]. exists ("/" ++ child ++ rest). split.
  - now rewrite !append_assoc_s.
  - right. now exists (child ++ rest).
Qed.

(** Every entry of a tree lies at or below the path of its root. *)
Lemma tree_entries_below (t : rnode) :
  forall pre, wf_node pre t ->
    (forall f, In f (tree_files t) -> below pre (node_name t) (f_path f)) /\
    (forall F, In F (tree_folders t) -> below pre (node_name t) (d_path F)).
Proof.
  induction t as [item f|item d cs IH] using rnode_ind'; intros pre Hwf.
  - destruct Hwf as [_ [Hpath _]]. split; [|intros F []].
    intros f' [<-|[]]. exists EmptyString. split; [|now left].
    now rewrite append_nil_r_s.
  - destruct Hwf as [_ [Hpath [_ [_ Hcs]]]].
    apply all_true_Forall in Hcs. rewrite Forall_forall in IH, Hcs.
    split.
    + intros f Hf. apply in_forest_files in Hf as [c [Hc Hf]].
      pose proof (proj1 (IH c Hc _ (Hcs c Hc)) f Hf) as Hb.
      rewrite Hpath in Hb. exact (below_deeper _ _ _ _ Hb).
    + simpl. intros F HF. apply in_app_or in HF as [HF|[<-|[]]].
      * apply in_forest_folders in HF as [c [Hc HF]].
        pose proof (proj2 (IH c Hc _ (Hcs c Hc)) F HF) as Hb.
        rewrite Hpath in Hb. exact (below_deeper _ _ _ _ Hb).
      * exists EmptyString. split; [|now left]. simpl. now rewrite append_nil_r_s.
Qed.

(** The files below a directory are descendants of its path. *)
Lemma children_descend (pre : string) (item : dict) (d : YaFolder) (cs : list rnode)
    (f : YaFile) :
  wf_node pre (RDir item d cs) -> In f (forest_files cs) ->
  descendant (d_path d) (f_path f) = true.
Proof.
  intros [_ [_ [_ [_ Hcs]]]] Hf.
  apply all_true_Forall in Hcs. rewrite Forall_forall in Hcs.
  apply in_forest_files in Hf as [c [Hc Hf]].
  destruct (proj1 (tree_entries_below c _ (Hcs c Hc)) f Hf) as [rest [-> _]].
  unfold descendant. apply prefix_append.
Qed.

(** ** Sizes *)

Lemma sum_sizes_app (l1 l2 : list YaFile) :
  sum_sizes (l1 ++ l2) = sum_sizes l1 + sum_sizes l2.
Proof. unfold sum_sizes. rewrite map_app. apply zsum_app. Qed.

Lemma under_app (F : YaFolder) (l1 l2 : list YaFile) :
  under F (l1 ++ l2) = (under F l1 ++ under F l2)%list.
Proof. apply filter_app. Qed.

Lemma under_none (F : YaFolder) (l : list YaFile) :
  (forall f, In f l -> descendant (d_path F) (f_path f) = false) -> under F l = [].
Proof.
  induction l as [|f l IH]; intros H; [reflexivity|].
  unfold under in *. simpl. rewrite (H f (or_introl eq_refl)).
  apply IH. intros g Hg. apply H. now right.
Qed.

Lemma under_all (F : YaFolder) (l : list YaFile) :
  (forall f, In f l -> descendant (d_path F) (f_path f) = true) -> under F l = l.
Proof.
  induction l as [|f l IH]; intros H; [reflexivity|].
  unfold under in *. simpl. rewrite (H f (or_introl eq_refl)). f_equal.
  apply IH. intros g Hg. apply H. now right.
Qed.

Lemma tree_files_size (t : rnode) : sum_sizes (tree_files t) = tree_size t.
Proof.
  induction t as [item f|item d cs IH] using rnode_ind'.
  - unfold sum_sizes. simpl. lia.
  - simpl. induction IH as [|c cs Hc _ IHcs]; [reflexivity|].
    simpl. rewrite sum_sizes_app, Hc, IHcs. reflexivity.
Qed.

Lemma forest_files_size (ts : list rnode) : sum_sizes (forest_files ts) = forest_size ts.
Proof.
  induction ts as [|t ts IH]; [reflexivity|].
  rewrite forest_files_cons, sum_sizes_app, tree_files_size, IH. reflexivity.
Qed.

(** In a forest with the layout of a disk a folder's size is the sum
    of the files that are descendants of its path. *)
Lemma forest_sums (ts : list rnode) :
  Forall (fun t => forall pre, wf_node pre t ->
            forall F, In F (tree_folders t) ->
              d_size F = sum_sizes (under F (tree_files t))) ts ->
  forall pre, wf_forest pre ts ->
    forall F, In F (forest_folders ts) ->
      d_size F = sum_sizes (under F (forest_files ts)).
Proof.
  induction 1 as [|t ts Ht Hts IH]; intros pre [Hnd Hwf] F HF; [destruct HF|].
  destruct Hwf as [Hwft Hwf]. simpl in Hnd. inversion Hnd as [|? ? Hnotin Hnd']; subst.
  rewrite forest_files_cons, under_app, sum_sizes_app.
  rewrite forest_folders_cons in HF. apply in_app_or in HF as [HF|HF].
  - rewrite (Ht pre Hwft F HF).
    rewrite (under_none F (forest_files ts)); [change (sum_sizes []) with 0; lia|].
    intros f Hf. apply in_forest_files in Hf as [t' [Ht' Hf]].
    assert (Hwft' : wf_node pre t').
    { apply all_true_Forall in Hwf. rewrite Forall_forall in Hwf. auto. }
    apply (below_apart pre (node_name t) (node_name t')).
    + eapply wf_node_no_slash, Hwft.
    + eapply wf_node_no_slash, Hwft'.
    + intros Heq. apply Hnotin. rewrite Heq. now apply in_map.
    + apply (proj2 (tree_entries_below t pre Hwft)), HF.
    + apply (proj1 (tree_entries_below t' pre Hwft')), Hf.
  - rewrite (IH pre (conj Hnd' Hwf) F HF).
    rewrite (under_none F (tree_files t)); [change (sum_sizes []) with 0; lia|].
    intros f Hf. apply in_forest_folders in HF as [t' [Ht' HF]].
    assert (Hwft' : wf_node pre t').
    { apply all_true_Forall in Hwf. rewrite Forall_forall in Hwf. auto. }
    apply (below_apart pre (node_name t') (node_name t)).
    + eapply wf_node_no_slash, Hwft'.
    + eapply wf_node_no_slash, Hwft.
    + intros Heq. apply Hnotin. rewrite <- Heq. now apply in_map.
    + apply (proj2 (tree_entries_below t' pre Hwft')), HF.
    + apply (proj1 (tree_entries_below t pre Hwft)), Hf.
Qed.

Lemma tree_sums (t : rnode) :
  forall pre, wf_node pre t ->
    forall F, In F (tree_folders t) ->
      d_size F = sum_sizes (under F (tree_files t)).
Proof.
  induction t as [item f|item d cs IH] using rnode_ind'; intros pre Hwf F HF;
    [destruct HF|].
  simpl in HF. apply in_app_or in HF as [HF|[<-|[]]].
  - destruct Hwf as [_ [_ [_ [Hnd Hcs]]]].
    apply (forest_sums cs IH (d_path d ++ "/") (conj Hnd Hcs) F HF).
  - change (tree_files (RDir item d cs)) with (forest_files cs).
    rewrite under_all.
    + simpl. symmetry. apply forest_files_size.
    + intros f Hf. simpl. eapply children_descend; eassumption.
Qed.

(** C1. On a service that shows a forest laid out as a disk, the walk
    from an empty catalogue, with fuel for the depth of the forest,
    returns the sum of the sizes of all files below the root, which
    are the files it has put into [all_files]; every folder of
    [all_folders] has as its size the sum of the sizes of the files of
    [all_files] whose path is a descendant of its path; and at a
    directory item the size returned by the recursive call is put into
    the item before the folder is made from the item and appended. *)
Theorem walk_sizes_are_descendant_sums
    (I : Srv -> Prop) (root : json) (pre : string) (ts : list rnode)
    (fuel : nat) (w : world) :
  serves I (token w) root ts ->
  wf_forest pre ts ->
  (forest_depth ts < fuel)%nat ->
  I (remote w) ->
  all_files w = [] -> all_folders w = [] ->
  (exists w',
      _parse_catalogues fuel root w = Ret (sum_sizes (all_files w')) w' /\
      all_files w' = forest_files ts /\
      all_folders w' = forest_folders ts /\
      forall F, In F (all_folders w') ->
        d_size F = sum_sizes (under F (all_files w'))) /\
  (forall rec item path rest acc folder_size w0 w1,
      subscript item "type" = inr (JStr "dir") ->
      subscript item "path" = inr path ->
      rec path w0 = Ret folder_size w1 ->
      walk_items rec (JObj item :: rest) acc w0 =
      (folder <- lift (YaFolder_init (dict_update item [("size", JNum folder_size)])) ;;
       append_folder folder ;;
       walk_items rec rest (acc + folder_size)) w1).
Proof.
  intros Hserv Hwf Hdepth HI Hfiles Hfolders. split.
  - destruct (parse_forest I (token w) root ts pre fuel w Hserv Hwf Hdepth HI eq_refl)
      as [w' [Hrun [Hf [Hd _]]]].
    rewrite Hfiles in Hf. rewrite Hfolders in Hd. simpl in Hf, Hd.
    exists w'. rewrite Hf, Hd, forest_files_size.
    refine (conj Hrun (conj eq_refl (conj eq_refl _))).
    apply (forest_sums ts) with (pre := pre); [|exact Hwf].
    apply Forall_forall. intros t _. apply tree_sums.
  - intros rec item path rest acc folder_size w0 w1. apply walk_items_dir.
Qed.

(** ** Missing ancestors of an upload target *)

(** C5. Where the code parts from the claim: for a target path that
    holds a slash, when the existence queries for the target and for
    its first segment are both answered 404, the first folder creation
    is asked with the list of all segments as its path, not with the
    first segment; the creation of the full path follows.  No segment
    between the first and the last is ever asked for. *)
Theorem check_folder_exist_sends_segment_list
    (fuel : nat) (folder_name target_folderpath folder0 : string) (w : world) :
  let folder := PyStr.split target_folderpath "/" in
  let get1 := metadata_request (token w) [("path", JStr target_folderpath)] in
  let w1 := printed [OList (map OStr folder)] " " nl (answered get1 w) in
  let get2 := metadata_request (token w) [("path", JStr folder0)] in
  PyStr.contains "/" target_folderpath = true ->
  list_index folder 0 = inr folder0 ->
  status_code (answer get1 w) = 404 ->
  status_code (answer get2 w1) = 404 ->
  _check_folder_exist fuel folder_name target_folderpath w =
  (create_folder fuel folder0 (Some (JList (map JStr folder))) ;;
   folder_last <- lift (list_index folder (-1)) ;;
   create_folder fuel folder_last (Some (JStr target_folderpath))) (answered get2 w1).
Proof.
  intros folder get1 w1 get2 Hslash H0 H1 H2. unfold _check_folder_exist.
  rewrite (bind_Ret _ _ _ _ _ (requests_get_run _ _ w)).
  fold (metadata_request (token w) [("path", JStr target_folderpath)]). fold get1.
  rewrite Hslash, H1. change (404 =? 404) with true. cbv iota.
  fold folder. rewrite (bind_Ret _ _ _ _ _ (print_run _ _)). fold w1.
  rewrite H0. rewrite (bind_Ret (lift (inr folder0)) _ w1 w1 folder0 eq_refl).
  rewrite (bind_Ret _ _ _ _ _ (requests_get_run _ _ w1)).
  change (mkRequest GET URL (session_headers (token w1)) [("path", JStr folder0)] None)
    with get2.
  rewrite H2. reflexivity.
Qed.

(** ** Upload of a folder that holds a sub-directory *)

(** C9. Where the code parts from the claim: the listing of the local
    folder is taken as it is, sub-directories included.  For a listed
    name that is a directory the upload address is asked for, and when
    it is given, opening the directory fails: the error is not caught,
    the loop ends there and the names after it are not uploaded. *)
Theorem upload_folder_stops_at_subdirectory
    (folder_name folder_path file : string) (rest : list string)
    (message : option string) (href : json) (w : world) :
  let q := upload_request (token w) [("path", JStr (folder_path ++ "/" ++ file))] in
  LocalFs.isdir (cwd w) (LocalFs.join folder_path file) = true ->
  jsubscript (body (answer q w)) "href" = inr href ->
  upload_folder_loop folder_name folder_path (file :: rest) message w
    = Raise OSError (answered q w).
Proof.
  intros q Hdir Hhref. simpl upload_folder_loop.
  apply bind_Raise. unfold upload_folder_step, try_KeyError.
  assert (Hopen : LocalFs.open_rb (cwd w) (LocalFs.join folder_path file) = inl OSError).
  { unfold LocalFs.isdir in Hdir. unfold LocalFs.open_rb.
    destruct (LocalFs.lookup (cwd w) (LocalFs.join folder_path file)) as [[c|es]|];
      try discriminate; reflexivity. }
  unfold get_upload_url.
  rewrite bind_assoc.
  rewrite (bind_Ret _ _ _ _ _ (requests_get_run _ _ w)).
  fold (upload_request (token w) [("path", JStr (folder_path ++ "/" ++ file))]). fold q.
  rewrite Hhref.
  rewrite (bind_Ret (lift (inr href)) _ _ _ href eq_refl).
  rewrite (bind_Ret (gets cwd) _ (answered q w) (answered q w) (cwd w) eq_refl).
  rewrite Hopen. reflexivity.
Qed.

(** * Further properties *)

(** ** Progress of a transfer *)

Lemma last_cons_default {A : Type} (b d : A) (l : list A) :
  last (b :: l) d = last l b.
Proof.
  revert b d. induction l as [|x l IH]; intros b d; [reflexivity|].
  change (last (b :: x :: l) d) with (last (x :: l) d).
  rewrite (IH x d), (IH x b). reflexivity.
Qed.

Lemma callbacks_spec (readings : list Z) (t : tracker) :
  prev_value (callbacks readings t) = last readings (prev_value t) /\
  pbar_n (tracked (callbacks readings t))
    = pbar_n (tracked t) + (last readings (prev_value t) - prev_value t) /\
  pbar_total (tracked (callbacks readings t)) = pbar_total (tracked t).
Proof.
  revert t. induction readings as [|b l IH]; intros t.
  - simpl. repeat split; lia.
  - unfold callbacks in *. simpl fold_left.
    destruct (IH (callback b t)) as [Hp [Hn Ht]].
    rewrite Hp, Hn, Ht. simpl prev_value. simpl tracked. simpl pbar_n. simpl pbar_total.
    rewrite last_cons_default. repeat split; lia.
Qed.

(** X1. Whatever readings of [bytes_read] the monitor passes to the
    callback of [track_upload_progress], in whatever order, the bar
    ends at the position it had plus the last reading: the differences
    it is fed add up, also when a reading is smaller than the one
    before. *)
Theorem progress_follows_last_reading (p : pbar) (readings : list Z) :
  let t := callbacks readings (track_upload_progress p) in
  pbar_n (tracked t) = pbar_n p + last readings 0 /\
  prev_value t = last readings 0 /\
  pbar_total (tracked t) = pbar_total p.
Proof.
  intros t. destruct (callbacks_spec readings (track_upload_progress p)) as [Hp [Hn Ht]].
  unfold t. rewrite Hp, Hn, Ht. simpl. repeat split; lia.
Qed.

(** ** Sizes as printed *)

Lemma float_of_int_small (x : Z) : Z.abs x < 2 ^ 53 -> float_of_int x = x.
Proof.
  intros H. unfold float_of_int. cbv zeta.
  destruct (Z.leb_spec (Z.log2 (Z.abs x) + 1) 53) as [_|Hbig]; [reflexivity|].
  exfalso.
  destruct (Z.eq_dec (Z.abs x) 0) as [E|E].
  - rewrite E in Hbig. simpl in Hbig. lia.
  - assert (Hpos : 0 < Z.abs x) by lia.
    apply (Z.log2_lt_pow2 _ 53 Hpos) in H. lia.
Qed.

Lemma round_kb_close (x : Z) :
  Z.abs x < 2 ^ 53 ->
  -512 <= x - 1024 * round_kb x <= 512 /\
  (x - 1024 * round_kb x = 512 \/ x - 1024 * round_kb x = -512 ->
   Z.even (round_kb x) = true).
Proof.
  intros Hsmall. unfold round_kb. rewrite (float_of_int_small x Hsmall).
  unfold round_half_even. cbv zeta.
  pose proof (Z.div_mod x 1024 ltac:(lia)) as Hdm.
  pose proof (Z.mod_pos_bound x 1024 ltac:(lia)) as Hb.
  destruct (Z.ltb_spec (2 * (x mod 1024)) 1024) as [H1|H1]; [split; lia|].
  destruct (Z.ltb_spec 1024 (2 * (x mod 1024))) as [H2|H2]; [split; lia|].
  assert (Hr : x mod 1024 = 512) by lia.
  destruct (Z.even (x / 1024)) eqn:E.
  - split; [lia|]. intros _. exact E.
  - split; [lia|]. intros _.
    rewrite Z.even_add, E. reflexivity.
Qed.

(** X2. For a size whose kilobytes a double can hold (beyond, the
    division is an [OverflowError]), [_size] picks the unit by the
    number of kilobytes, rounded: GB above 100000, MB strictly between
    1000 and 100000, KB otherwise, so that exactly 100000 kilobytes
    are printed in KB.  For a size below 2^53 bytes, which a double
    holds exactly, that number is the size in kilobytes rounded to the
    nearest whole one, a half going to the even side. *)
Theorem size_units (item : entry) :
  Z.abs (entry_size item) < 2 ^ 1023 ->
  let size := round_kb (entry_size item) in
  (Z.abs (entry_size item) < 2 ^ 53 ->
   -512 <= entry_size item - 1024 * size <= 512 /\
   (entry_size item - 1024 * size = 512 \/ entry_size item - 1024 * size = -512 ->
    Z.even size = true)) /\
  (size > 100000 -> _size item = round2_repr size (1024 ^ 2) ++ " GB") /\
  (1000 < size < 100000 -> _size item = round2_repr size 1024 ++ " MB") /\
  (size <= 1000 \/ size = 100000 -> _size item = str_of_Z size ++ " KB").
Proof.
  intros _ size.
  refine (conj (round_kb_close (entry_size item)) (conj _ (conj _ _)));
    intros H; unfold _size; fold size.
  - destruct (Z.gtb_spec size 100000); [reflexivity|lia].
  - destruct (Z.gtb_spec size 100000); [lia|].
    destruct (Z.gtb_spec 100000 size); [|lia].
    destruct (Z.gtb_spec size 1000); [reflexivity|lia].
  - destruct (Z.gtb_spec size 100000); [lia|].
    destruct (Z.gtb_spec 100000 size); [|reflexivity].
    destruct (Z.gtb_spec size 1000); [lia|reflexivity].
Qed.

(** ** Dicts and the constructors *)

Lemma dict_get_set_same (k : string) (v : json) (d : dict) :
  dict_get k (dict_set k v d) = Some v.
Proof.
  induction d as [|[k' v'] d IH]; simpl.
  - now rewrite String.eqb_refl.
  - destruct (String.eqb k k') eqn:E; simpl; rewrite E; [reflexivity|exact IH].
Qed.

Lemma dict_get_set_other (k k' : string) (v : json) (d : dict) :
  k' <> k -> dict_get k' (dict_set k v d) = dict_get k' d.
Proof.
  intros Hne. induction d as [|[k0 v0] d IH]; simpl.
  - destruct (String.eqb_spec k' k); [contradiction|reflexivity].
  - destruct (String.eqb_spec k k0) as [->|Hk]; simpl.
    + destruct (String.eqb_spec k' k0); [contradiction|reflexivity].
    + destruct (String.eqb k' k0); [reflexivity|exact IH].
Qed.

Lemma subscript_update_size (item : dict) (s : Z) (k : string) :
  k <> "size" ->
  subscript (dict_update item [("size", JNum s)]) k = subscript item k.
Proof.
  intros Hne. unfold subscript, dict_update. simpl.
  now rewrite dict_get_set_other.
Qed.

(** X3. The size of a folder never comes from the service: whatever
    the item held under [size], the folder made from the item the walk
    has updated carries the size the walk computed, while its name and
    path are the ones the service sent; and from an item without a
    [size] key no folder can be made at all. *)
Theorem folder_size_comes_from_the_walk (item : dict) (s : Z) :
  (forall d, YaFolder_init (dict_update item [("size", JNum s)]) = inr d ->
     d_size d = s /\
     subscript item "name" = inr (JStr (d_name d)) /\
     subscript item "path" = inr (JStr (d_path d))) /\
  (dict_get "size" item = None -> forall d, YaFolder_init item <> inr d).
Proof.
  split.
  - intros d H. unfold YaFolder_init in H.
    rewrite !subscript_update_size in H by discriminate.
    assert (Hs : subscript (dict_update item [("size", JNum s)]) "size" = inr (JNum s)).
    { unfold subscript, dict_update. simpl. now rewrite dict_get_set_same. }
    rewrite Hs in H. simpl in H.
    destruct (subscript item "name") as [e|[| | |name| |]]; try discriminate. simpl in H.
    repeat match type of H with
           | ebind (subscript ?i ?k) _ = _ =>
               destruct (subscript i k) as [?|?]; [discriminate|]; simpl in H
           end.
    destruct (subscript item "path") as [e|[| | |path| |]]; try discriminate. simpl in H.
    repeat match type of H with
           | ebind (subscript ?i ?k) _ = _ =>
               destruct (subscript i k) as [?|?]; [discriminate|]; simpl in H
           end.
    inversion H. simpl. auto.
  - intros Hnone d H. unfold YaFolder_init in H.
    assert (Hs : subscript item "size" = inl (KeyError "size"))
      by (unfold subscript; now rewrite Hnone).
    rewrite Hs in H. simpl in H.
    repeat match type of H with
           | ebind ?x _ = _ => destruct x as [?|?]; [discriminate|]; simpl in H
           end.
    discriminate.
Qed.

(** ** The largest entry *)



Lemma pick_collection_run (t : string) (w : world) :
  pick_collection t w = Ret (collection_of t w) w.
Proof. unfold pick_collection, collection_of. destruct (String.eqb t "file"); reflexivity. Qed.


(** X5. On an empty collection [find_biggest] ends in the [ValueError]
    of [max]: no file is written and nothing is printed. *)
Theorem find_biggest_empty_raises (t : string) (w : world) :
  bad_obj_type (Some t) = false ->
  entries (collection_of t w) = [] ->
  find_biggest (Some t) w = Raise ValueError w.
Proof.
  intros Hok Hnil. unfold find_biggest. rewrite Hok.
  rewrite (bind_Ret _ _ _ _ _ (pick_collection_run t w)).
  rewrite Hnil. reflexivity.
Qed.

(** ** Printing loops *)

Lemma shown_nil (w : world) : shown [] w = w.
Proof. destruct w. unfold shown, set_terminal. simpl. now rewrite app_nil_r. Qed.

Lemma shown_printed (args : list pyobj) (events : list term_event) (w : world) :
  shown events (printed args " " nl w) = shown (TPrint args " " nl :: events) w.
Proof.
  unfold shown, printed, set_terminal. simpl. now rewrite <- app_assoc.
Qed.

Lemma for_each_print {A : Type} (body : A -> M unit) (g : A -> list pyobj) (l : list A) :
  (forall x w, body x w = Ret tt (printed (g x) " " nl w)) ->
  forall w, for_each l body w
            = Ret tt (shown (map (fun x => TPrint (g x) " " nl) l) w).
Proof.
  intros Hbody. induction l as [|x l IH]; intros w; simpl.
  - now rewrite shown_nil.
  - rewrite (bind_Ret _ _ _ _ _ (Hbody x w)). rewrite IH. now rewrite shown_printed.
Qed.

(** ** The walk only appends *)

Lemma grown_refl (w : world) : grown w w.
Proof. exists [], []. now rewrite !app_nil_r. Qed.

Lemma grown_trans (w1 w2 w3 : world) : grown w1 w2 -> grown w2 w3 -> grown w1 w3.
Proof.
  intros [fs [ds [Hf Hd]]] [fs' [ds' [Hf' Hd']]].
  exists (fs ++ fs')%list, (ds ++ ds')%list.
  rewrite Hf', Hd', Hf, Hd, !app_assoc. auto.
Qed.

Lemma steps_bind {A B : Type} (R : world -> world -> Prop) (m : M A) (f : A -> M B) :
  (forall w1 w2 w3, R w1 w2 -> R w2 w3 -> R w1 w3) ->
  steps R m -> (forall a, steps R (f a)) -> steps R (bind m f).
Proof.
  intros Htrans Hm Hf w. unfold bind. specialize (Hm w).
  destruct (m w) as [a w1|e w1|]; auto.
  specialize (Hf a w1). destruct (f a w1); eauto.
Qed.

Lemma steps_grown_lift {A : Type} (x : exn + A) : steps grown (lift x).
Proof. intros w. destruct x; simpl; apply grown_refl. Qed.

Lemma steps_grown_get (url : string) (params : dict) : steps grown (requests_get url params).
Proof.
  intros w. rewrite requests_get_run. exists [], []. simpl. now rewrite !app_nil_r.
Qed.

Lemma steps_grown_walk_items (rec : json -> M Z) (items : list json) (acc : Z) :
  (forall path, steps grown (rec path)) -> steps grown (walk_items rec items acc).
Proof.
  intros Hrec. revert acc. induction items as [|item items IH]; intros acc; simpl.
  - intros w. apply grown_refl.
  - apply (steps_bind _ _ _ grown_trans); [apply steps_grown_lift|]. intros d.
    apply (steps_bind _ _ _ grown_trans); [apply steps_grown_lift|]. intros type.
    destruct (json_is_str type "dir").
    + apply (steps_bind _ _ _ grown_trans); [apply steps_grown_lift|]. intros path.
      apply (steps_bind _ _ _ grown_trans); [apply Hrec|]. intros folder_size.
      apply (steps_bind _ _ _ grown_trans); [apply steps_grown_lift|]. intros folder.
      apply (steps_bind _ _ _ grown_trans); [|intros _; apply IH].
      intros w. exists [], [folder]. simpl. now rewrite app_nil_r.
    + apply (steps_bind _ _ _ grown_trans); [apply steps_grown_lift|]. intros size.
      apply (steps_bind _ _ _ grown_trans); [apply steps_grown_lift|]. intros file.
      apply (steps_bind _ _ _ grown_trans); [|intros _; apply IH].
      intros w. exists [file], []. simpl. now rewrite app_nil_r.
Qed.

Lemma steps_grown_parse (fuel : nat) (path : json) :
  steps grown (_parse_catalogues fuel path).
Proof.
  revert path. induction fuel as [|fuel IH]; intros path; simpl.
  - intros w. exact I.
  - apply (steps_bind _ _ _ grown_trans).
    { intros w. exists [], []. simpl. now rewrite !app_nil_r. }
    intros _. apply (steps_bind _ _ _ grown_trans); [apply steps_grown_get|].
    intros response.
    apply (steps_bind _ _ _ grown_trans); [apply steps_grown_lift|]. intros embedded.
    apply (steps_bind _ _ _ grown_trans); [apply steps_grown_lift|]. intros items.
    apply steps_grown_walk_items. exact IH.
Qed.

(** X6. On any service the walk only ever appends to the catalogue:
    whether it returns or ends in an exception half way, the files and
    folders that were there before are still there, in front and in
    their order.  A walk that is not preceded by the clearing of
    [reload] therefore lists everything a second time. *)
Theorem walk_only_appends (fuel : nat) (path : json) (w w' : world) :
  (exists size, _parse_catalogues fuel path w = Ret size w') \/
  (exists e, _parse_catalogues fuel path w = Raise e w') ->
  exists fs ds,
    all_files w' = (all_files w ++ fs)%list /\
    all_folders w' = (all_folders w ++ ds)%list.
Proof.
  intros H. pose proof (steps_grown_parse fuel path w) as Hs.
  destruct H as [[size H]|[e H]]; rewrite H in Hs; exact Hs.
Qed.

(** ** The rebuilding of the catalogue *)

(** X7. [reload] rebuilds the catalogue wholesale: on a service that
    shows a forest laid out as a disk, whatever the catalogue held
    before, after [reload] it holds the files and folders of the
    forest in the order of the walk and nothing else. *)
Theorem reload_replaces_catalogue
    (I : Srv -> Prop) (pre : string) (ts : list rnode) (fuel : nat) (w : world) :
  serves I (token w) (JStr "/") ts ->
  wf_forest pre ts ->
  (forest_depth ts < fuel)%nat ->
  I (remote w) ->
  exists w',
    reload fuel w = Ret tt w' /\
    all_files w' = forest_files ts /\
    all_folders w' = forest_folders ts.
Proof.
  intros Hserv Hwf Hdepth HI. unfold reload.
  set (w0 := printed [OStr "Обновление содержимого Я.Диска:"] " " nl (set_catalogue [] [] w)).
  destruct (parse_forest I (token w) (JStr "/") ts pre fuel w0 Hserv Hwf Hdepth HI eq_refl)
    as [w' [Hrun [Hf [Hd _]]]].
  exists w'. split; [|split; assumption].
  unfold bind at 1. unfold modify at 1.
  unfold bind at 1. unfold print_str, print, print_with, modify.
  fold w0. rewrite (bind_Ret _ _ _ _ _ Hrun). reflexivity.
Qed.

(** ** A listing that cannot be read *)

(** X8. A directory whose listing has no [_embedded] aborts the whole
    walk.  When the root lists a directory first and the query for
    that directory is answered without [_embedded], the walk ends in
    [KeyError] after these two requests: the folder is not appended,
    the items after it are never visited and the catalogue is as it
    was. *)
Theorem walk_aborts_on_unreadable_directory
    (fuel : nat) (root path : json) (item : dict) (rest : list json)
    (embedded : json) (w : world) :
  let get_root := metadata_request (token w) [("path", root)] in
  let w1 := answered get_root (shown [TWrite "."] w) in
  let get_dir := metadata_request (token w) [("path", path)] in
  let w2 := answered get_dir (shown [TWrite "."] w1) in
  jsubscript (body (answer get_root w)) "_embedded" = inr embedded ->
  jsubscript embedded "items" = inr (JList (JObj item :: rest)) ->
  subscript item "type" = inr (JStr "dir") ->
  subscript item "path" = inr path ->
  jsubscript (body (answer get_dir w1)) "_embedded" = inl (KeyError "_embedded") ->
  _parse_catalogues (S (S fuel)) root w = Raise (KeyError "_embedded") w2 /\
  all_files w2 = all_files w /\ all_folders w2 = all_folders w /\
  sent w2 = (sent w ++ [get_root; get_dir])%list.
Proof.
  intros get_root w1 get_dir w2 Hemb Hitems Htype Hpath Hnone.
  assert (Hdir : _parse_catalogues (S fuel) path w1 = Raise (KeyError "_embedded") w2).
  { simpl _parse_catalogues.
    unfold bind at 1. unfold _point at 1, modify at 1.
    change (set_terminal (terminal w1 ++ [TWrite "."]) (stdin w1) w1)
      with (shown [TWrite "."] w1).
    rewrite (bind_Ret _ _ _ _ _ (requests_get_run _ _ _)).
    change (mkRequest GET URL (session_headers (token (shown [TWrite "."] w1)))
              [("path", path)] None) with get_dir.
    change (answer get_dir (shown [TWrite "."] w1)) with (answer get_dir w1).
    rewrite Hnone. reflexivity. }
  split.
  - change (S (S fuel)) with (S (S fuel)). simpl _parse_catalogues at 1.
    unfold bind at 1. unfold _point at 1, modify at 1.
    change (set_terminal (terminal w ++ [TWrite "."]) (stdin w) w)
      with (shown [TWrite "."] w).
    rewrite (bind_Ret _ _ _ _ _ (requests_get_run _ _ _)).
    change (mkRequest GET URL (session_headers (token (shown [TWrite "."] w)))
              [("path", root)] None) with get_root.
    change (answer get_root (shown [TWrite "."] w)) with (answer get_root w).
    fold w1. rewrite Hemb.
    rewrite (bind_Ret (lift (inr embedded)) _ w1 w1 embedded eq_refl).
    rewrite Hitems.
    rewrite (bind_Ret (lift (ebind (inr (JList (JObj item :: rest))) as_list))
               _ w1 w1 (JObj item :: rest) eq_refl).
    simpl walk_items.
    rewrite (bind_Ret _ _ w1 w1 item eq_refl).
    rewrite Htype. rewrite (bind_Ret _ _ w1 w1 (JStr "dir") eq_refl).
    change (json_is_str (JStr "dir") "dir") with true. cbv iota.
    rewrite Hpath. rewrite (bind_Ret _ _ w1 w1 path eq_refl).
    apply bind_Raise. exact Hdir.
  - unfold w2, w1, answered, shown, set_remote, set_terminal. simpl.
    rewrite <- app_assoc. auto.
Qed.

(** ** Strings without the separator *)








(** ** Local objects [upload] cannot place *)

(** X9. An object that is neither at the given path nor found by name
    anywhere below the working directory makes [upload] end in
    [IndexError] before anything is sent, printed or changed. *)
Theorem upload_unknown_object_raises (fuel : nat) (object : string) (w : world) :
  PyStr.len object <> 2%nat ->
  LocalFs.exists_ (cwd w) object = false ->
  find_local object (LocalFs.walk "." (cwd w)) = None ->
  upload fuel (UPath object) w = Raise IndexError w.
Proof.
  intros Hlen Hex Hfind. unfold upload.
  destruct (Nat.eqb_spec (PyStr.len object) 2) as [E|_]; [contradiction|].
  rewrite (bind_Ret (gets cwd) _ w w (cwd w) eq_refl). cbv zeta.
  rewrite Hex, Hfind. reflexivity.
Qed.

Lemma bind_raise_never_returns {A B : Type} (m : M A) (e : exn) (w w' : world) (b : B) :
  bind m (fun _ => raise e) w <> Ret b w'.
Proof. unfold bind. destruct (m w); discriminate. Qed.

(** X10. A name of exactly two characters is taken for the pair
    (photos, album): its second character becomes an album under
    [photos], whose folder is looked for and created, and [upload]
    then ends in [ValueError]; it never returns, and no file of that
    name is ever uploaded. *)
Theorem upload_two_character_name (fuel : nat) (object : string) (w : world) :
  PyStr.len object = 2%nat ->
  exists album,
    list_index (PyStr.chars object) 1 = inr album /\
    upload fuel (UPath object) w
      = (_check_folder_exist fuel album ("photos" ++ "/" ++ album) ;; raise ValueError) w /\
    forall w', upload fuel (UPath object) w <> Ret tt w'.
Proof.
  intros Hlen. unfold PyStr.len in Hlen.
  destruct (PyStr.chars object) as [|a [|album [|x l]]] eqn:E; try discriminate.
  exists album.
  assert (Hrun : upload fuel (UPath object) w
                 = (_check_folder_exist fuel album ("photos" ++ "/" ++ album) ;;
                    raise ValueError) w).
  { unfold upload, PyStr.len. rewrite E. cbn [List.length Nat.eqb].
    rewrite (list_index_1 a album []). reflexivity. }
  refine (conj (list_index_1 a album []) (conj Hrun _)).
  intros w'. rewrite Hrun. apply bind_raise_never_returns.
Qed.


(** ** Photos *)

Lemma upload_photos_run (target_folderpath : string) (photos : list (string * Z * Z)) :
  forall w, exists w',
    upload_photos target_folderpath photos w
      = match snd (render_photos photos) with
        | None => Ret tt w'
        | Some e => Raise e w'
        end /\
    sent w' = (sent w ++ map (photo_request (token w) target_folderpath)
                             (fst (render_photos photos)))%list /\
    token w' = token w /\ terminal w' = terminal w /\
    all_files w' = all_files w /\ all_folders w' = all_folders w.
Proof.
  induction photos as [|[[url likes] date] photos IH]; intros w.
  - exists w. simpl. rewrite app_nil_r. repeat split.
  - unfold upload_photos in *. simpl for_each. simpl render_photos.
    unfold _upload_url at 1.
    destruct (date_repr date) as [e|d] eqn:Edate.
    + exists w. simpl. rewrite app_nil_r. repeat split.
    + set (q := photo_request (token w) target_folderpath (url, likes, d)).
      destruct (IH (answered q w)) as [w' [Hrun [Hs [Ht [Hterm [Hf Hd]]]]]].
      exists w'.
      destruct (render_photos photos) as [l failure]. cbn [fst snd] in *.
      split.
      * rewrite <- Hrun.
        unfold bind at 1. unfold bind at 1. unfold bind at 1. unfold lift at 1.
        unfold ret at 1. unfold requests_post.
        rewrite (bind_Ret (headers) _ w w (session_headers (token w)) eq_refl).
        rewrite send_run. reflexivity.
      * rewrite Hs, Ht, Hterm, Hf, Hd. simpl. rewrite <- app_assoc. repeat split.
Qed.

Lemma render_photos_all (photos : list (string * Z * Z)) :
  (forall url likes date, In (url, likes, date) photos -> exists d, date_repr date = inr d) ->
  snd (render_photos photos) = None /\
  map (fun '(url, likes, _) => (url, likes)) (fst (render_photos photos))
    = map (fun '(url, likes, _) => (url, likes)) photos.
Proof.
  induction photos as [|[[url likes] date] photos IH]; intros Hall; [split; reflexivity|].
  simpl. destruct (Hall url likes date (or_introl eq_refl)) as [d ->].
  destruct IH as [Hnone Hmap].
  { intros u l t Hin. apply (Hall u l t). now right. }
  destruct (render_photos photos) as [l failure]. cbn [fst snd] in *.
  split; [exact Hnone|]. simpl. f_equal. exact Hmap.
Qed.

(** X12. For an album [upload] goes through the photos in the order
    of the list: for each it renders the date and asks the service to
    fetch the address into [photos/album/likes_date.jpg], and it never
    looks at the answers.  When every date can be rendered, one
    request per photo is sent whatever the service replies, nothing
    is printed for them and the loop returns.  At the first date that
    cannot be rendered the loop ends in the exception of the
    rendering: the requests for the photos before it have been sent,
    none for it or for any photo after it. *)
Theorem upload_album_requests_every_photo
    (fuel : nat) (photos : list (string * Z * Z)) (album : string) (w : world) :
  let target_folderpath := "photos" ++ "/" ++ album in
  upload fuel (UPhotos photos album) w =
    (_check_folder_exist fuel album target_folderpath ;;
     upload_photos target_folderpath photos ;;
     upload_finish fuel) w /\
  (forall w1, exists w2,
     upload_photos target_folderpath photos w1
       = match snd (render_photos photos) with
         | None => Ret tt w2
         | Some e => Raise e w2
         end /\
     sent w2 = (sent w1 ++ map (photo_request (token w1) target_folderpath)
                               (fst (render_photos photos)))%list /\
     terminal w2 = terminal w1) /\
  ((forall url likes date, In (url, likes, date) photos -> exists d, date_repr date = inr d) ->
   snd (render_photos photos) = None /\
   map (fun '(url, likes, _) => (url, likes)) (fst (render_photos photos))
     = map (fun '(url, likes, _) => (url, likes)) photos) /\
  (forall before url likes date after e,
     photos = (before ++ (url, likes, date) :: after)%list ->
     snd (render_photos before) = None ->
     date_repr date = inl e ->
     render_photos photos = (fst (render_photos before), Some e)).
Proof.
  intros target_folderpath.
  refine (conj eq_refl (conj _ (conj (render_photos_all photos) _))).
  - intros w1. destruct (upload_photos_run target_folderpath photos w1)
      as [w2 [Hrun [Hs [_ [Ht _]]]]].
    exists w2. auto.
  - intros before url likes date after e -> Hbefore Hdate.
    induction before as [|[[u l] t] before IH]; simpl in *.
    + now rewrite Hdate.
    + destruct (date_repr t) as [e'|d]; [discriminate Hbefore|].
      destruct (render_photos before) as [rs failure] eqn:Eb. cbn [fst snd] in *.
      rewrite (IH Hbefore). reflexivity.
Qed.

(** ** The check of the target folder *)

(** X13. What [_check_folder_exist] does besides the case of two
    missing folders.  For a target without a slash it hands over to
    [create_folder], which asks for the target a second time.  For a
    target with a slash every answer other than 404, an error
    included, is taken for "exists": one query and nothing more.  When
    the target is missing and its first segment is not, the target
    alone is created. *)
Theorem check_folder_exist_cases
    (fuel : nat) (folder_name target_folderpath : string) (w : world) :
  let get := metadata_request (token w) [("path", JStr target_folderpath)] in
  let folder := PyStr.split target_folderpath "/" in
  let w1 := printed [OList (map OStr folder)] " " nl (answered get w) in
  (PyStr.contains "/" target_folderpath = false ->
   _check_folder_exist fuel folder_name target_folderpath w
     = create_folder fuel folder_name (Some (JStr target_folderpath)) (answered get w)) /\
  (PyStr.contains "/" target_folderpath = true ->
   status_code (answer get w) <> 404 ->
   _check_folder_exist fuel folder_name target_folderpath w = Ret tt (answered get w)) /\
  (forall folder0,
     PyStr.contains "/" target_folderpath = true ->
     status_code (answer get w) = 404 ->
     list_index folder 0 = inr folder0 ->
     status_code (answer (metadata_request (token w) [("path", JStr folder0)]) w1) <> 404 ->
     _check_folder_exist fuel folder_name target_folderpath w
       = create_folder fuel folder_name (Some (JStr target_folderpath))
           (answered (metadata_request (token w) [("path", JStr folder0)]) w1)).
Proof.
  intros get folder w1.
  refine (conj _ (conj _ _)).
  - intros Hslash. unfold _check_folder_exist.
    rewrite (bind_Ret _ _ _ _ _ (requests_get_run _ _ w)). rewrite Hslash. reflexivity.
  - intros Hslash Hstatus. unfold _check_folder_exist.
    rewrite (bind_Ret _ _ _ _ _ (requests_get_run _ _ w)). rewrite Hslash.
    fold (metadata_request (token w) [("path", JStr target_folderpath)]). fold get.
    destruct (Z.eqb_spec (status_code (answer get w)) 404); [contradiction|reflexivity].
  - intros folder0 Hslash H404 H0 Hfirst. unfold _check_folder_exist.
    rewrite (bind_Ret _ _ _ _ _ (requests_get_run _ _ w)). rewrite Hslash.
    fold (metadata_request (token w) [("path", JStr target_folderpath)]). fold get.
    rewrite H404. change (404 =? 404) with true. cbv iota.
    fold folder. rewrite (bind_Ret _ _ _ _ _ (print_run _ _)). fold w1.
    rewrite H0. rewrite (bind_Ret (lift (inr folder0)) _ w1 w1 folder0 eq_refl).
    rewrite (bind_Ret _ _ _ _ _ (requests_get_run _ _ w1)).
    change (mkRequest GET URL (session_headers (token w1)) [("path", JStr folder0)] None)
      with (metadata_request (token w) [("path", JStr folder0)]).
    destruct (Z.eqb_spec
                (status_code (answer (metadata_request (token w) [("path", JStr folder0)]) w1))
                404); [contradiction|reflexivity].
Qed.

(** ** Numbers as the user types them *)

Lemma to_uint_nat_N (n : nat) : Nat.to_uint n = N.to_uint (N.of_nat n).
Proof.
  rewrite DecimalNat.Unsigned.to_uint_alt.
  assert (H : DecimalNat.Unsigned.to_lu n = DecimalPos.Unsigned.to_lu (N.of_nat n)).
  { induction n as [|n IH]; [reflexivity|].
    rewrite DecimalNat.Unsigned.to_lu_succ, Nat2N.inj_succ, DecimalPos.Unsigned.to_lu_succ.
    now rewrite IH. }
  rewrite H. destruct (N.of_nat n); reflexivity.
Qed.

Lemma of_uint_to_uint (n : nat) : Z.of_uint (Nat.to_uint n) = Z.of_nat n.
Proof.
  rewrite to_uint_nat_N. unfold Z.of_uint.
  change (Pos.of_uint (N.to_uint (N.of_nat n))) with (N.of_uint (N.to_uint (N.of_nat n))).
  rewrite DecimalN.Unsigned.of_to. apply nat_N_Z.
Qed.

Lemma to_uint_not_nil (n : nat) : Nat.to_uint n <> Decimal.Nil.
Proof.
  rewrite to_uint_nat_N. destruct (N.of_nat n); [discriminate|].
  apply DecimalPos.Unsigned.to_uint_nonnil.
Qed.

Lemma int_of_string_uint (d : Decimal.uint) :
  d <> Decimal.Nil ->
  NilZero.int_of_string (NilZero.string_of_uint d) = Some (Decimal.Pos d).
Proof.
  intros H. pose proof (NilZero.usu d H) as Hu.
  destruct d; try contradiction; unfold NilZero.int_of_string;
    (destruct (NilZero.string_of_uint _) eqn:E; [discriminate E|]);
    injection E as <- _; cbn [Ascii.eqb Bool.eqb]; rewrite Hu; reflexivity.
Qed.

Lemma int_of_string_of_nat (n : nat) :
  int_of_string (PyStr.of_nat n) = inr (Z.of_nat n).
Proof.
  unfold int_of_string, PyStr.of_nat.
  rewrite (int_of_string_uint _ (to_uint_not_nil n)).
  change (Z.of_int (Decimal.Pos (Nat.to_uint n))) with (Z.of_uint (Nat.to_uint n)).
  now rewrite of_uint_to_uint.
Qed.

Lemma of_nat_not_empty (n : nat) : PyStr.of_nat n <> EmptyString.
Proof.
  intros H. pose proof (int_of_string_of_nat n) as Hi. rewrite H in Hi. discriminate.
Qed.

Lemma list_index_nat {A : Type} (l : list A) (n : nat) :
  list_index l (Z.of_nat n)
  = match nth_error l n with Some x => inr x | None => inl IndexError end.
Proof.
  unfold list_index. cbv zeta.
  destruct (Z.ltb_spec (Z.of_nat n) 0) as [Hneg|_]; [lia|].
  destruct (Z.ltb_spec (Z.of_nat n) 0) as [Hneg|_]; [lia|].
  rewrite Nat2Z.id. cbn [orb].
  destruct (Z.leb_spec (Z.of_nat (List.length l)) (Z.of_nat n)) as [Hout|Hin].
  - assert (H : nth_error l n = None) by (apply nth_error_None; lia).
    now rewrite H.
  - reflexivity.
Qed.

(** ** The question of [create_folder] *)

Lemma folder_list_run (w : world) :
  for_each (enumerate 0 (all_folders w))
    (fun '(num, dir) => print [OStr ("dir <index>" ++ PyStr.of_nat num ++ "."); OFolder dir])
    (printed [OStr "Текущий список папок:"] " " nl w)
  = Ret tt (shown (folder_lines "dir <index>" (all_folders w))
              (printed [OStr "Текущий список папок:"] " " nl w)).
Proof.
  rewrite (for_each_print _
             (fun '(num, dir) =>
                [OStr ("dir <index>" ++ PyStr.of_nat num ++ "."); OFolder dir])).
  - unfold folder_lines. f_equal. f_equal. apply map_ext. intros [num dir]. reflexivity.
  - intros [num dir] w0. reflexivity.
Qed.

(** X14. Called without a path, [create_folder] prints the numbered
    folders and reads one line, and then goes on exactly as the call
    with a path does: for Enter the path is the folder name itself
    (the root of the disk); for the decimal index of a listed folder
    it is that folder's path, a slash and the name; for an index past
    the end of the list the call ends in [IndexError] right after the
    question, with nothing asked of the service. *)
Theorem create_folder_asks_for_the_parent
    (fuel : nat) (folder_name line : string) (keys : list string) (w : world) :
  stdin w = line :: keys ->
  let w1 := folder_asked w in
  sent w1 = sent w /\
  (line = EmptyString ->
   create_folder fuel folder_name None w
     = create_folder fuel folder_name (Some (JStr folder_name)) w1) /\
  (forall n, line = PyStr.of_nat n ->
     match nth_error (all_folders w) n with
     | Some dir =>
         create_folder fuel folder_name None w
           = create_folder fuel folder_name
               (Some (JStr (d_path dir ++ "/" ++ folder_name))) w1
     | None => create_folder fuel folder_name None w = Raise IndexError w1
     end).
Proof.
  intros Hin w1.
  assert (Hask : forall (K : list YaFolder -> string -> M dict) (g : dict -> M unit),
    bind (print_str "Текущий список папок:" ;;
          dirs <- gets all_folders ;;
          for_each (enumerate 0 dirs)
            (fun '(num, dir) =>
               print [OStr ("dir <index>" ++ PyStr.of_nat num ++ "."); OFolder dir]) ;;
          print_str (nl ++ "Если вы хотите создать папку в корне диска - нажмите Enter." ++ nl
                     ++ "Если вы хотите создать папку внутри другой папки - введите индекс соответствующей папки." ++ nl) ;;
          tree <- input "Введите ответ?" ;;
          K dirs tree) g w
    = bind (K (all_folders w) line) g w1).
  { intros K g.
    rewrite bind_assoc. unfold print_str at 1.
    rewrite (bind_Ret _ _ _ _ _ (print_run _ w)). cbv beta.
    rewrite bind_assoc.
    rewrite (bind_Ret (gets all_folders) _
               (printed [OStr "Текущий список папок:"] " " nl w) _ _ eq_refl). cbv beta.
    change (all_folders (printed [OStr "Текущий список папок:"] " " nl w))
      with (all_folders w).
    rewrite bind_assoc.
    rewrite (bind_Ret _ _ _ _ _ (folder_list_run w)). cbv beta.
    rewrite bind_assoc. unfold print_str at 1.
    rewrite (bind_Ret _ _ _ _ _ (print_run _ _)). cbv beta.
    rewrite bind_assoc.
    match goal with
    | |- bind (input ?p) _ ?w0 = _ =>
        rewrite (bind_Ret _ _ _ _ _ (input_run p line keys w0 Hin))
    end.
    reflexivity. }
  refine (conj eq_refl (conj _ _)).
  - intros ->. unfold create_folder at 1.
    rewrite (Hask (fun dirs tree =>
               if String.eqb tree EmptyString then ret [("path", JStr folder_name)]
               else i <- lift (int_of_string tree) ;;
                    dir <- lift (list_index dirs i) ;;
                    ret [("path", JStr (d_path dir ++ "/" ++ folder_name))])).
    reflexivity.
  - intros n ->.
    assert (Hne : String.eqb (PyStr.of_nat n) EmptyString = false)
      by (apply String.eqb_neq, of_nat_not_empty).
    assert (Hrun :
      create_folder fuel folder_name None w
      = match nth_error (all_folders w) n with
        | Some dir =>
            create_folder fuel folder_name
              (Some (JStr (d_path dir ++ "/" ++ folder_name))) w1
        | None => Raise IndexError w1
        end).
    { unfold create_folder at 1.
      rewrite (Hask (fun dirs tree =>
                 if String.eqb tree EmptyString then ret [("path", JStr folder_name)]
                 else i <- lift (int_of_string tree) ;;
                      dir <- lift (list_index dirs i) ;;
                      ret [("path", JStr (d_path dir ++ "/" ++ folder_name))])).
      cbv beta. rewrite Hne, int_of_string_of_nat.
      rewrite (bind_assoc (lift (inr (Z.of_nat n)))).
      rewrite (bind_Ret (lift (inr (Z.of_nat n))) _ w1 w1 (Z.of_nat n) eq_refl).
      rewrite list_index_nat.
      destruct (nth_error (all_folders w) n) as [dir|]; reflexivity. }
    rewrite Hrun. destruct (nth_error (all_folders w) n); reflexivity.
Qed.

(** ** A file that is sent *)

(** X15. [_upload_file] asks for the upload address twice: the first
    answer is only printed and the address is taken from the second.
    Once that answer holds a string under [href] and the local file
    can be read, the file goes there in one PUT, and the call prints
    that it was uploaded and returns whatever the storage has answered
    to the transfer: its answer is never looked at. *)
Theorem upload_file_success_is_unchecked
    (file targetpath fullpath href content : string) (w : world) :
  let param := [("path", JStr (targetpath ++ "/" ++ file))] in
  let q := upload_request (token w) param in
  let w0 := printed [ODict param] " " nl w in
  let w1 := printed [OJson (body (answer q w0))] " " nl (answered q w0) in
  let put := mkRequest PUT href [("Content-Type", "multipart/form-data")] []
               (Some (Multipart "file" "filename" "text/plain" content)) in
  jsubscript (body (answer q w1)) "href" = inr (JStr href) ->
  LocalFs.lookup (cwd w) fullpath = Some (FsFile content) ->
  _upload_file file targetpath fullpath w
    = Ret tt (printed [OStr ("Файл " ++ dq ++ file ++ dq
                              ++ " успешно загружен на Яндекс.Диск" ++ nl)] " " nl
                (answered put (answered q w1))) /\
  sent (answered put (answered q w1)) = (sent w ++ [q; q; put])%list.
Proof.
  intros param q w0 w1 put Hhref Hfile.
  split.
  - unfold _upload_file, try_KeyError.
    rewrite (bind_Ret _ _ _ _ _ (print_run _ w)). fold param w0.
    rewrite (bind_Ret _ _ _ _ _ (requests_get_run _ _ w0)).
    change (mkRequest GET (URL ++ "/upload") (session_headers (token w0)) param None)
      with q.
    rewrite (bind_Ret _ _ _ _ _ (print_run _ _)). fold w1.
    assert (Hurl : get_upload_url param w1 = Ret (JStr href) (answered q w1)).
    { unfold get_upload_url.
      rewrite (bind_Ret _ _ _ _ _ (requests_get_run _ _ w1)).
      change (mkRequest GET (URL ++ "/upload") (session_headers (token w1)) param None)
        with q.
      unfold lift. rewrite Hhref. reflexivity. }
    rewrite (bind_Ret _ _ _ _ _ Hurl).
    rewrite (bind_Ret (gets cwd) _ (answered q w1) _ _ eq_refl).
    change (cwd (answered q w1)) with (cwd w).
    unfold LocalFs.getsize, LocalFs.open_rb. rewrite Hfile.
    assert (Hput :
      put_upload (JStr href) [("Content-Type", "multipart/form-data")]
        (Multipart "file" "filename" "text/plain" content) (answered q w1)
      = Ret (answer put (answered q w1)) (answered put (answered q w1))).
    { unfold put_upload, requests_put_data.
      rewrite (bind_Ret (lift (as_str (JStr href))) _ (answered q w1) _ href eq_refl).
      apply send_run. }
    rewrite (bind_Ret (lift (inr (Z.of_nat (String.length content)))) _
               (answered q w1) _ _ eq_refl).
    rewrite (bind_Ret (lift (inr content)) _ (answered q w1) _ _ eq_refl).
    rewrite (bind_Ret _ _ _ _ _ Hput).
    reflexivity.
  - unfold answered at 1. unfold set_remote. cbn [sent].
    unfold answered at 1. unfold set_remote. cbn [sent]. 
    unfold w1, printed, set_terminal. cbn [sent].
    unfold answered at 1. unfold set_remote. cbn [sent].
    unfold w0, printed, set_terminal. cbn [sent].
    rewrite <- !app_assoc. reflexivity.
Qed.

(** ** The head of the ranking *)




End Properties.

(** * The model service *)

#[local] Existing Instance model_service.

Lemma tick_other (a b : string) (l l' : list (string * nat)) :
  Model.tick a l = None -> Model.tick b l = Some l' -> Model.tick a l' = None.
Proof.
  revert l'. induction l as [|[q n] l IH]; intros l' Ha Hb; simpl in *; [discriminate|].
  destruct (String.eqb_spec b q) as [->|Hbq].
  - destruct n as [|k]; [discriminate|]. inversion Hb; subst. simpl.
    destruct (String.eqb_spec a q) as [->|Haq]; [discriminate|].
    destruct (Model.tick a l); [discriminate|reflexivity].
  - destruct (Model.tick b l) as [lb|] eqn:Eb; [|discriminate].
    inversion Hb; subst. simpl.
    destruct (String.eqb_spec a q) as [->|Haq].
    + destruct n; [reflexivity|discriminate].
    + destruct (Model.tick a l) eqn:Ea; [discriminate|].
      now rewrite (IH lb eq_refl eq_refl).
Qed.

Lemma find_filter_none {A : Type} (p f : A -> bool) (l : list A) :
  find p l = None -> find p (filter f l) = None.
Proof.
  induction l as [|x l IH]; simpl; [auto|].
  destruct (p x) eqn:E; [discriminate|]. intros H.
  destruct (f x); simpl; [rewrite E|]; auto.
Qed.

Lemma model_metadata_gone (p : string) (s : Model.state) :
  status_code (fst (Model.metadata p s)) = 404 ->
  model_gone p (snd (Model.metadata p s)).
Proof.
  unfold Model.metadata, model_gone.
  destruct (String.eqb_spec (Model.normalize p) Model.root) as [E|E]; [discriminate|].
  destruct (Model.find_node (Model.normalize p) s) as [n|] eqn:En.
  - destruct (Model.n_dir n); discriminate.
  - destruct (Model.tick (Model.normalize p) (Model.fading s)) eqn:Et; [discriminate|].
    simpl. auto.
Qed.

Lemma model_gone_metadata (p : string) (s : Model.state) :
  model_gone p s -> Model.metadata p s = (Model.not_found, s).
Proof.
  intros [Hr [Hn Ht]]. unfold Model.metadata.
  destruct (String.eqb_spec (Model.normalize p) Model.root) as [E|E]; [contradiction|].
  now rewrite Hn, Ht.
Qed.

Lemma model_gone_stays_metadata (p p2 : string) (s : Model.state) :
  model_gone p s -> model_gone p (snd (Model.metadata p2 s)).
Proof.
  intros [Hr [Hn Ht]]. unfold Model.metadata.
  destruct (String.eqb (Model.normalize p2) Model.root); [repeat split; assumption|].
  destruct (Model.find_node (Model.normalize p2) s) as [n|].
  - destruct (Model.n_dir n); repeat split; assumption.
  - destruct (Model.tick (Model.normalize p2) (Model.fading s)) as [l|] eqn:E;
      [|repeat split; assumption].
    repeat split; simpl; auto. eapply tick_other; eassumption.
Qed.

Lemma model_gone_stays_remove (p p2 : string) (s : Model.state) :
  model_gone p s -> model_gone p (snd (Model.remove p2 s)).
Proof.
  intros [Hr [Hn Ht]]. unfold Model.remove.
  destruct (Model.find_node (Model.normalize p2) s) as [n|] eqn:E2;
    [|repeat split; assumption].
  assert (Hne : Model.normalize p <> Model.normalize p2)
    by (intros Heq; rewrite Heq in Hn; congruence).
  destruct (Model.lag s); repeat split; simpl; auto;
    try (unfold Model.find_node in *; simpl; apply find_filter_none; assumption).
  destruct (String.eqb_spec (Model.normalize p) (Model.normalize p2)); [contradiction|].
  now rewrite Ht.
Qed.

Lemma model_gone_stays_upload_link (p p2 : string) (s : Model.state) :
  model_gone p s -> model_gone p (snd (Model.upload_link p2 s)).
Proof.
  intros H. unfold Model.upload_link.
  destruct (Model.find_node (Model.normalize p2) s); [exact H|].
  destruct (Model.is_folder _ s); exact H.
Qed.

Lemma model_seen (tok : string) (params : dict) (p : string) (s : Model.state) :
  dict_get "path" params = Some (JStr p) ->
  status_code (fst (Model.handle (metadata_request tok params) s)) = 404 ->
  model_gone p (snd (Model.handle (metadata_request tok params) s)).
Proof.
  intros Hp. unfold Model.handle. simpl. rewrite Hp.
  apply model_metadata_gone.
Qed.

Lemma model_stays (p : string) (q : request) (s : Model.state) :
  get_or_delete (req_method q) = true ->
  model_gone p s -> model_gone p (snd (Model.handle q s)).
Proof.
  intros Hm Hg. unfold Model.handle.
  destruct (req_data q).
  - destruct (req_method q); try discriminate; exact Hg.
  - destruct (dict_get "path" (req_params q)) as [[| | |p2| |]|]; try exact Hg.
    destruct (String.eqb (req_url q) Model.URL).
    + destruct (req_method q); try discriminate.
      * apply model_gone_stays_metadata, Hg.
      * apply model_gone_stays_remove, Hg.
    + destruct (String.eqb (req_url q) _); [|exact Hg].
      destruct (req_method q); try discriminate; try exact Hg.
      apply model_gone_stays_upload_link, Hg.
Qed.

Lemma model_gone_404 (tok p : string) (s : Model.state) :
  model_gone p s ->
  status_code (fst (Model.handle (metadata_request tok [("path", JStr p)]) s)) = 404.
Proof.
  intros Hg. unfold Model.handle. simpl.
  now rewrite (model_gone_metadata p s Hg).
Qed.

Lemma model_settled_closed (q : request) (s : Model.state) :
  model_settled s -> model_settled (snd (Model.handle q s)).
Proof.
  intros [Hf Hl]. unfold Model.handle.
  destruct (req_data q) as [d|].
  - destruct (req_method q); try (split; assumption).
    unfold Model.store. destruct (String.prefix _ _); split; assumption.
  - destruct (dict_get "path" (req_params q)) as [[| | |p| |]|]; try (split; assumption).
    destruct (String.eqb (req_url q) Model.URL).
    + destruct (req_method q); try (split; assumption).
      * unfold Model.metadata.
        destruct (String.eqb _ Model.root); [split; assumption|].
        destruct (Model.find_node _ s) as [n|]; [destruct (Model.n_dir n); split; assumption|].
        rewrite Hf. simpl. split; assumption.
      * unfold Model.mkdir.
        destruct (Model.find_node _ s); [split; assumption|].
        destruct (Model.is_folder _ s); split; assumption.
      * unfold Model.remove.
        destruct (Model.find_node _ s); [|split; assumption].
        destruct (Model.lag s); [split; assumption|discriminate].
    + destruct (String.eqb (req_url q) _); [|split; assumption].
      destruct (req_method q); try (split; assumption).
      unfold Model.upload_link.
      destruct (Model.find_node _ s); [split; assumption|].
      destruct (Model.is_folder _ s); split; assumption.
Qed.

Lemma model_settled_get (q : request) (s : Model.state) :
  model_settled s -> req_method q = GET -> snd (Model.handle q s) = s.
Proof.
  intros [Hf Hl] Hm. unfold Model.handle. rewrite Hm.
  destruct (req_data q) as [d|]; [reflexivity|].
  destruct (dict_get "path" (req_params q)) as [[| | |p| |]|]; try reflexivity.
  destruct (String.eqb (req_url q) Model.URL).
  - unfold Model.metadata.
    destruct (String.eqb _ Model.root); [reflexivity|].
    destruct (Model.find_node _ s) as [n|]; [destruct (Model.n_dir n); reflexivity|].
    rewrite Hf. reflexivity.
  - destruct (String.eqb (req_url q) _); [|reflexivity].
    unfold Model.upload_link.
    destruct (Model.find_node _ s); [reflexivity|].
    destruct (Model.is_folder _ s); reflexivity.
Qed.

(** The deep disk shows the deep forest, laid out as a disk. *)
Ltac model_answers :=
  intros s ->; split;
  [eexists; split; [lazy; reflexivity|lazy; reflexivity]|lazy; reflexivity].

Lemma serves_deep : serves (fun s => s = disk_deep) "token" (JStr "/") forest_deep.
Proof.
  unfold serves, forest_deep. simpl all_true.
  repeat match goal with
         | |- _ /\ _ => split
         | |- True => exact I
         | |- answers _ _ _ _ => model_answers
         end.
Qed.

Lemma wf_deep : wf_forest "disk:/" forest_deep.
Proof.
  unfold wf_forest, forest_deep. simpl.
  repeat match goal with
         | |- _ /\ _ => split
         | |- True => exact I
         | |- NoDup _ => repeat constructor; simpl; intuition discriminate
         | |- file_ok _ _ => split; [reflexivity|eexists; split; reflexivity]
         | |- dir_ok _ _ => split; [reflexivity|split; [reflexivity|intros; reflexivity]]
         | |- _ = _ => reflexivity
         | |- _ <> _ => discriminate
         end.
Qed.

(** * The properties on concrete sessions *)

#[local] Existing Instance model_service.

(** C10 on the type ['photo']. *)
Lemma reports_reject_other_types_witness :
  (Some "photo" <> Some "file" /\ Some "photo" <> Some "folder") /\
  (find_biggest (Some "photo") w_three_files
     = Ret ONone (printed [OStr find_biggest_doc] " " nl w_three_files) /\
   print_all (Some "photo") w_three_files
     = Ret ONone (printed [OStr top10_doc] " " nl w_three_files) /\
   top10 (Some "photo") w_three_files
     = Ret ONone (printed [OStr top10_doc] " " nl w_three_files) /\
   forall doc,
     all_files (printed [OStr doc] " " nl w_three_files) = all_files w_three_files /\
     all_folders (printed [OStr doc] " " nl w_three_files) = all_folders w_three_files).
Proof.
  split; [split; discriminate|].
  apply (reports_reject_other_types (Some "photo") w_three_files); discriminate.
Defined.



(** The whole batch: one request for the file that is there, then the
    address and the transfer of the other, and the loop returns. *)
Lemma upload_batch_goes_on_after_collision :
  exists m w',
    _upload_folder "docs" "docs" w_docs_two = Ret (Some m) w' /\
    sent_summary w' =
      [(GET, URL ++ "/upload", [("path", JStr "docs/f.txt")]);
       (GET, URL ++ "/upload", [("path", JStr "docs/g.txt")]);
       (PUT, Model.uploader ++ "disk:/docs/g.txt", [])] /\
    map Model.n_path (Model.nodes (remote w')) = ["disk:/docs"; "disk:/docs/f.txt"; "disk:/docs/g.txt"].
Proof.
  do 2 eexists. refine (conj _ (conj _ _)); vm_compute; reflexivity.
Qed.

(** C4 on the list [a.txt; lost.txt; c.txt], of which the disk does
    not hold the second. *)
Lemma delete_list_stops_at_first_failure_witness :
  let objects := DList [file_a; file_lost; file_c] in
  let q := delete_request "token" [("path", JStr "disk:/lost.txt")] in
  (for_return [file_a] (delete_one 5 (perm_del_of EmptyString)) (delete_asked objects w_three)
     = Ret None w_three_a_deleted /\
   status_code (answer q w_three_a_deleted) >= 300) /\
  delete 5 objects w_three
    = Ret (inl (404, Model.message "Resource not found.")) (answered q w_three_a_deleted).
Proof.
  intros objects q.
  assert (H1 : for_return [file_a] (delete_one 5 (perm_del_of EmptyString))
                 (delete_asked objects w_three) = Ret None w_three_a_deleted)
    by (vm_compute; reflexivity).
  assert (H2 : status_code (answer q w_three_a_deleted) >= 300)
    by (vm_compute; discriminate).
  split; [split; assumption|].
  exact (proj1 (delete_list_stops_at_first_failure 5 [file_a] file_lost [file_c]
                  EmptyString [] w_three w_three_a_deleted eq_refl H1 H2)).
Defined.

(** C3 on the model disk, where a deleted file stays visible for two
    more queries: [delete] of [b.txt] returns its message, and the
    query made next is answered 404. *)
Lemma delete_returns_after_not_found_witness :
  delete 5 (DOne file_b) w_three = Ret (inr (deleted_to_trash "b.txt")) w_three_b_deleted /\
  status_code (answer (metadata_request "token" [("path", JStr "disk:/b.txt")])
                      w_three_b_deleted) = 404.
Proof.
  assert (H : delete 5 (DOne file_b) w_three
              = Ret (inr (deleted_to_trash "b.txt")) w_three_b_deleted)
    by (vm_compute; reflexivity).
  split; [exact H|].
  exact (proj1 (@delete_returns_after_not_found model_service model_gone model_seen model_stays
                  model_gone_404 5 (DOne file_b) w_three w_three_b_deleted
                  (deleted_to_trash "b.txt") H)
               file_b (or_introl eq_refl)).
Defined.

(** C2 on the empty model disk: the folder [a] is created by a first
    call, and a second call finds it. *)
Lemma create_folder_idempotent_failures_printed_witness :
  (model_settled (remote w_empty) /\
   create_folder 5 "a" (Some (JStr "a")) w_empty = Ret tt w_a_created /\
   status_code (answer (metadata_request "token" [("path", JStr "a")]) w_a_created) = 200) /\
  exists w2,
    create_folder 5 "a" (Some (JStr "a")) w_a_created = Ret tt w2 /\
    only_gets_since w_a_created w2 /\
    all_files w2 = all_files w_a_created /\
    all_folders w2 = all_folders w_a_created.
Proof.
  assert (H0 : model_settled (remote w_empty)) by (split; reflexivity).
  assert (H1 : create_folder 5 "a" (Some (JStr "a")) w_empty = Ret tt w_a_created)
    by (vm_compute; reflexivity).
  assert (H2 : status_code (answer (metadata_request "token" [("path", JStr "a")])
                                   w_a_created) = 200)
    by (vm_compute; reflexivity).
  split; [exact (conj H0 (conj H1 H2))|].
  destruct (proj1 (proj2 (@create_folder_idempotent_failures_printed model_service
              model_settled model_settled_closed model_settled_get
              5 "a" (JStr "a") w_empty w_a_created)) H0 H1 H2)
    as [w2 [Hsecond [_ [Hgets [Hf Hd]]]]].
  exists w2. exact (conj Hsecond (conj Hgets (conj Hf Hd))).
Defined.

(** C2 as stated fails: the creation of [x/y] on an empty disk is
    refused (409), the pair is printed, and the operation is not
    aborted: the catalogue is rebuilt by a further request, the folder
    list is printed and the call returns as after a success. *)
Lemma create_folder_failure_does_not_abort :
  exists w',
    create_folder 5 "y" (Some (JStr "x/y")) w_empty = Ret tt w' /\
    map (fun q => (req_method q, req_params q)) (sent w') =
      [(GET, [("path", JStr "x/y")]);
       (PUT, [("path", JStr "x/y")]);
       (GET, [("path", JStr "/")])] /\
    terminal w' =
      [TPrint [OTuple [OInt 409; OJson (JStr "Parent folder does not exist.")]] " " nl;
       TPrint [] " " nl;
       TPrint [OStr "Обновление содержимого Я.Диска:"] " " nl;
       TWrite ".";
       TPrint [OStr "Текущий список папок:"] " " nl].
Proof.
  eexists. refine (conj _ (conj _ _)); vm_compute; reflexivity.
Qed.



(** C1 on the disk four levels deep. *)
Lemma walk_sizes_are_descendant_sums_witness :
  (serves (fun s => s = disk_deep) (token w_deep) (JStr "/") forest_deep /\
   wf_forest "disk:/" forest_deep /\
   (forest_depth forest_deep < 5)%nat) /\
  exists w',
    _parse_catalogues 5 (JStr "/") w_deep = Ret (sum_sizes (all_files w')) w' /\
    all_files w' = forest_files forest_deep /\
    all_folders w' = forest_folders forest_deep /\
    forall F, In F (all_folders w') ->
      d_size F = sum_sizes (under F (all_files w')).
Proof.
  assert (Hdepth : (forest_depth forest_deep < 5)%nat) by (vm_compute; lia).
  split; [exact (conj serves_deep (conj wf_deep Hdepth))|].
  exact (proj1 (@walk_sizes_are_descendant_sums model_service
                  (fun s => s = disk_deep) (JStr "/") "disk:/" forest_deep 5 w_deep
                  serves_deep wf_deep Hdepth eq_refl eq_refl eq_refl)).
Defined.

(** C5 on the target [a/b] and an empty disk: the first creation is
    asked for the path [['a', 'b']]. *)
Lemma check_folder_exist_sends_segment_list_witness :
  _check_folder_exist 5 "b" "a/b" w_empty =
  (create_folder 5 "a" (Some (JList [JStr "a"; JStr "b"])) ;;
   folder_last <- lift (list_index ["a"; "b"] (-1)) ;;
   create_folder 5 folder_last (Some (JStr "a/b")))
    (answered (metadata_request "token" [("path", JStr "a")])
       (printed [OList [OStr "a"; OStr "b"]] " " nl
          (answered (metadata_request "token" [("path", JStr "a/b")]) w_empty))).
Proof.
  assert (H1 : status_code (answer (metadata_request "token" [("path", JStr "a/b")]) w_empty)
               = 404) by (vm_compute; reflexivity).
  assert (H2 : status_code
                 (answer (metadata_request "token" [("path", JStr "a")])
                    (printed [OList [OStr "a"; OStr "b"]] " " nl
                       (answered (metadata_request "token" [("path", JStr "a/b")]) w_empty)))
               = 404) by (vm_compute; reflexivity).
  exact (@check_folder_exist_sends_segment_list model_service 5 "b" "a/b" "a" w_empty
           eq_refl eq_refl H1 H2).
Defined.

(** The whole run of C5 on the model disk: the path [a] is never asked
    to be created, the list is refused, the creation of [a/b] fails for
    want of its parent, and the disk stays empty. *)
Lemma check_folder_exist_creates_nothing :
  exists w',
    _check_folder_exist 5 "b" "a/b" w_empty = Ret tt w' /\
    map (fun q => (req_method q, req_params q)) (sent w') =
      [(GET, [("path", JStr "a/b")]);
       (GET, [("path", JStr "a")]);
       (GET, [("path", JList [JStr "a"; JStr "b"])]);
       (GET, [("path", JStr "/")]);
       (GET, [("path", JStr "a/b")]);
       (PUT, [("path", JStr "a/b")]);
       (GET, [("path", JStr "/")])] /\
    Model.nodes (remote w') = [].
Proof.
  eexists. refine (conj _ (conj _ _)); vm_compute; reflexivity.
Qed.

(** C9 on the local folder [docs], whose listing is [sub; f.txt]. *)
Lemma upload_folder_stops_at_subdirectory_witness :
  let q := upload_request "token" [("path", JStr "docs/sub")] in
  let w := world_of (_check_folder_exist 5 "docs" "docs" w_docs_sub) w_docs_sub in
  (LocalFs.isdir (cwd w) (LocalFs.join "docs" "sub") = true /\
   jsubscript (body (answer q w)) "href"
     = inr (JStr "https://uploader.disk.yandex.net/disk:/docs/sub")) /\
  upload_folder_loop "docs" "docs" ["sub"; "f.txt"] None w = Raise OSError (answered q w).
Proof.
  intros q w.
  assert (H1 : LocalFs.isdir (cwd w) (LocalFs.join "docs" "sub") = true)
    by (vm_compute; reflexivity).
  assert (H2 : jsubscript (body (answer q w)) "href"
               = inr (JStr "https://uploader.disk.yandex.net/disk:/docs/sub"))
    by (vm_compute; reflexivity).
  split; [exact (conj H1 H2)|].
  exact (@upload_folder_stops_at_subdirectory model_service "docs" "docs" "sub" ["f.txt"]
           None _ w H1 H2).
Defined.

(** The whole run of C9: [upload] of [docs] ends in the error, the
    last request is the one for the address of [docs/sub], the file
    [f.txt] has not been sent and the disk holds the folder only. *)
Lemma upload_folder_leaves_file_behind :
  exists w',
    upload 5 (UPath "docs") w_docs_sub = Raise OSError w' /\
    sent_summary w' =
      [(GET, URL, [("path", JStr "docs")]);
       (GET, URL, [("path", JStr "docs")]);
       (PUT, URL, [("path", JStr "docs")]);
       (GET, URL, [("path", JStr "/")]);
       (GET, URL, [("path", JStr "disk:/docs")]);
       (GET, URL ++ "/upload", [("path", JStr "docs/sub")])] /\
    map Model.n_path (Model.nodes (remote w')) = ["disk:/docs"].
Proof.
  eexists. refine (conj _ (conj _ _)); vm_compute; reflexivity.
Qed.

(** ** The further properties on concrete sessions *)


Lemma find_biggest_empty_raises_witness :
  (bad_obj_type (Some "folder") = false /\
   entries (collection_of "folder" w_three_files) = []) /\
  find_biggest (Some "folder") w_three_files = Raise ValueError w_three_files.
Proof.
  assert (Hok : bad_obj_type (Some "folder") = false) by reflexivity.
  assert (Hnil : entries (collection_of "folder" w_three_files) = []) by reflexivity.
  exact (conj (conj Hok Hnil)
              (@find_biggest_empty_raises model_service "folder" w_three_files Hok Hnil)).
Defined.

Lemma walk_only_appends_witness :
  let w' := world_of (_parse_catalogues 5 (JStr "/") w_archives) w_archives in
  ((exists size, _parse_catalogues 5 (JStr "/") w_archives = Ret size w') \/
   (exists e, _parse_catalogues 5 (JStr "/") w_archives = Raise e w')) /\
  exists fs ds,
    all_files w' = (all_files w_archives ++ fs)%list /\
    all_folders w' = (all_folders w_archives ++ ds)%list.
Proof.
  intros w'.
  assert (Hrun : (exists size, _parse_catalogues 5 (JStr "/") w_archives = Ret size w') \/
                 (exists e, _parse_catalogues 5 (JStr "/") w_archives = Raise e w')).
  { left. exists 5. vm_compute. reflexivity. }
  exact (conj Hrun
              (@walk_only_appends model_service 5 (JStr "/") w_archives w' Hrun)).
Defined.

Lemma reload_replaces_catalogue_witness :
  (serves (fun s => s = disk_deep) (token w_deep_stale) (JStr "/") forest_deep /\
   wf_forest "disk:/" forest_deep /\
   (forest_depth forest_deep < 5)%nat /\
   remote w_deep_stale = disk_deep) /\
  exists w',
    reload 5 w_deep_stale = Ret tt w' /\
    all_files w' = forest_files forest_deep /\
    all_folders w' = forest_folders forest_deep.
Proof.
  assert (Hdepth : (forest_depth forest_deep < 5)%nat) by (vm_compute; lia).
  exact (conj (conj serves_deep (conj wf_deep (conj Hdepth eq_refl)))
              (@reload_replaces_catalogue model_service (fun s => s = disk_deep)
                 "disk:/" forest_deep 5 w_deep_stale serves_deep wf_deep Hdepth eq_refl)).
Defined.

Lemma walk_aborts_on_unreadable_directory_witness :
  let get_root := metadata_request "token" [("path", JStr "/")] in
  let w1 := @answered locked_service get_root (shown [TWrite "."] w_locked) in
  let get_dir := metadata_request "token" [("path", JStr "disk:/private")] in
  let w2 := @answered locked_service get_dir (shown [TWrite "."] w1) in
  (jsubscript (body (@answer locked_service get_root w_locked)) "_embedded"
     = inr (JObj [("items", JList [JObj locked_item])]) /\
   jsubscript (JObj [("items", JList [JObj locked_item])]) "items"
     = inr (JList [JObj locked_item]) /\
   subscript locked_item "type" = inr (JStr "dir") /\
   subscript locked_item "path" = inr (JStr "disk:/private") /\
   jsubscript (body (@answer locked_service get_dir w1)) "_embedded"
     = inl (KeyError "_embedded")) /\
  @_parse_catalogues locked_service 2 (JStr "/") w_locked
    = Raise (KeyError "_embedded") w2 /\
  all_files w2 = all_files w_locked /\ all_folders w2 = all_folders w_locked /\
  sent w2 = (sent w_locked ++ [get_root; get_dir])%list.
Proof.
  intros get_root w1 get_dir w2.
  exact (conj (conj eq_refl (conj eq_refl (conj eq_refl (conj eq_refl eq_refl))))
              (@walk_aborts_on_unreadable_directory locked_service 0 (JStr "/")
                 (JStr "disk:/private") locked_item []
                 (JObj [("items", JList [JObj locked_item])]) w_locked
                 eq_refl eq_refl eq_refl eq_refl eq_refl)).
Defined.

Lemma upload_unknown_object_raises_witness :
  (PyStr.len "nothing.txt" <> 2%nat /\
   LocalFs.exists_ (cwd w_docs) "nothing.txt" = false /\
   find_local "nothing.txt" (LocalFs.walk "." (cwd w_docs)) = None) /\
  upload 5 (UPath "nothing.txt") w_docs = Raise IndexError w_docs.
Proof.
  assert (Hlen : PyStr.len "nothing.txt" <> 2%nat) by (vm_compute; discriminate).
  assert (Hex : LocalFs.exists_ (cwd w_docs) "nothing.txt" = false)
    by (vm_compute; reflexivity).
  assert (Hfind : find_local "nothing.txt" (LocalFs.walk "." (cwd w_docs)) = None)
    by (vm_compute; reflexivity).
  exact (conj (conj Hlen (conj Hex Hfind))
              (@upload_unknown_object_raises model_service 5 "nothing.txt" w_docs
                 Hlen Hex Hfind)).
Defined.

Lemma upload_two_character_name_witness :
  PyStr.len "ab" = 2%nat /\
  exists album,
    list_index (PyStr.chars "ab") 1 = inr album /\
    upload 5 (UPath "ab") w_empty
      = (_check_folder_exist 5 album ("photos" ++ "/" ++ album) ;; raise ValueError) w_empty /\
    forall w', upload 5 (UPath "ab") w_empty <> Ret tt w'.
Proof.
  assert (Hlen : PyStr.len "ab" = 2%nat) by reflexivity.
  exact (conj Hlen (@upload_two_character_name model_service 5 "ab" w_empty Hlen)).
Defined.


Lemma check_folder_exist_cases_witness :
  (PyStr.contains "/" "docs/f.txt" = true /\
   status_code (answer (metadata_request (token w_docs) [("path", JStr "docs/f.txt")]) w_docs)
     <> 404) /\
  _check_folder_exist 5 "f.txt" "docs/f.txt" w_docs
    = Ret tt (answered (metadata_request (token w_docs) [("path", JStr "docs/f.txt")]) w_docs).
Proof.
  assert (Hslash : PyStr.contains "/" "docs/f.txt" = true) by (vm_compute; reflexivity).
  assert (Hstatus :
    status_code (answer (metadata_request (token w_docs) [("path", JStr "docs/f.txt")]) w_docs)
      <> 404) by (vm_compute; discriminate).
  exact (conj (conj Hslash Hstatus)
              (proj1 (proj2 (@check_folder_exist_cases model_service 5 "f.txt" "docs/f.txt"
                               w_docs))
                 Hslash Hstatus)).
Defined.

Lemma create_folder_asks_for_the_parent_witness :
  stdin (w_ask "0") = ["0"] /\
  sent (folder_asked (w_ask "0")) = sent (w_ask "0") /\
  create_folder 5 "new" None (w_ask "0")
    = create_folder 5 "new" (Some (JStr ("disk:/docs" ++ "/" ++ "new")))
        (folder_asked (w_ask "0")).
Proof.
  assert (Hin : stdin (w_ask "0") = ["0"]) by reflexivity.
  exact (conj Hin
          (conj (proj1 (@create_folder_asks_for_the_parent model_service 5 "new" "0" []
                          (w_ask "0") Hin))
                (proj2 (proj2 (@create_folder_asks_for_the_parent model_service 5 "new" "0" []
                                 (w_ask "0") Hin))
                   0%nat eq_refl))).
Defined.

Lemma upload_file_success_is_unchecked_witness :
  let param := [("path", JStr ("docs" ++ "/" ++ "g.txt"))] in
  let q := upload_request (token w_docs) param in
  let w0 := printed [ODict param] " " nl w_docs in
  let w1 := printed [OJson (body (answer q w0))] " " nl (answered q w0) in
  let href := Model.uploader ++ "disk:/docs/g.txt" in
  let put := mkRequest PUT href [("Content-Type", "multipart/form-data")] []
               (Some (Multipart "file" "filename" "text/plain" "hello")) in
  (jsubscript (body (answer q w1)) "href" = inr (JStr href) /\
   LocalFs.lookup (cwd w_docs) "docs/f.txt" = Some (FsFile "hello")) /\
  _upload_file "g.txt" "docs" "docs/f.txt" w_docs
    = Ret tt (printed [OStr ("Файл " ++ dq ++ "g.txt" ++ dq
                              ++ " успешно загружен на Яндекс.Диск" ++ nl)] " " nl
                (answered put (answered q w1))) /\
  sent (answered put (answered q w1)) = (sent w_docs ++ [q; q; put])%list.
Proof.
  intros param q w0 w1 href put.
  assert (Hhref : jsubscript (body (answer q w1)) "href" = inr (JStr href))
    by (vm_compute; reflexivity).
  assert (Hfile : LocalFs.lookup (cwd w_docs) "docs/f.txt" = Some (FsFile "hello"))
    by (vm_compute; reflexivity).
  exact (conj (conj Hhref Hfile)
              (@upload_file_success_is_unchecked model_service "g.txt" "docs" "docs/f.txt"
                 href "hello" w_docs Hhref Hfile)).
Defined.


Lemma size_units_witness :
  let size := round_kb (entry_size file_half) in
  (Z.abs (entry_size file_half) < 2 ^ 1023 /\
   Z.abs (entry_size file_half) < 2 ^ 53 /\
   size <= 1000) /\
  (-512 <= entry_size file_half - 1024 * size <= 512 /\
   (entry_size file_half - 1024 * size = 512 \/ entry_size file_half - 1024 * size = -512 ->
    Z.even size = true)) /\
  _size file_half = str_of_Z size ++ " KB".
Proof.
  intros size.
  assert (Hfits : Z.abs (entry_size file_half) < 2 ^ 1023) by (vm_compute; reflexivity).
  assert (Hsmall : Z.abs (entry_size file_half) < 2 ^ 53) by (vm_compute; reflexivity).
  assert (Hkb : size <= 1000) by (vm_compute; discriminate).
  exact (conj (conj Hfits (conj Hsmall Hkb))
          (conj (proj1 (@size_units model_service file_half Hfits) Hsmall)
                (proj2 (proj2 (proj2 (@size_units model_service file_half Hfits)))
                   (or_introl Hkb)))).
Defined.

(** Beyond 2^53 bytes the kilobytes are those of the nearest double:
    2^61 + 1324 bytes are 2^51 + 1.29 kilobytes, and come out as
    2^51 + 2. *)
Lemma round_kb_of_a_rounded_double :
  round_kb (2 ^ 61 + 1324) = 2 ^ 51 + 2 /\ round_half_even (2 ^ 61 + 1324) 1024 = 2 ^ 51 + 1.
Proof. split; vm_compute; reflexivity. Qed.

Lemma upload_album_requests_every_photo_witness :
  let target_folderpath := "photos" ++ "/" ++ "cats" in
  ((forall url likes date, In (url, likes, date) two_photos ->
      exists d, date_repr date = inr d) /\
   three_photos = ([("http://photos/1.jpg", 10, 1588320000)]
                     ++ ("http://photos/2.jpg", 20, -1)
                     :: [("http://photos/3.jpg", 30, 1588406400)])%list /\
   snd (render_photos [("http://photos/1.jpg", 10, 1588320000)]) = None /\
   date_repr (-1) = inl OSError) /\
  (exists w2,
     upload_photos target_folderpath two_photos w_empty = Ret tt w2 /\
     sent w2 = (sent w_empty
                ++ map (photo_request (token w_empty) target_folderpath)
                       (fst (render_photos two_photos)))%list /\
     terminal w2 = terminal w_empty) /\
  (snd (render_photos two_photos) = None /\
   map (fun '(url, likes, _) => (url, likes)) (fst (render_photos two_photos))
     = map (fun '(url, likes, _) => (url, likes)) two_photos) /\
  (exists w2,
     upload_photos target_folderpath three_photos w_empty = Raise OSError w2 /\
     sent w2 = (sent w_empty
                ++ [photo_request (token w_empty) target_folderpath
                      ("http://photos/1.jpg", 10, "1970-01-01")])%list /\
     terminal w2 = terminal w_empty) /\
  render_photos three_photos
    = (fst (render_photos [("http://photos/1.jpg", 10, 1588320000)]), Some OSError).
Proof.
  intros target_folderpath.
  assert (Hall : forall url likes date, In (url, likes, date) two_photos ->
                   exists d, date_repr date = inr d).
  { intros url likes date [E|[E|[]]]; injection E as _ _ <-; eexists; reflexivity. }
  assert (Hsplit :
    three_photos = ([("http://photos/1.jpg", 10, 1588320000)]
                      ++ ("http://photos/2.jpg", 20, -1)
                      :: [("http://photos/3.jpg", 30, 1588406400)])%list) by reflexivity.
  assert (Hbefore : snd (render_photos [("http://photos/1.jpg", 10, 1588320000)]) = None)
    by reflexivity.
  assert (Hdate : date_repr (-1) = inl OSError) by reflexivity.
  pose proof (@upload_album_requests_every_photo model_service 5 two_photos "cats" w_empty)
    as [_ [Hrun [Hrendered _]]].
  pose proof (@upload_album_requests_every_photo model_service 5 three_photos "cats" w_empty)
    as [_ [Hfail [_ Hfirst]]].
  exact (conj (conj Hall (conj Hsplit (conj Hbefore Hdate)))
          (conj (Hrun w_empty)
            (conj (Hrendered Hall)
              (conj (Hfail w_empty) (Hfirst _ _ _ _ _ _ Hsplit Hbefore Hdate))))).
Defined.
